(** * BIM question answering: query planning, sanitisation and execution

    A shallow embedding of the two chat routers of the repository (both in
    [src/unnamed/part_000]): the two-stage router (intent call, parameter
    call, optional semantic search; lines 1-654) and the unified router
    (one analysis call, category validation, volume sums; lines 655-1233).

    Conventions of the embedding.
    - A JavaScript string is a [string]; each [ascii] stands for one UTF-16
      code unit below 256, so [trim] and [toLowerCase] follow the Latin-1
      part of the language's tables.
    - A JavaScript number is a [Z]: the plans only test numbers for
      truthiness, render them, or pass them on.
    - A JavaScript object is an association list read with first match.
    - An [async] function is a function into [Outcome]: either a value or a
      thrown error carrying its message.
    - The store, the JSON parser, the embedding service and the reasoning
      service are fields of an environment record [Env]; the functions of the
      routers take the environment as an argument. *)

From Stdlib Require Import List String Ascii ZArith Bool Lia.
From Stdlib Require Import DecimalString DecimalPos.
Import ListNotations.
Open Scope list_scope.
Open Scope string_scope.

(* ================================================================== *)
(** ** JavaScript values *)

#[warnings="-register-all"] Inductive JsVal : Type :=
| JUndefined
| JNull
| JBool (b : bool)
| JNum (n : Z)
| JStr (s : string)
| JArr (items : list JsVal)
| JObj (fields : list (string * JsVal)).

Definition Obj : Type := list (string * JsVal).

(** [o.k] for an object [o]: [undefined] when the property is missing. *)
Fixpoint get (o : Obj) (k : string) : JsVal :=
  match o with
  | [] => JUndefined
  | (k', v) :: rest => if String.eqb k' k then v else get rest k
  end.

(** [{ ...o, k: v }]. *)
Definition set (o : Obj) (k : string) (v : JsVal) : Obj :=
  (k, v) :: filter (fun kv => negb (String.eqb (fst kv) k)) o.

(** ToBoolean. *)
Definition truthy (v : JsVal) : bool :=
  match v with
  | JUndefined | JNull => false
  | JBool b => b
  | JNum n => negb (Z.eqb n 0)
  | JStr s => negb (String.eqb s "")
  | JArr _ | JObj _ => true
  end.

(** [a || b]. *)
Definition js_or (a b : JsVal) : JsVal := if truthy a then a else b.

(** [a ?? b]. *)
Definition js_nullish (a b : JsVal) : JsVal :=
  match a with
  | JUndefined | JNull => b
  | _ => a
  end.

Fixpoint join (sep : string) (parts : list string) : string :=
  match parts with
  | [] => ""
  | [p] => p
  | p :: rest => p ++ sep ++ join sep rest
  end.

Definition string_of_Z (n : Z) : string :=
  NilZero.string_of_int (Z.to_int n).

(** [String(v)]; an array renders its items joined by commas, with [null]
    and [undefined] items rendered empty. *)
Fixpoint ToString (v : JsVal) : string :=
  match v with
  | JUndefined => "undefined"
  | JNull => "null"
  | JBool true => "true"
  | JBool false => "false"
  | JNum n => string_of_Z n
  | JStr s => s
  | JArr items =>
      join ","
        ((fix each (l : list JsVal) : list string :=
            match l with
            | [] => []
            | x :: rest =>
                match x with
                | JUndefined | JNull => ""
                | _ => ToString x
                end :: each rest
            end) items)
  | JObj _ => "[object Object]"
  end.

(** [Array.prototype.join] on an array of values. *)
Definition array_join (sep : string) (items : list JsVal) : string :=
  join sep
    (map (fun x => match x with
                   | JUndefined | JNull => ""
                   | _ => ToString x
                   end) items).

(** Strict equality [a === b] on the values compared in the routers
    (strings, and anything against a string literal). *)
Definition strict_eq_str (v : JsVal) (s : string) : bool :=
  match v with
  | JStr t => String.eqb t s
  | _ => false
  end.

(* ================================================================== *)
(** ** String utilities *)

(** White space of [String.prototype.trim] among the code units below 256. *)
Definition is_ws (c : ascii) : bool :=
  let n := nat_of_ascii c in
  (Nat.eqb n 9 || Nat.eqb n 10 || Nat.eqb n 11 || Nat.eqb n 12
   || Nat.eqb n 13 || Nat.eqb n 32 || Nat.eqb n 160)%bool.

Fixpoint trimStart (s : string) : string :=
  match s with
  | EmptyString => EmptyString
  | String c r => if is_ws c then trimStart r else s
  end.

Fixpoint trimEnd (s : string) : string :=
  match s with
  | EmptyString => EmptyString
  | String c r =>
      match trimEnd r with
      | EmptyString => if is_ws c then EmptyString else String c EmptyString
      | r' => String c r'
      end
  end.

Definition trim (s : string) : string := trimEnd (trimStart s).

(** A string that does not begin with white space. *)
Definition starts_clean (s : string) : Prop :=
  match s with
  | EmptyString => True
  | String c _ => is_ws c = false
  end.

(** [toLowerCase] on one code unit below 256: A-Z, and the Latin-1 capitals
    U+00C0-U+00DE except the multiplication sign U+00D7. *)
Definition lower_char (c : ascii) : ascii :=
  let n := nat_of_ascii c in
  if ((Nat.leb 65 n && Nat.leb n 90)
      || (Nat.leb 192 n && Nat.leb n 222 && negb (Nat.eqb n 215)))%bool
  then ascii_of_nat (n + 32)
  else c.

Fixpoint toLowerCase (s : string) : string :=
  match s with
  | EmptyString => EmptyString
  | String c r => String (lower_char c) (toLowerCase r)
  end.

(** [function norm(s) { return String(s || "").trim(); }] *)
Definition norm (s : JsVal) : string := trim (ToString (js_or s (JStr ""))).

(** [function stripEmpty(arr) { return (arr || []).map(norm).filter(Boolean); }] *)
Definition stripEmpty (arr : list JsVal) : list string :=
  filter (fun s => negb (String.eqb s "")) (map norm arr).

(* ================================================================== *)
(** ** Constants *)

Definition ALLOWED_PARAMS : list string :=
  [ "level_number"; "room_name"; "room_type"; "system_name"; "system_type";
    "manufacturer"; "model_name"; "type_name"; "family_name";
    "omniclass_title" ].

Definition SAMPLE_KEYS : list string :=
  [ "level_number"; "room_name"; "room_type"; "system_name"; "system_type";
    "manufacturer"; "model_name"; "omniclass_title"; "type_name";
    "family_name" ].

Definition DEFAULT_LIMIT : Z := 20.
Definition DEFAULT_TOP_K : Z := 100.

Definition mem_string (s : string) (l : list string) : bool :=
  existsb (String.eqb s) l.

(** [ALLOWED_PARAMS.has(v)]: a [Set] of strings holds no other value. *)
Definition ALLOWED_PARAMS_has (v : JsVal) : bool :=
  match v with
  | JStr s => mem_string s ALLOWED_PARAMS
  | _ => false
  end.

(** [arr.includes(v)] for an array of strings. *)
Definition includes (arr : list string) (v : JsVal) : bool :=
  match v with
  | JStr s => mem_string s arr
  | _ => false
  end.

(** [arr.find(pred)]: the first item that satisfies [pred], or [undefined]. *)
Definition find_str (pred : string -> bool) (arr : list string) : JsVal :=
  match find pred arr with
  | Some c => JStr c
  | None => JUndefined
  end.

(* ================================================================== *)
(** ** Outcomes of calls that may throw *)

Inductive Outcome (A : Type) : Type :=
| Ret (a : A)
| Throw (message : string).

Arguments Ret {A} a.
Arguments Throw {A} message.

Definition bind {A B : Type} (m : Outcome A) (k : A -> Outcome B) : Outcome B :=
  match m with
  | Ret a => k a
  | Throw e => Throw e
  end.

Notation "x <- m ;; k" := (bind m (fun x => k))
  (at level 61, m at next level, right associativity).

(** [for (const x of xs) { ... }] collecting one result per item, stopping
    at the first throw. *)
Fixpoint mapM {A B : Type} (f : A -> Outcome B) (xs : list A) : Outcome (list B) :=
  match xs with
  | [] => Ret []
  | x :: rest =>
      y <- f x ;;
      ys <- mapM f rest ;;
      Ret (y :: ys)
  end.

(** A loop threading an accumulator, stopping at the first throw. *)
Fixpoint foldM {A S : Type} (f : S -> A -> Outcome S) (s : S) (xs : list A) : Outcome S :=
  match xs with
  | [] => Ret s
  | x :: rest => s' <- f s x ;; foldM f s' rest
  end.

(* ================================================================== *)
(** ** Plans, metadata, results *)

Record Plan : Type := mkPlan {
  urn : JsVal;
  intent : JsVal;
  task : JsVal;
  category : JsVal;
  limit : JsVal;
  filterParam : JsVal;
  filterValue : JsVal;
  targetParam : JsVal;
  propsFlatKey : JsVal;
  useSemanticSearch : JsVal;
  semanticQuery : JsVal;
  topK : JsVal;
  notes : JsVal
}.

Definition with_filterParam (p : Plan) (v : JsVal) : Plan :=
  mkPlan (urn p) (intent p) (task p) (category p) (limit p) v (filterValue p)
         (targetParam p) (propsFlatKey p) (useSemanticSearch p)
         (semanticQuery p) (topK p) (notes p).

Definition with_targetParam (p : Plan) (v : JsVal) : Plan :=
  mkPlan (urn p) (intent p) (task p) (category p) (limit p) (filterParam p)
         (filterValue p) v (propsFlatKey p) (useSemanticSearch p)
         (semanticQuery p) (topK p) (notes p).

Definition with_filterValue (p : Plan) (v : JsVal) : Plan :=
  mkPlan (urn p) (intent p) (task p) (category p) (limit p) (filterParam p)
         v (targetParam p) (propsFlatKey p) (useSemanticSearch p)
         (semanticQuery p) (topK p) (notes p).

Definition with_useSemanticSearch (p : Plan) (v : JsVal) : Plan :=
  mkPlan (urn p) (intent p) (task p) (category p) (limit p) (filterParam p)
         (filterValue p) (targetParam p) (propsFlatKey p) v
         (semanticQuery p) (topK p) (notes p).

(** The object returned by [getMeta]; the two-stage router has no
    [volumeKeys] property. *)
Record Meta : Type := mkMeta {
  categoryField : string;
  categories : list string;
  paramSamples : list (string * list string);
  areaKeys : list string;
  volumeKeys : option (list string)
}.

(** The objects returned by the task handlers, one constructor per [kind]. *)
Inductive TaskResult : Type :=
| RCount (count : JsVal)
| RDistinct (field : JsVal) (values : list string)
| RGroupCount (field : JsVal) (rows : list Obj)
| RSumArea (key total_area n unit notes : JsVal)
| RSumVolume (key total_volume n unit notes : JsVal)
| RList (docs : list JsVal).

(** A prompt is kept as the data its template interpolates; the fixed text
    around the data is not reproduced. *)
Inductive Prompt : Type :=
| HintPrompt (question : JsVal) (availableCategories : list string)
| IntentPrompt (question : JsVal) (cats : list string) (hintCategory : JsVal)
| ParameterPrompt (question : JsVal) (plan1 : Obj)
    (samples : list (string * list string)) (areaText : list string)
| AnalysisPrompt (question : JsVal) (cats : list string)
    (samples : list (string * list string)) (areaText volumeText : list string)
| AreaPrompt (question categoryText key : JsVal) (filterText : string)
    (rows : list Obj)
| VolumePrompt (question categoryText key : JsVal) (filterText : string)
    (rows : list Obj)
| AnswerPrompt (question : JsVal) (meta : Meta) (plan : Plan) (result : TaskResult)
| GeneralPrompt (question : JsVal).

(** The collaborators of the routers. [db_all sql params] is
    [db.prepare(sql).all(...params)], [db_get] likewise with [.get]. *)
Record Env : Type := mkEnv {
  db_all : string -> list JsVal -> Outcome (list Obj);
  db_get : string -> list JsVal -> Outcome Obj;
  JSON_parse : string -> Outcome JsVal;
  generateEmbedding : JsVal -> Outcome JsVal;
  semanticSearch : JsVal -> JsVal -> JsVal -> Outcome (list JsVal);
  geminiJson : Prompt -> Outcome Obj;
  geminiText : Prompt -> Outcome string
}.

Inductive Hits : Type :=
| HitsList (count : nat) (docs : list JsVal)
| HitsResult (result : TaskResult).

(** What the route handler does with the response object: a 400 reply, a
    JSON reply, or [next(err)]. *)
Inductive Response : Type :=
| BadRequest (error : string)
| GeneralReply (answer : string) (debug : option (Meta * Obj))
| DataReply (answer : string) (hits : Hits) (debug : option (Meta * Plan * TaskResult))
| Failed (message : string).

(* ================================================================== *)
(** ** Pieces shared by the two routers *)

Definition dq : string := String (ascii_of_nat 34) EmptyString.
Definition nl : string := String (ascii_of_nat 10) EmptyString.
Definition pad13 : string := "             ".
Definition pad20 : string := "                    ".

(** The default units: the letter m followed by U+00B2, respectively U+00B3. *)
Definition unit_m2 : string := String "m" (String (ascii_of_nat 178) EmptyString).

(** The default unit of the area sum in the two-stage router, as line 201
    holds it: the three code units m, U+00C2, U+00B2. *)
Definition unit_m2_twoStage : string :=
  String "m" (String (ascii_of_nat 194) (String (ascii_of_nat 178) EmptyString)).
Definition unit_m3 : string := String "m" (String (ascii_of_nat 179) EmptyString).

(** Case folding of a regular expression with the [i] flag, for a pattern
    of ASCII letters: only A-Z are folded. *)
Definition fold_char (c : ascii) : ascii :=
  let n := nat_of_ascii c in
  if (Nat.leb 65 n && Nat.leb n 90)%bool then ascii_of_nat (n + 32) else c.

Fixpoint fold_case (s : string) : string :=
  match s with
  | EmptyString => EmptyString
  | String c r => String (fold_char c) (fold_case r)
  end.

Fixpoint has_substring (pat s : string) : bool :=
  (String.prefix pat s
   || match s with
      | EmptyString => false
      | String _ r => has_substring pat r
      end)%bool.

(** [/area/i.test(k)] and [/volume/i.test(k)]. *)
Definition test_area (k : string) : bool := has_substring "area" (fold_case k).
Definition test_volume (k : string) : bool := has_substring "volume" (fold_case k).

(** [set.add(k)] on a [Set] kept in insertion order. *)
Definition Set_add (k : string) (ks : list string) : list string :=
  if mem_string k ks then ks else (ks ++ [k])%list.

Definition index_keys (n : nat) : list string :=
  map (fun i => string_of_Z (Z.of_nat i)) (seq 0 n).

(** [Object.keys(v)]. For an object the keys are listed in insertion order;
    the language lists integer-like keys first, which no test on letters
    selects. *)
Definition Object_keys (v : JsVal) : Outcome (list string) :=
  match v with
  | JUndefined | JNull =>
      Throw "TypeError: Cannot convert undefined or null to object"
  | JObj fields => Ret (map fst fields)
  | JArr items => Ret (index_keys (List.length items))
  | JStr s => Ret (index_keys (String.length s))
  | JBool _ | JNum _ => Ret []
  end.

Definition countSql (whereClause : string) : string :=
  "SELECT COUNT(*) as count FROM elements WHERE " ++ whereClause.

(** [function handleCountTask(db, whereClause, params)] (lines 104-113 and
    757-766). *)
Definition handleCountTask (env : Env) (whereClause : string)
    (params : list JsVal) : Outcome TaskResult :=
  row <- db_get env (countSql whereClause) params ;;
  Ret (RCount (get row "count")).

(** The projection of one row in [handleListTask]. *)
Definition listDoc (r : Obj) : JsVal :=
  JObj
    [ ("urn", get r "urn");
      ("guid", get r "guid");
      ("dbId", get r "dbId");
      ("name", get r "name");
      ("basic", JObj [ ("component_type", get r "component_type");
                       ("type_name", get r "type_name");
                       ("family_name", get r "family_name") ]);
      ("location", JObj [ ("level_number", get r "level_number");
                          ("room_name", get r "room_name");
                          ("room_type", get r "room_type") ]);
      ("system", JObj [ ("system_type", get r "system_type");
                        ("system_name", get r "system_name") ]);
      ("equipment", JObj [ ("manufacturer", get r "manufacturer");
                           ("model_name", get r "model_name") ]);
      ("omniclass", JObj [ ("title", get r "omniclass_title");
                           ("number", get r "omniclass_number") ]) ].

Definition listColumns : string :=
  "SELECT urn, guid, dbId, name, component_type, type_name, family_name," ++ nl
  ++ pad20 ++ "level_number, room_name, room_type," ++ nl
  ++ pad20 ++ "system_type, system_name," ++ nl
  ++ pad20 ++ "manufacturer, model_name," ++ nl
  ++ pad20 ++ "omniclass_title, omniclass_number" ++ nl
  ++ pad13 ++ "FROM elements" ++ nl.

(** The JSON path bound by the sum handlers. *)
Definition jsonPath (key : JsVal) : JsVal :=
  JStr ("$." ++ dq ++ ToString key ++ dq).

(** The query for the categories in [getMeta] (lines 62-66 and 712-716). *)
Definition categoriesSql : string :=
  "SELECT DISTINCT component_type FROM elements WHERE urn = ? AND component_type IS NOT NULL AND component_type != ''".

(** The query of [handleSumAreaTask] (lines 149-153 and 801-805). *)
Definition sumAreaSql (whereClause : string) : string :=
  "SELECT json_extract(props_flat, ?) as area_raw, name, type_name, level_number FROM elements WHERE "
  ++ whereClause.

(** The normalised category of [runQuery] (lines 258 and 957):
    [plan.category ? norm(plan.category) : null]. *)
Definition planCategory (plan : Plan) : JsVal :=
  if truthy (category plan) then JStr (norm (category plan)) else JNull.

(** The test of [runQuery] on [plan.filterValue] (lines 297-299 and
    970-972): neither [undefined] nor [null], and not blank once rendered
    and trimmed. *)
Definition filterValue_present (v : JsVal) : bool :=
  match v with
  | JUndefined | JNull => false
  | _ => negb (String.eqb (trim (ToString v)) "")
  end.

(** The category and attribute clauses of [runQuery] (lines 290-303 and
    963-976), with the values they bind. *)
Definition categoryClause (meta : Meta) (category : JsVal)
  : list string * list JsVal :=
  if truthy category
  then ([categoryField meta ++ " = ?"], [category])
  else ([], []).

Definition attributeClause (plan : Plan) : list string * list JsVal :=
  if (truthy (filterParam plan) && filterValue_present (filterValue plan))%bool
  then ([ToString (filterParam plan) ++ " = ?"], [filterValue plan])
  else ([], []).

(** The query context interpolated into the prompts of the sum handlers:
    [plan.category || "All components"] and
    [plan.filterParam ? `${plan.filterParam} = ${plan.filterValue}` : "None"]. *)
Definition categoryText (plan : Plan) : JsVal :=
  js_or (category plan) (JStr "All components").

Definition filterText (plan : Plan) : string :=
  if truthy (filterParam plan)
  then ToString (filterParam plan) ++ " = " ++ ToString (filterValue plan)
  else "None".

(** [result.kind === "list" ? { count: result.docs.length, docs } : result]. *)
Definition hitsOf (result : TaskResult) : Hits :=
  match result with
  | RList docs => HitsList (List.length docs) docs
  | _ => HitsResult result
  end.


(** The [try { ... } catch (err) { next(err); }] around a handler body. *)
Definition catchNext (body : Outcome Response) : Response :=
  match body with
  | Ret r => r
  | Throw e => Failed e
  end.

(* ================================================================== *)
(** ** The two-stage router (lines 1-654) *)

Module TwoStage.

Definition sampleSql (k : string) : string :=
  "SELECT DISTINCT " ++ k ++ " FROM elements WHERE urn = ? AND " ++ k
  ++ " IS NOT NULL AND " ++ k ++ " != '' LIMIT 15".

Definition docsSql : string :=
  "SELECT props_flat FROM elements WHERE urn = ? LIMIT 50".

(** One turn of the loop over [docs] in [getMeta] (lines 84-90). *)
Definition scanDoc (env : Env) (areaKeySet : list string) (d : Obj)
  : Outcome (list string) :=
  if negb (truthy (get d "props_flat")) then Ret areaKeySet
  else
    pf <- JSON_parse env (ToString (get d "props_flat")) ;;
    keys <- Object_keys pf ;;
    Ret (fold_left
           (fun acc k => if test_area k then Set_add k acc else acc)
           keys areaKeySet).

(** [async function getMeta(db, urn)] (lines 61-98). *)
Definition getMeta (env : Env) (urn : JsVal) : Outcome Meta :=
  compRows <- db_all env categoriesSql [urn] ;;
  let categories :=
    stripEmpty (map (fun r => get r "component_type") compRows) in
  paramSamples <-
    mapM (fun k =>
            rows <- db_all env (sampleSql k) [urn] ;;
            Ret (k, stripEmpty (map (fun r => get r k) rows)))
         SAMPLE_KEYS ;;
  docs <- db_all env docsSql [urn] ;;
  areaKeySet <- foldM (scanDoc env) [] docs ;;
  Ret (mkMeta "component_type" categories paramSamples
              (firstn 200 areaKeySet) None).

Definition distinctSql (field whereClause : string) : string :=
  "SELECT DISTINCT " ++ field ++ " FROM elements WHERE " ++ whereClause
  ++ " AND " ++ field ++ " IS NOT NULL LIMIT ?".

(** [function handleDistinctTask(db, whereClause, params, field, limit)]
    (lines 115-126). *)
Definition handleDistinctTask (env : Env) (whereClause : string)
    (params : list JsVal) (field limit : JsVal) : Outcome TaskResult :=
  if negb (truthy field) then Throw "distinct requires targetParam"
  else
    rows <- db_all env (distinctSql (ToString field) whereClause)
                   (params ++ [limit])%list ;;
    Ret (RDistinct field
           (filter (fun s => negb (String.eqb s ""))
                   (map (fun r => norm (get r (ToString field))) rows))).

Definition groupCountSql (field whereClause : string) : string :=
  "SELECT " ++ field ++ ", COUNT(*) as count" ++ nl
  ++ pad13 ++ "FROM elements" ++ nl
  ++ pad13 ++ "WHERE " ++ whereClause ++ " AND " ++ field ++ " IS NOT NULL" ++ nl
  ++ pad13 ++ "GROUP BY " ++ field ++ nl
  ++ pad13 ++ "ORDER BY count DESC" ++ nl
  ++ pad13 ++ "LIMIT ?".

(** [function handleGroupCountTask(db, whereClause, params, field, limit)]
    (lines 128-143). *)
Definition handleGroupCountTask (env : Env) (whereClause : string)
    (params : list JsVal) (field limit : JsVal) : Outcome TaskResult :=
  if negb (truthy field) then Throw "group_count requires targetParam"
  else
    rows <- db_all env (groupCountSql (ToString field) whereClause)
                   (params ++ [limit])%list ;;
    Ret (RGroupCount field rows).

(** [async function handleSumAreaTask(db, whereClause, params, plan, question)]
    (lines 145-204). *)
Definition handleSumAreaTask (env : Env) (whereClause : string)
    (params : list JsVal) (plan : Plan) (question : JsVal)
  : Outcome TaskResult :=
  let key := propsFlatKey plan in
  if negb (truthy key) then Throw "sum_area requires propsFlatKey"
  else
    rows <- db_all env (sumAreaSql whereClause) (jsonPath key :: params) ;;
    areaResult <-
      geminiJson env
        (AreaPrompt (js_or question (notes plan)) (categoryText plan) key
                    (filterText plan) (firstn 100 rows)) ;;
    Ret (RSumArea key
           (js_or (get areaResult "total_area") (JNum 0))
           (js_or (get areaResult "count") (JNum 0))
           (js_or (get areaResult "unit") (JStr unit_m2_twoStage))
           (js_or (get areaResult "notes") (JStr ""))).

Definition listSql (whereClause : string) : string :=
  listColumns ++ pad13 ++ "WHERE " ++ whereClause ++ nl ++ pad13 ++ "LIMIT ?".

(** [function handleListTask(db, whereClause, params, limit)]
    (lines 206-250). *)
Definition handleListTask (env : Env) (whereClause : string)
    (params : list JsVal) (limit : JsVal) : Outcome TaskResult :=
  rows <- db_all env (listSql whereClause) (params ++ [limit])%list ;;
  Ret (RList (map listDoc rows)).

(** The semantic search of [runQuery] (lines 261-280): [None] is the
    initial [null] of [candidateIds]. *)
Definition semanticCandidates (env : Env) (plan : Plan)
  : option (list JsVal) :=
  if (truthy (useSemanticSearch plan) && truthy (semanticQuery plan))%bool
  then
    match generateEmbedding env (semanticQuery plan) with
    | Throw _ => None
    | Ret queryEmbed =>
        if truthy queryEmbed then
          match semanticSearch env (urn plan) queryEmbed
                  (js_or (topK plan) (JNum DEFAULT_TOP_K)) with
          | Ret ids => Some ids
          | Throw _ => None
          end
        else None
    end
  else None.

Definition idClause (candidateIds : option (list JsVal)) : list string :=
  match candidateIds with
  | Some ((_ :: _) as ids) => ["id IN (" ++ array_join "," ids ++ ")"]
  | _ => []
  end.

(** The WHERE clause of [runQuery] (lines 283-305): the list of clauses
    and the bound parameters. *)
Definition compileWhere (meta : Meta) (plan : Plan)
    (candidateIds : option (list JsVal)) : list string * list JsVal :=
  let cat := categoryClause meta (planCategory plan) in
  let attr := attributeClause plan in
  (("urn = ?" :: idClause candidateIds) ++ fst cat ++ fst attr,
   (urn plan :: snd cat) ++ snd attr)%list.

(** [async function runQuery(db, meta, plan, question)] (lines 256-332). *)
Definition runQuery (env : Env) (meta : Meta) (plan : Plan)
    (question : JsVal) : Outcome TaskResult :=
  let limit :=
    match limit plan with
    | JNum n => JNum n
    | _ => JNum DEFAULT_LIMIT
    end in
  let candidateIds := semanticCandidates env plan in
  let '(whereClauses, params) := compileWhere meta plan candidateIds in
  let whereClause := join " AND " whereClauses in
  if strict_eq_str (task plan) "count" then
    handleCountTask env whereClause params
  else if strict_eq_str (task plan) "distinct" then
    handleDistinctTask env whereClause params (targetParam plan) limit
  else if strict_eq_str (task plan) "group_count" then
    handleGroupCountTask env whereClause params (targetParam plan) limit
  else if strict_eq_str (task plan) "sum_area" then
    handleSumAreaTask env whereClause params plan question
  else
    handleListTask env whereClause params limit.

(** [async function detectHintCategory(question, availableCategories)]
    (lines 338-386); its own [catch] turns a failed call into [null]. *)
Definition detectHintCategory (env : Env) (question : JsVal)
    (availableCategories : list string) : JsVal :=
  if (negb (truthy question)
      || Nat.eqb (List.length availableCategories) 0)%bool
  then JNull
  else
    match geminiJson env (HintPrompt question availableCategories) with
    | Throw _ => JNull
    | Ret result =>
        if (truthy (get result "category")
            && negb (strict_eq_str (get result "confidence") "low"))%bool
        then get result "category"
        else JNull
    end.

(** [function intentPrompt({ question, categories, hintCategory })]
    (lines 392-428). *)
Definition intentPrompt (question : JsVal) (categories : list string)
    (hintCategory : JsVal) : Prompt :=
  IntentPrompt question (firstn 120 categories)
               (js_or hintCategory (JStr "null")).

(** [function parameterPrompt({ question, plan1, paramSamples, areaKeys })]
    (lines 430-489). *)
Definition parameterPrompt (question : JsVal) (plan1 : Obj)
    (paramSamples : list (string * list string)) (areaKeys : list string)
  : Prompt :=
  ParameterPrompt question plan1
    (map (fun kv => (fst kv, firstn 8 (snd kv))) paramSamples)
    (firstn 40 areaKeys).

(** [function buildQueryPlan(plan1, plan2, urn, category)]
    (lines 529-545). *)
Definition buildQueryPlan (plan1 plan2 : Obj) (urn category : JsVal) : Plan :=
  {| urn := urn;
     intent := JStr "bim";
     task := js_or (get plan1 "task") (JStr "count");
     category := category;
     limit := js_or (get plan2 "limit")
                    (js_or (get plan1 "limit") (JNum DEFAULT_LIMIT));
     filterParam := js_or (get plan2 "filterParam") JNull;
     filterValue := js_nullish (get plan2 "filterValue") JNull;
     targetParam := js_or (get plan2 "targetParam") JNull;
     propsFlatKey := js_or (get plan2 "propsFlatKey") JNull;
     useSemanticSearch := js_or (get plan2 "useSemanticSearch") (JBool false);
     semanticQuery := js_or (get plan2 "semanticQuery") JNull;
     topK := js_or (get plan2 "topK") (JNum DEFAULT_TOP_K);
     notes := js_or (get plan1 "notes") (JStr "") |}.

(** [function validatePlanParams(plan)] (lines 547-555). *)
Definition validatePlanParams (plan : Plan) : Plan :=
  let plan :=
    if (truthy (filterParam plan)
        && negb (ALLOWED_PARAMS_has (filterParam plan)))%bool
    then with_filterParam plan JNull else plan in
  if (truthy (targetParam plan)
      && negb (ALLOWED_PARAMS_has (targetParam plan)))%bool
  then with_targetParam plan JNull else plan.

(** The category carried into the plan (lines 604-612): the trimmed
    category of the intent step, or the hint when the guard holds. *)
Definition intentCategory (plan1 : Obj) : JsVal :=
  if truthy (get plan1 "category")
  then JStr (norm (get plan1 "category")) else JNull.

Definition finalCategory (plan1 : Obj) (hintCategory : JsVal)
    (categories : list string) : JsVal :=
  let category := intentCategory plan1 in
  if (negb (truthy category) && truthy hintCategory
      && includes categories hintCategory)%bool
  then hintCategory
  else category.

(** [router.post("/", async (req, res, next) => { ... })]
    (lines 561-652), on the request body. *)
Definition post (env : Env) (body : Obj) : Response :=
  let urn := get body "urn" in
  let question := get body "question" in
  let debug := get body "debug" in
  if negb (truthy urn) then BadRequest "Missing urn"
  else if negb (truthy question) then BadRequest "Missing question"
  else
    catchNext
      (meta <- getMeta env urn ;;
       let hintCategory :=
         detectHintCategory env question (categories meta) in
       plan1 <- geminiJson env
                  (intentPrompt question (categories meta) hintCategory) ;;
       if strict_eq_str (get plan1 "intent") "general" then
         answer <- geminiText env (GeneralPrompt question) ;;
         Ret (GeneralReply answer
                (if truthy debug then Some (meta, plan1) else None))
       else
         let category :=
           finalCategory plan1 hintCategory (categories meta) in
         plan2 <- geminiJson env
                    (parameterPrompt question (set plan1 "category" category)
                       (paramSamples meta) (areaKeys meta)) ;;
         let plan :=
           validatePlanParams (buildQueryPlan plan1 plan2 urn category) in
         result <- runQuery env meta plan question ;;
         answer <- geminiText env (AnswerPrompt question meta plan result) ;;
         Ret (DataReply answer (hitsOf result)
                (if truthy debug then Some (meta, plan, result) else None))).

End TwoStage.

(* ================================================================== *)
(** ** The unified router (lines 655-1233) *)

Module Unified.

Definition sampleSql (k : string) : string :=
  "SELECT DISTINCT " ++ k ++ " FROM elements WHERE urn = ? AND " ++ k
  ++ " IS NOT NULL AND " ++ k ++ " != ''".

Definition docsSql : string :=
  "SELECT props_flat FROM elements WHERE urn = ?".

(** One turn of the loop over [docs] in [getMeta] (lines 735-742); the
    state is the pair of key sets. *)
Definition scanDoc (env : Env) (sets : list string * list string) (d : Obj)
  : Outcome (list string * list string) :=
  if negb (truthy (get d "props_flat")) then Ret sets
  else
    pf <- JSON_parse env (ToString (get d "props_flat")) ;;
    keys <- Object_keys pf ;;
    Ret (fold_left
           (fun acc k =>
              let area := if test_area k then Set_add k (fst acc) else fst acc in
              let vol := if test_volume k then Set_add k (snd acc) else snd acc in
              (area, vol))
           keys sets).

(** [async function getMeta(db, urn)] (lines 711-751). *)
Definition getMeta (env : Env) (urn : JsVal) : Outcome Meta :=
  compRows <- db_all env categoriesSql [urn] ;;
  let categories :=
    stripEmpty (map (fun r => get r "component_type") compRows) in
  paramSamples <-
    mapM (fun k =>
            rows <- db_all env (sampleSql k) [urn] ;;
            Ret (k, stripEmpty (map (fun r => get r k) rows)))
         SAMPLE_KEYS ;;
  docs <- db_all env docsSql [urn] ;;
  sets <- foldM (scanDoc env) ([], []) docs ;;
  Ret (mkMeta "component_type" categories paramSamples
              (fst sets) (Some (snd sets))).

Definition distinctSql (field whereClause : string) : string :=
  "SELECT DISTINCT " ++ field ++ " FROM elements WHERE " ++ whereClause
  ++ " AND " ++ field ++ " IS NOT NULL".

(** [function handleDistinctTask(db, whereClause, params, field)]
    (lines 768-779). *)
Definition handleDistinctTask (env : Env) (whereClause : string)
    (params : list JsVal) (field : JsVal) : Outcome TaskResult :=
  if negb (truthy field) then Throw "distinct requires targetParam"
  else
    rows <- db_all env (distinctSql (ToString field) whereClause) params ;;
    Ret (RDistinct field
           (filter (fun s => negb (String.eqb s ""))
                   (map (fun r => norm (get r (ToString field))) rows))).

Definition groupCountSql (field whereClause : string) : string :=
  "SELECT " ++ field ++ ", COUNT(*) as count" ++ nl
  ++ pad13 ++ "FROM elements" ++ nl
  ++ pad13 ++ "WHERE " ++ whereClause ++ " AND " ++ field ++ " IS NOT NULL" ++ nl
  ++ pad13 ++ "GROUP BY " ++ field ++ nl
  ++ pad13 ++ "ORDER BY count DESC".

(** [function handleGroupCountTask(db, whereClause, params, field)]
    (lines 781-795). *)
Definition handleGroupCountTask (env : Env) (whereClause : string)
    (params : list JsVal) (field : JsVal) : Outcome TaskResult :=
  if negb (truthy field) then Throw "group_count requires targetParam"
  else
    rows <- db_all env (groupCountSql (ToString field) whereClause) params ;;
    Ret (RGroupCount field rows).

(** [async function handleSumAreaTask(db, whereClause, params, plan, question)]
    (lines 797-850). *)
Definition handleSumAreaTask (env : Env) (whereClause : string)
    (params : list JsVal) (plan : Plan) (question : JsVal)
  : Outcome TaskResult :=
  let key := propsFlatKey plan in
  if negb (truthy key) then Throw "sum_area requires propsFlatKey"
  else
    rows <- db_all env (sumAreaSql whereClause) (jsonPath key :: params) ;;
    areaResult <-
      geminiJson env
        (AreaPrompt (js_or question (notes plan)) (categoryText plan) key
                    (filterText plan) (firstn 200 rows)) ;;
    Ret (RSumArea key
           (js_or (get areaResult "total_area") (JNum 0))
           (js_or (get areaResult "count") (JNum 0))
           (js_or (get areaResult "unit") (JStr unit_m2))
           (js_or (get areaResult "notes") (JStr ""))).

Definition sumVolumeSql (whereClause : string) : string :=
  "SELECT json_extract(props_flat, ?) as volume_raw, name, type_name, level_number FROM elements WHERE "
  ++ whereClause.

(** [async function handleSumVolumeTask(db, whereClause, params, plan, question)]
    (lines 852-904). *)
Definition handleSumVolumeTask (env : Env) (whereClause : string)
    (params : list JsVal) (plan : Plan) (question : JsVal)
  : Outcome TaskResult :=
  let key := js_or (propsFlatKey plan) (JStr "Dimensions.Volume") in
  rows <- db_all env (sumVolumeSql whereClause) (jsonPath key :: params) ;;
  volumeResult <-
    geminiJson env
      (VolumePrompt (js_or question (notes plan)) (categoryText plan) key
                    (filterText plan) (firstn 200 rows)) ;;
  Ret (RSumVolume key
         (js_or (get volumeResult "total_volume") (JNum 0))
         (js_or (get volumeResult "count") (JNum 0))
         (js_or (get volumeResult "unit") (JStr unit_m3))
         (js_or (get volumeResult "notes") (JStr ""))).

Definition listSql (whereClause : string) : string :=
  listColumns ++ pad13 ++ "WHERE " ++ whereClause.

(** [function handleListTask(db, whereClause, params)] (lines 906-949). *)
Definition handleListTask (env : Env) (whereClause : string)
    (params : list JsVal) : Outcome TaskResult :=
  rows <- db_all env (listSql whereClause) params ;;
  Ret (RList (map listDoc rows)).

(** The WHERE clause of [runQuery] (lines 960-978). *)
Definition compileWhere (meta : Meta) (plan : Plan)
  : list string * list JsVal :=
  let cat := categoryClause meta (planCategory plan) in
  let attr := attributeClause plan in
  (["urn = ?"] ++ fst cat ++ fst attr,
   (urn plan :: snd cat) ++ snd attr)%list.

(** [async function runQuery(db, meta, plan, question)] (lines 955-995). *)
Definition runQuery (env : Env) (meta : Meta) (plan : Plan)
    (question : JsVal) : Outcome TaskResult :=
  let '(whereClauses, params) := compileWhere meta plan in
  let whereClause := join " AND " whereClauses in
  if strict_eq_str (task plan) "count" then
    handleCountTask env whereClause params
  else if strict_eq_str (task plan) "distinct" then
    handleDistinctTask env whereClause params (targetParam plan)
  else if strict_eq_str (task plan) "group_count" then
    handleGroupCountTask env whereClause params (targetParam plan)
  else if strict_eq_str (task plan) "sum_area" then
    handleSumAreaTask env whereClause params plan question
  else if strict_eq_str (task plan) "sum_volume" then
    handleSumVolumeTask env whereClause params plan question
  else
    handleListTask env whereClause params.

(** [function buildAnalysisPrompt({ question, categories, paramSamples,
    areaKeys, volumeKeys })] (lines 1001-1069). *)
Definition buildAnalysisPrompt (question : JsVal) (meta : Meta) : Prompt :=
  AnalysisPrompt question (categories meta)
    (map (fun kv => (fst kv, firstn 10 (snd kv))) (paramSamples meta))
    (firstn 30 (areaKeys meta))
    (firstn 30 (match volumeKeys meta with Some ks => ks | None => [] end)).

(** [async function analyzeQuestion(question, meta)] (lines 1071-1087). *)
Definition analyzeQuestion (env : Env) (question : JsVal) (meta : Meta)
  : Outcome Obj :=
  geminiJson env (buildAnalysisPrompt question meta).

(** The category validation of [validateAndBuildPlan] (lines 1127-1144). *)
Definition validateCategory (analysis : Obj)
    (availableCategories : list string) : JsVal :=
  if truthy (get analysis "category") then
    let normalizedCategory := norm (get analysis "category") in
    let exactMatch :=
      find_str (fun c => String.eqb c normalizedCategory)
               availableCategories in
    if truthy exactMatch then exactMatch
    else
      let caseMatch :=
        find_str (fun c => String.eqb (toLowerCase c)
                                      (toLowerCase normalizedCategory))
                 availableCategories in
      if truthy caseMatch then caseMatch else JNull
  else JNull.

(** The parameter validation of [validateAndBuildPlan] (lines 1147-1157),
    for one of [filterParam] and [targetParam]. *)
Definition validateParam (raw : JsVal) : JsVal :=
  let param := js_or raw JNull in
  if (truthy param && negb (ALLOWED_PARAMS_has param))%bool
  then JNull else param.

(** [function validateAndBuildPlan(analysis, urn, availableCategories)]
    (lines 1125-1170); the properties the returned object does not have
    read as [undefined]. *)
Definition validateAndBuildPlan (analysis : Obj) (urn : JsVal)
    (availableCategories : list string) : Plan :=
  {| urn := urn;
     intent := js_or (get analysis "intent") (JStr "bim");
     task := js_or (get analysis "task") (JStr "count");
     category := validateCategory analysis availableCategories;
     limit := JUndefined;
     filterParam := validateParam (get analysis "filterParam");
     filterValue := js_nullish (get analysis "filterValue") JNull;
     targetParam := validateParam (get analysis "targetParam");
     propsFlatKey := js_or (get analysis "propsFlatKey") JNull;
     useSemanticSearch := JUndefined;
     semanticQuery := JUndefined;
     topK := JUndefined;
     notes := js_or (get analysis "notes") (JStr "") |}.

(** [router.post("/", async (req, res, next) => { ... })]
    (lines 1176-1231), on the request body. *)
Definition post (env : Env) (body : Obj) : Response :=
  let urn := get body "urn" in
  let question := get body "question" in
  let debug := get body "debug" in
  if negb (truthy urn) then BadRequest "Missing urn"
  else if negb (truthy question) then BadRequest "Missing question"
  else
    catchNext
      (meta <- getMeta env urn ;;
       analysis <- analyzeQuestion env question meta ;;
       if strict_eq_str (get analysis "intent") "general" then
         answer <- geminiText env (GeneralPrompt question) ;;
         Ret (GeneralReply answer
                (if truthy debug then Some (meta, analysis) else None))
       else
         let plan := validateAndBuildPlan analysis urn (categories meta) in
         result <- runQuery env meta plan question ;;
         answer <- geminiText env (AnswerPrompt question meta plan result) ;;
         Ret (DataReply answer (hitsOf result)
                (if truthy debug then Some (meta, plan, result) else None))).

End Unified.

(* ================================================================== *)
(** ** Vocabulary of the further properties *)

(** A string made of white space only. *)
Fixpoint all_ws (s : string) : bool :=
  match s with
  | EmptyString => true
  | String c r => (is_ws c && all_ws r)%bool
  end.

(** The [kind] property of the object a task handler returns. *)
Definition kindOf (r : TaskResult) : string :=
  match r with
  | RCount _ => "count"
  | RDistinct _ _ => "distinct"
  | RGroupCount _ _ => "group_count"
  | RSumArea _ _ _ _ _ => "sum_area"
  | RSumVolume _ _ _ _ _ => "sum_volume"
  | RList _ => "list"
  end.

(** A string with no white space in it. *)
Fixpoint none_ws (s : string) : bool :=
  match s with
  | EmptyString => true
  | String c r => (negb (is_ws c) && none_ws r)%bool
  end.

(** The error [m] was thrown by the store, the JSON parser or the
    reasoning service. *)
Definition thrownByCollaborator (env : Env) (m : string) : Prop :=
  (exists sql ps, db_all env sql ps = Throw m)
  \/ (exists sql ps, db_get env sql ps = Throw m)
  \/ (exists text, JSON_parse env text = Throw m)
  \/ (exists prompt, geminiJson env prompt = Throw m)
  \/ (exists prompt, geminiText env prompt = Throw m).

(** The errors the routers raise themselves. *)
Definition contractMessages : list string :=
  [ "distinct requires targetParam"; "group_count requires targetParam";
    "sum_area requires propsFlatKey";
    "TypeError: Cannot convert undefined or null to object" ].

(** [k] is a property name of the parsed blob of element [d]. *)
Definition blobHasKey (env : Env) (d : Obj) (k : string) : Prop :=
  truthy (get d "props_flat") = true
  /\ exists pf ks,
       JSON_parse env (ToString (get d "props_flat")) = Ret pf
       /\ Object_keys pf = Ret ks /\ In k ks.

(** The inner loop of [getMeta] for one test: the keys that pass are added
    to the set. *)
Definition collect (test : string -> bool) (keys acc : list string)
  : list string :=
  fold_left (fun acc k => if test k then Set_add k acc else acc) keys acc.

(* ================================================================== *)
(** ** Concrete inputs used by the examples below *)

Module Samples.

(** A store with no elements: every [all] is empty, [COUNT] is 0. *)
Definition emptyEnv : Env :=
  {| db_all := fun _ _ => Ret [];
     db_get := fun _ _ => Ret [("count", JNum 0)];
     JSON_parse := fun _ => Throw "SyntaxError: Unexpected end of JSON input";
     generateEmbedding := fun _ => Throw "embedding service unavailable";
     semanticSearch := fun _ _ _ => Ret [];
     geminiJson := fun _ => Ret [];
     geminiText := fun _ => Ret "" |}.

Definition meta0 : Meta :=
  mkMeta "component_type" ["Doors"; "Walls"] [] [] None.

Definition urn0 : JsVal := JStr "urn-1".

(** The plan the two-stage router builds for a filter on the level. *)
Definition levelPlan (value : JsVal) : Plan :=
  TwoStage.validatePlanParams
    (TwoStage.buildQueryPlan []
       [("filterParam", JStr "level_number"); ("filterValue", value)]
       urn0 JNull).

Definition goodBlob : string := "{" ++ dq ++ "Floor Area" ++ dq ++ ": 12}".

Definition badBlob : string := "{oops".

(** A model with three elements; the second one has a malformed blob. The
    parser field agrees with [JSON.parse] on the two texts stored. *)
Definition blobEnv : Env :=
  {| db_all := fun sql _ =>
       if (String.eqb sql TwoStage.docsSql || String.eqb sql Unified.docsSql)%bool
       then Ret [ [("props_flat", JStr goodBlob)];
                  [("props_flat", JStr badBlob)];
                  [("props_flat", JStr goodBlob)] ]
       else Ret [];
     db_get := fun _ _ => Ret [("count", JNum 3)];
     JSON_parse := fun s =>
       if String.eqb s goodBlob then Ret (JObj [("Floor Area", JNum 12)])
       else Throw "SyntaxError: Unexpected token o in JSON at position 1";
     generateEmbedding := fun _ => Ret JNull;
     semanticSearch := fun _ _ _ => Ret [];
     geminiJson := fun _ => Ret [];
     geminiText := fun _ => Ret "" |}.

(** A store of one door whose embedding service is down. *)
Definition offlineEnv : Env :=
  {| db_all := fun _ _ => Ret [];
     db_get := fun _ _ => Ret [("count", JNum 1)];
     JSON_parse := fun _ => Throw "SyntaxError";
     generateEmbedding := fun _ => Throw "embedding service unavailable";
     semanticSearch := fun _ _ _ => Ret [JNum 7; JNum 9];
     geminiJson := fun _ => Ret [];
     geminiText := fun _ => Ret "" |}.

Definition semanticPlan : Plan :=
  TwoStage.validatePlanParams
    (TwoStage.buildQueryPlan [("task", JStr "count")]
       [("useSemanticSearch", JBool true); ("semanticQuery", JStr "glass")]
       urn0 (JStr "Doors")).

(** A model whose elements carry the type names ["Basic Wall"] and
    ["Basic Wall "] (with a trailing blank): the store answers the
    [SELECT DISTINCT type_name] of either router with both. *)
Definition wallEnv : Env :=
  {| db_all := fun sql _ =>
       if (String.eqb sql (TwoStage.distinctSql "type_name" "urn = ?")
           || String.eqb sql (Unified.distinctSql "type_name" "urn = ?"))%bool
       then Ret [ [("type_name", JStr "Basic Wall")];
                  [("type_name", JStr "Basic Wall ")] ]
       else Ret [];
     db_get := fun _ _ => Ret [("count", JNum 2)];
     JSON_parse := fun _ => Throw "SyntaxError";
     generateEmbedding := fun _ => Ret JNull;
     semanticSearch := fun _ _ _ => Ret [];
     geminiJson := fun _ => Ret [];
     geminiText := fun _ => Ret "" |}.

Definition typesRaw : Obj :=
  [("task", JStr "distinct"); ("targetParam", JStr "type_name")].

Definition taskPlan (t : JsVal) : Plan :=
  mkPlan urn0 (JStr "bim") t JNull (JNum 5) JNull JNull JNull JNull
         (JBool false) JNull (JNum 100) (JStr "").

(** A model of five doors. The reasoning service gives the hint ["Doors"],
    an intent without a category, and the parameters passed in [plan2]. *)
Definition chatEnv (task : string) (plan2 : Obj) : Env :=
  {| db_all := fun sql _ =>
       if String.eqb sql categoriesSql
       then Ret [ [("component_type", JStr "Doors")] ]
       else Ret [];
     db_get := fun _ _ => Ret [("count", JNum 5)];
     JSON_parse := fun _ => Throw "SyntaxError";
     generateEmbedding := fun _ => Ret JNull;
     semanticSearch := fun _ _ _ => Ret [];
     geminiJson := fun prompt =>
       match prompt with
       | HintPrompt _ _ =>
           Ret [("category", JStr "Doors"); ("confidence", JStr "high")]
       | IntentPrompt _ _ _ => Ret [("intent", JStr "bim"); ("task", JStr task)]
       | ParameterPrompt _ _ _ _ => Ret plan2
       | AnalysisPrompt _ _ _ _ _ =>
           Ret (("intent", JStr "bim") :: ("task", JStr task)
                :: ("category", JStr "doors") :: plan2)
       | _ => Ret []
       end;
     geminiText := fun _ => Ret "ok" |}.

Definition chatBody : Obj :=
  [("urn", urn0); ("question", JStr "how many doors?")].

(** A model of two elements: one blob is the JSON text [null], the other
    one an object with an area and a volume. *)
Definition nullBlobEnv : Env :=
  {| db_all := fun sql _ =>
       if (String.eqb sql TwoStage.docsSql || String.eqb sql Unified.docsSql)%bool
       then Ret [ [("props_flat", JStr goodBlob)];
                  [("props_flat", JStr "null")] ]
       else Ret [];
     db_get := fun _ _ => Ret [("count", JNum 2)];
     JSON_parse := fun s =>
       if String.eqb s "null" then Ret JNull
       else if String.eqb s goodBlob
            then Ret (JObj [("Floor Area", JNum 12); ("Volume", JNum 30);
                            ("Floor Area", JNum 12)])
            else Throw "SyntaxError";
     generateEmbedding := fun _ => Ret JNull;
     semanticSearch := fun _ _ _ => Ret [];
     geminiJson := fun _ => Ret [];
     geminiText := fun _ => Ret "" |}.

(** The same model without the [null] blob, with a second element that has
    no blob. *)
Definition keysEnv : Env :=
  {| db_all := fun sql _ =>
       if (String.eqb sql TwoStage.docsSql || String.eqb sql Unified.docsSql)%bool
       then Ret [ [("props_flat", JStr goodBlob)]; [("props_flat", JNull)] ]
       else Ret [];
     db_get := db_get nullBlobEnv;
     JSON_parse := JSON_parse nullBlobEnv;
     generateEmbedding := generateEmbedding nullBlobEnv;
     semanticSearch := semanticSearch nullBlobEnv;
     geminiJson := geminiJson nullBlobEnv;
     geminiText := geminiText nullBlobEnv |}.

(** A reasoning service that classifies every question as general, over a
    store that fails on every query but those of the metadata. *)
Definition generalEnv : Env :=
  {| db_all := fun sql _ =>
       if String.eqb sql categoriesSql
       then Ret [ [("component_type", JStr "Doors")] ]
       else Ret [];
     db_get := fun _ _ => Throw "the store was queried";
     JSON_parse := fun _ => Throw "SyntaxError";
     generateEmbedding := fun _ => Ret JNull;
     semanticSearch := fun _ _ _ => Ret [];
     geminiJson := fun _ => Ret [("intent", JStr "general"); ("task", JStr "count")];
     geminiText := fun _ => Ret "BIM is a building information model." |}.

(** An embedding service that answers with an empty vector, and a
    similarity search that returns two candidates for it; the count
    restricted to the candidates is 2, any other count is 5. *)
Definition emptyVectorEnv : Env :=
  {| db_all := fun _ _ => Ret [];
     db_get := fun sql _ =>
       if String.eqb sql
            (countSql "urn = ? AND id IN (7,9) AND component_type = ?")
       then Ret [("count", JNum 2)]
       else Ret [("count", JNum 5)];
     JSON_parse := fun _ => Throw "SyntaxError";
     generateEmbedding := fun _ => Ret (JArr []);
     semanticSearch := fun _ _ _ => Ret [JNum 7; JNum 9];
     geminiJson := fun _ => Ret [];
     geminiText := fun _ => Ret "" |}.

End Samples.

(* ================================================================== *)
(** ** Facts about the string utilities *)

Lemma trimEnd_idem (s : string) : trimEnd (trimEnd s) = trimEnd s.
Proof.
  induction s as [|c r IH]; simpl; [reflexivity|].
  destruct (trimEnd r) as [|c' r'] eqn:E.
  - destruct (is_ws c) eqn:W; simpl; [reflexivity|]. now rewrite W.
  - simpl. simpl in IH. now rewrite IH.
Qed.

Lemma trimStart_clean (s : string) : starts_clean (trimStart s).
Proof.
  induction s as [|c r IH]; simpl; [exact I|].
  destruct (is_ws c) eqn:W; [exact IH|]. simpl. exact W.
Qed.

Lemma trimStart_fix (s : string) : starts_clean s -> trimStart s = s.
Proof.
  destruct s as [|c r]; simpl; [reflexivity|]. intros ->. reflexivity.
Qed.

Lemma trimEnd_clean (s : string) : starts_clean s -> starts_clean (trimEnd s).
Proof.
  destruct s as [|c r]; simpl; [exact (fun h => h)|].
  intros W. destruct (trimEnd r); [rewrite W|]; simpl; exact W.
Qed.

Lemma trim_idem (s : string) : trim (trim s) = trim s.
Proof.
  unfold trim.
  rewrite (trimStart_fix _ (trimEnd_clean _ (trimStart_clean s))).
  apply trimEnd_idem.
Qed.

Lemma norm_trimmed (v : JsVal) : trim (norm v) = norm v.
Proof. unfold norm. apply trim_idem. Qed.

Lemma toLowerCase_empty (s : string) : toLowerCase s = "" -> s = "".
Proof. destruct s; simpl; [reflexivity|discriminate]. Qed.

Lemma mem_string_In (s : string) (l : list string) :
  mem_string s l = true <-> In s l.
Proof.
  unfold mem_string. rewrite existsb_exists. split.
  - intros [x [Hin Heq]]. apply String.eqb_eq in Heq. now subst.
  - intros Hin. exists s. split; [assumption|apply String.eqb_refl].
Qed.

Lemma stripEmpty_nonblank (arr : list JsVal) (s : string) :
  In s (stripEmpty arr) -> s <> "" /\ trim s = s.
Proof.
  unfold stripEmpty. rewrite filter_In, in_map_iff.
  intros [[v [<- _]] Hne]. split.
  - intros E. rewrite E in Hne. discriminate.
  - apply norm_trimmed.
Qed.

Lemma strict_eq_str_true (v : JsVal) (s : string) :
  strict_eq_str v s = true <-> v = JStr s.
Proof.
  destruct v; simpl; split; try discriminate; intros H.
  - apply String.eqb_eq in H. now subst.
  - inversion H. apply String.eqb_refl.
Qed.

Lemma strict_eq_str_false (v : JsVal) (s : string) :
  strict_eq_str v s = false <-> v <> JStr s.
Proof.
  rewrite <- strict_eq_str_true. destruct (strict_eq_str v s); split; congruence.
Qed.

(** A validated parameter is [null] or one of the allowed column names. *)
Lemma validated_param_cases (raw : JsVal) :
  let v := if (truthy (js_or raw JNull)
               && negb (ALLOWED_PARAMS_has (js_or raw JNull)))%bool
           then JNull else js_or raw JNull in
  v = JNull \/ (exists s, v = JStr s /\ In s ALLOWED_PARAMS /\ raw = JStr s).
Proof.
  unfold js_or. cbv zeta.
  destruct (truthy raw) eqn:T; simpl; [|now left].
  rewrite T. simpl.
  destruct (ALLOWED_PARAMS_has raw) eqn:A; simpl; [|now left].
  right. destruct raw; try discriminate A.
  change (mem_string s ALLOWED_PARAMS = true) in A.
  exists s. split; [reflexivity|].
  split; [exact (proj1 (mem_string_In s ALLOWED_PARAMS) A)|reflexivity].
Qed.

Lemma twoStage_validated_filterParam (plan1 plan2 : Obj) (u c : JsVal) :
  filterParam (TwoStage.validatePlanParams (TwoStage.buildQueryPlan plan1 plan2 u c))
  = Unified.validateParam (get plan2 "filterParam").
Proof.
  unfold TwoStage.validatePlanParams, Unified.validateParam.
  cbn -[ALLOWED_PARAMS_has truthy js_or get].
  destruct (truthy (js_or (get plan2 "filterParam") JNull)
            && negb (ALLOWED_PARAMS_has (js_or (get plan2 "filterParam") JNull)))%bool;
    cbn -[ALLOWED_PARAMS_has truthy js_or get];
    destruct (truthy (js_or (get plan2 "targetParam") JNull)
              && negb (ALLOWED_PARAMS_has (js_or (get plan2 "targetParam") JNull)))%bool;
    reflexivity.
Qed.

Lemma twoStage_validated_targetParam (plan1 plan2 : Obj) (u c : JsVal) :
  targetParam (TwoStage.validatePlanParams (TwoStage.buildQueryPlan plan1 plan2 u c))
  = Unified.validateParam (get plan2 "targetParam").
Proof.
  unfold TwoStage.validatePlanParams, Unified.validateParam.
  cbn -[ALLOWED_PARAMS_has truthy js_or get].
  destruct (truthy (js_or (get plan2 "filterParam") JNull)
            && negb (ALLOWED_PARAMS_has (js_or (get plan2 "filterParam") JNull)))%bool;
    cbn -[ALLOWED_PARAMS_has truthy js_or get];
    destruct (truthy (js_or (get plan2 "targetParam") JNull)
              && negb (ALLOWED_PARAMS_has (js_or (get plan2 "targetParam") JNull)))%bool;
    reflexivity.
Qed.

Lemma validateParam_disallowed (raw : JsVal) :
  ALLOWED_PARAMS_has raw = false -> Unified.validateParam raw = JNull.
Proof.
  intros A. unfold Unified.validateParam, js_or.
  destruct (truthy raw) eqn:T; simpl; [|reflexivity].
  rewrite T, A. reflexivity.
Qed.

Lemma validatePlanParams_keeps (p : Plan) :
  urn (TwoStage.validatePlanParams p) = urn p
  /\ category (TwoStage.validatePlanParams p) = category p
  /\ filterValue (TwoStage.validatePlanParams p) = filterValue p
  /\ task (TwoStage.validatePlanParams p) = task p.
Proof.
  unfold TwoStage.validatePlanParams.
  destruct (truthy (filterParam p) && negb (ALLOWED_PARAMS_has (filterParam p)))%bool;
    cbn -[ALLOWED_PARAMS_has truthy];
    match goal with
    | |- context [if ?b then _ else _] => destruct b
    end; repeat split; reflexivity.
Qed.

Lemma attributeClause_null (p : Plan) :
  filterParam p = JNull -> attributeClause p = ([], []).
Proof. unfold attributeClause. intros ->. reflexivity. Qed.

(** C1. A [filterParam] or [targetParam] of the raw plan that is not one of
    the ten allowed column names (in particular any non-null value outside
    the list) is [null] in the validated plan of either router; the
    compiled WHERE clause then consists of the model scope, the candidate
    restriction and the category clause only, with no attribute clause, and
    it never depends on [targetParam]. *)
Theorem C1_disallowed_params_are_nulled
    (plan1 raw : Obj) (u cat : JsVal) (cats : list string) (meta : Meta)
    (ids : option (list JsVal)) :
  let pA := TwoStage.validatePlanParams (TwoStage.buildQueryPlan plan1 raw u cat) in
  let pB := Unified.validateAndBuildPlan raw u cats in
  (ALLOWED_PARAMS_has (get raw "filterParam") = false ->
     filterParam pA = JNull /\ filterParam pB = JNull
     /\ attributeClause pA = ([], []) /\ attributeClause pB = ([], [])
     /\ TwoStage.compileWhere meta pA ids
        = (("urn = ?" :: TwoStage.idClause ids)
             ++ fst (categoryClause meta (planCategory pA)),
           u :: snd (categoryClause meta (planCategory pA)))%list
     /\ Unified.compileWhere meta pB
        = ("urn = ?" :: fst (categoryClause meta (planCategory pB)),
           u :: snd (categoryClause meta (planCategory pB))))
  /\ (ALLOWED_PARAMS_has (get raw "targetParam") = false ->
      targetParam pA = JNull /\ targetParam pB = JNull
      /\ (forall v, TwoStage.compileWhere meta (with_targetParam pA v) ids
                    = TwoStage.compileWhere meta pA ids)
      /\ (forall v, Unified.compileWhere meta (with_targetParam pB v)
                    = Unified.compileWhere meta pB)).
Proof.
  intros pA pB. split.
  - intros H.
    assert (HA : filterParam pA = JNull).
    { unfold pA. rewrite twoStage_validated_filterParam.
      now apply validateParam_disallowed. }
    assert (HB : filterParam pB = JNull).
    { unfold pB. cbn -[Unified.validateParam get].
      now apply validateParam_disallowed. }
    pose proof (attributeClause_null pA HA) as CA.
    pose proof (attributeClause_null pB HB) as CB.
    repeat (split; [assumption|]). split.
    + unfold TwoStage.compileWhere. rewrite CA. cbn [fst snd].
      rewrite !app_nil_r.
      destruct (validatePlanParams_keeps (TwoStage.buildQueryPlan plan1 raw u cat))
        as [Hu _].
      fold pA in Hu. rewrite Hu. reflexivity.
    + unfold Unified.compileWhere. rewrite CB. cbn [fst snd].
      rewrite !app_nil_r. reflexivity.
  - intros H. split; [|split; [|split]].
    + unfold pA. rewrite twoStage_validated_targetParam.
      now apply validateParam_disallowed.
    + unfold pB. cbn -[Unified.validateParam get].
      now apply validateParam_disallowed.
    + reflexivity.
    + reflexivity.
Qed.

(** An instance of C1: the injected identifier ["1=1 OR name"] and the
    target ["secret"] are dropped. *)
Lemma C1_witness :
  let raw := [ ("filterParam", JStr "1=1 OR name"); ("filterValue", JStr "x");
               ("targetParam", JStr "secret") ] in
  let pA := TwoStage.validatePlanParams
              (TwoStage.buildQueryPlan [] raw Samples.urn0 (JStr "Doors")) in
  let pB := Unified.validateAndBuildPlan raw Samples.urn0 ["Doors"] in
  (filterParam pA = JNull /\ filterParam pB = JNull
   /\ attributeClause pA = ([], []) /\ attributeClause pB = ([], [])
   /\ TwoStage.compileWhere Samples.meta0 pA None
      = (["urn = ?"; "component_type = ?"], [Samples.urn0; JStr "Doors"])
   /\ Unified.compileWhere Samples.meta0 pB
      = (["urn = ?"], [Samples.urn0]))
  /\ targetParam pA = JNull /\ targetParam pB = JNull.
Proof.
  intros raw pA pB.
  destruct (C1_disallowed_params_are_nulled [] raw Samples.urn0 (JStr "Doors")
              ["Doors"] Samples.meta0 None) as [HF HT].
  split.
  - exact (HF eq_refl).
  - destruct (HT eq_refl) as [H1 [H2 _]]. split; assumption.
Defined.

(** Against C2 as stated: two validated plans that differ only in
    [filterValue] (["L1"] and [null]) compile to different filter texts,
    because a null or blank value removes the attribute clause. *)
Lemma C2_counterexample :
  Samples.levelPlan JNull = with_filterValue (Samples.levelPlan (JStr "L1")) JNull
  /\ join " AND " (fst (TwoStage.compileWhere Samples.meta0 (Samples.levelPlan (JStr "L1")) None))
     = "urn = ? AND level_number = ?"
  /\ join " AND " (fst (TwoStage.compileWhere Samples.meta0 (Samples.levelPlan JNull) None))
     = "urn = ?"
  /\ join " AND " (fst (Unified.compileWhere Samples.meta0 (Samples.levelPlan (JStr "L1"))))
     <> join " AND " (fst (Unified.compileWhere Samples.meta0 (Samples.levelPlan JNull))).
Proof. repeat split. discriminate. Qed.

(** C2, amended. The filter text depends on [filterValue] only through the
    test "neither null nor undefined, and not blank once trimmed": two plans
    that differ only in [filterValue] and agree on that test compile to the
    same list of clauses in both routers, and the value itself occurs only
    as the last bound parameter, when the attribute clause is present. *)
Theorem C2_filter_text_ignores_filterValue
    (meta : Meta) (p : Plan) (v1 v2 : JsVal) (ids : option (list JsVal)) :
  filterValue_present v1 = filterValue_present v2 ->
  fst (TwoStage.compileWhere meta (with_filterValue p v1) ids)
  = fst (TwoStage.compileWhere meta (with_filterValue p v2) ids)
  /\ fst (Unified.compileWhere meta (with_filterValue p v1))
     = fst (Unified.compileWhere meta (with_filterValue p v2))
  /\ snd (TwoStage.compileWhere meta (with_filterValue p v1) ids)
     = (snd (TwoStage.compileWhere meta (with_filterParam p JNull) ids)
        ++ (if (truthy (filterParam p) && filterValue_present v1)%bool
            then [v1] else []))%list
  /\ snd (Unified.compileWhere meta (with_filterValue p v1))
     = (snd (Unified.compileWhere meta (with_filterParam p JNull))
        ++ (if (truthy (filterParam p) && filterValue_present v1)%bool
            then [v1] else []))%list.
Proof.
  intros H.
  unfold TwoStage.compileWhere, Unified.compileWhere, attributeClause,
    planCategory, planCategory.
  cbn [filterParam filterValue category urn with_filterValue with_filterParam].
  rewrite H.
  destruct (truthy (filterParam p) && filterValue_present v2)%bool;
    cbn [fst snd truthy andb]; rewrite ?app_nil_r; repeat split; reflexivity.
Qed.

Lemma C2_witness :
  fst (TwoStage.compileWhere Samples.meta0
         (with_filterValue (Samples.levelPlan (JStr "L1")) (JStr "L2")) None)
  = fst (TwoStage.compileWhere Samples.meta0
           (with_filterValue (Samples.levelPlan (JStr "L1")) (JStr "x' OR '1'='1")) None)
  /\ snd (TwoStage.compileWhere Samples.meta0
            (with_filterValue (Samples.levelPlan (JStr "L1")) (JStr "x' OR '1'='1")) None)
     = [Samples.urn0; JStr "x' OR '1'='1"].
Proof.
  destruct (C2_filter_text_ignores_filterValue Samples.meta0
              (Samples.levelPlan (JStr "L1")) (JStr "L2") (JStr "x' OR '1'='1") None
              eq_refl) as [H1 _].
  split; [exact H1|reflexivity].
Defined.

Lemma find_first {A : Type} (f : A -> bool) (l : list A) (x : A) :
  find f l = Some x ->
  exists before after,
    l = (before ++ x :: after)%list /\ f x = true
    /\ forall y, In y before -> f y = false.
Proof.
  induction l as [|a l IH]; simpl; [discriminate|].
  destruct (f a) eqn:Fa.
  - intros E. inversion E; subst. exists [], l. repeat split; [assumption|].
    intros y [].
  - intros E. destruct (IH E) as [b [c [-> [Fx Hb]]]].
    exists (a :: b), c. repeat split; [assumption|].
    intros y [<-|Hy]; [assumption|now apply Hb].
Qed.

Lemma find_exists {A : Type} (f : A -> bool) (l : list A) (x : A) :
  In x l -> f x = true -> exists y, find f l = Some y.
Proof.
  intros Hin Fx. destruct (find f l) as [y|] eqn:E; [now exists y|].
  rewrite (find_none f l E x Hin) in Fx. discriminate.
Qed.

Lemma find_exact_none (n : string) (cats : list string) :
  ~ In n cats -> find (fun c => String.eqb c n) cats = None.
Proof.
  intros Hn. destruct (find (fun c => String.eqb c n) cats) as [y|] eqn:E;
    [|reflexivity].
  apply find_some in E. destruct E as [Hin Heq].
  apply String.eqb_eq in Heq. subst. contradiction.
Qed.

(** Against C3 as stated: in the two-stage router the category ["doors"]
    of the intent step stays ["doors"] in the validated plan although the
    model has ["Doors"]. *)
Lemma C3_counterexample :
  let plan1 := [("category", JStr "doors")] in
  let cats := ["Doors"; "Walls"] in
  category (TwoStage.validatePlanParams
              (TwoStage.buildQueryPlan plan1 [] Samples.urn0
                 (TwoStage.finalCategory plan1 JNull cats)))
  = JStr "doors"
  /\ ~ In "doors" cats
  /\ In "Doors" cats /\ toLowerCase "Doors" = toLowerCase "doors".
Proof.
  repeat split; [|now left].
  intros [H|[H|[]]]; discriminate.
Qed.

(** C3, amended. In the unified router, a category that is no exact member
    of the available categories (after trimming) but equals one of them up
    to letter case resolves to the first such member, in its own casing.
    The two-stage router does no such resolution: its validated plan keeps
    the trimmed category of the intent step. *)
Theorem C3_case_insensitive_category
    (raw other : Obj) (u hint : JsVal) (cats : list string) :
  let n := norm (get raw "category") in
  truthy (get raw "category") = true ->
  ~ In n cats ->
  (exists c, In c cats /\ toLowerCase c = toLowerCase n) ->
  (exists c before after,
     category (Unified.validateAndBuildPlan raw u cats) = JStr c
     /\ cats = (before ++ c :: after)%list
     /\ toLowerCase c = toLowerCase n
     /\ (forall x, In x before -> toLowerCase x <> toLowerCase n))
  /\ category (TwoStage.validatePlanParams
                 (TwoStage.buildQueryPlan raw other u
                    (TwoStage.finalCategory raw hint cats)))
     = JStr n.
Proof.
  intros n T Hn [c0 [Hin0 Hlow0]].
  assert (Hne : n <> "").
  { intros E. rewrite E in Hlow0. apply toLowerCase_empty in Hlow0.
    subst c0. rewrite E in Hn. contradiction. }
  split.
  - destruct (find_exists (fun c => String.eqb (toLowerCase c) (toLowerCase n))
                cats c0 Hin0) as [c Hc].
    { rewrite Hlow0. apply String.eqb_refl. }
    destruct (find_first _ _ _ Hc) as [before [after [Hcats [Hlow Hbefore]]]].
    apply String.eqb_eq in Hlow.
    exists c, before, after. repeat split; try assumption.
    + cbn [category Unified.validateAndBuildPlan].
      unfold Unified.validateCategory. rewrite T. fold n.
      unfold find_str. rewrite (find_exact_none n cats Hn). cbn [truthy].
      rewrite Hc. cbn [truthy].
      destruct (String.eqb c "") eqn:Ec; [|reflexivity].
      apply String.eqb_eq in Ec. subst c. simpl in Hlow.
      symmetry in Hlow. apply toLowerCase_empty in Hlow. contradiction.
    + intros x Hx E. apply Hbefore in Hx.
      rewrite E, String.eqb_refl in Hx. discriminate.
  - destruct (validatePlanParams_keeps
                (TwoStage.buildQueryPlan raw other u
                   (TwoStage.finalCategory raw hint cats))) as [_ [Hc _]].
    rewrite Hc. cbn [category TwoStage.buildQueryPlan].
    unfold TwoStage.finalCategory, TwoStage.intentCategory. rewrite T. fold n.
    cbn [truthy]. apply String.eqb_neq in Hne. rewrite Hne. reflexivity.
Qed.

Lemma C3_witness :
  (exists c before after,
     category (Unified.validateAndBuildPlan [("category", JStr " doors ")]
                 Samples.urn0 ["Walls"; "Doors"; "DOORS"]) = JStr c
     /\ ["Walls"; "Doors"; "DOORS"] = (before ++ c :: after)%list
     /\ toLowerCase c = "doors"
     /\ (forall x, In x before -> toLowerCase x <> "doors"))
  /\ category (TwoStage.validatePlanParams
                 (TwoStage.buildQueryPlan [("category", JStr " doors ")] []
                    Samples.urn0
                    (TwoStage.finalCategory [("category", JStr " doors ")]
                       (JStr "Walls") ["Walls"; "Doors"; "DOORS"])))
     = JStr "doors".
Proof.
  apply (C3_case_insensitive_category [("category", JStr " doors ")] []
           Samples.urn0 (JStr "Walls") ["Walls"; "Doors"; "DOORS"]).
  - reflexivity.
  - simpl. intros [H|[H|[H|[]]]]; discriminate.
  - exists "Doors". split; [right; now left|reflexivity].
Defined.

Example C3_doors :
  category (Unified.validateAndBuildPlan [("category", JStr "doors")]
              Samples.urn0 ["Walls"; "Doors"]) = JStr "Doors".
Proof. reflexivity. Qed.

Lemma get_set_other (o : Obj) (k k' : string) (v : JsVal) :
  k <> k' -> get (set o k v) k' = get o k'.
Proof.
  intros Hk. unfold set. simpl.
  apply String.eqb_neq in Hk. rewrite Hk.
  induction o as [|[a b] o IH]; simpl; [reflexivity|].
  destruct (String.eqb a k) eqn:Ea; simpl.
  - apply String.eqb_eq in Ea. subst a. rewrite Hk. exact IH.
  - destruct (String.eqb a k'); [reflexivity|exact IH].
Qed.

Lemma find_lower_none (n : string) (cats : list string) :
  (forall c, In c cats -> toLowerCase c <> toLowerCase n) ->
  find (fun c => String.eqb c n) cats = None
  /\ find (fun c => String.eqb (toLowerCase c) (toLowerCase n)) cats = None.
Proof.
  intros H. split.
  - apply find_exact_none. intros Hin. now apply (H n Hin).
  - destruct (find _ cats) as [y|] eqn:E; [|reflexivity].
    apply find_some in E. destruct E as [Hin Heq].
    apply String.eqb_eq in Heq. now apply H in Hin.
Qed.

Lemma norm_of_norm (v : JsVal) :
  norm v <> "" -> norm (JStr (norm v)) = norm v.
Proof.
  intros Hne. unfold norm at 1. unfold js_or. cbn [truthy].
  apply String.eqb_neq in Hne. rewrite Hne. cbn [negb ToString].
  apply norm_trimmed.
Qed.

(** Against C4 as stated: in the two-stage router the unmatched category
    ["Doorz"] is kept in the validated plan and compiled into a category
    clause bound to it. *)
Lemma C4_counterexample :
  let plan1 := [("category", JStr "Doorz")] in
  let cats := ["Doors"; "Walls"] in
  let p := TwoStage.validatePlanParams
             (TwoStage.buildQueryPlan plan1 [] Samples.urn0
                (TwoStage.finalCategory plan1 JNull cats)) in
  (forall c, In c cats -> toLowerCase c <> toLowerCase "Doorz")
  /\ category p = JStr "Doorz"
  /\ TwoStage.compileWhere Samples.meta0 p None
     = (["urn = ?"; "component_type = ?"], [Samples.urn0; JStr "Doorz"]).
Proof.
  repeat split.
  intros c [<-|[<-|[]]]; discriminate.
Qed.

(** C4, amended. In the unified router, a category that equals no available
    category even up to letter case is [null] in the validated plan; the
    plan is the one built from the same analysis without a category, so the
    filter has no category clause and the query runs as it would unfiltered
    by category. The two-stage router keeps a non-blank category of the
    intent step and compiles a category clause bound to it. *)
Theorem C4_unmatched_category
    (raw other : Obj) (u hint : JsVal) (cats : list string) (meta : Meta)
    (env : Env) (q : JsVal) (ids : option (list JsVal)) :
  let n := norm (get raw "category") in
  let pB := Unified.validateAndBuildPlan raw u cats in
  let pA := TwoStage.validatePlanParams
              (TwoStage.buildQueryPlan raw other u
                 (TwoStage.finalCategory raw hint cats)) in
  (forall c, In c cats -> toLowerCase c <> toLowerCase n) ->
  category pB = JNull
  /\ pB = Unified.validateAndBuildPlan (set raw "category" JNull) u cats
  /\ Unified.compileWhere meta pB
     = ("urn = ?" :: fst (attributeClause pB), u :: snd (attributeClause pB))
  /\ Unified.runQuery env meta pB q
     = Unified.runQuery env meta
         (Unified.validateAndBuildPlan (set raw "category" JNull) u cats) q
  /\ (truthy (TwoStage.intentCategory raw) = true ->
      category pA = JStr n
      /\ TwoStage.compileWhere meta pA ids
         = (("urn = ?" :: TwoStage.idClause ids)
              ++ (categoryField meta ++ " = ?")%string :: fst (attributeClause pA),
            u :: JStr n :: snd (attributeClause pA))%list).
Proof.
  intros n pB pA H.
  assert (Hcat : category pB = JNull).
  { cbn [pB category Unified.validateAndBuildPlan].
    unfold Unified.validateCategory.
    destruct (truthy (get raw "category")); [|reflexivity].
    fold n. destruct (find_lower_none n cats H) as [E1 E2].
    unfold find_str. rewrite E1. cbn [truthy]. rewrite E2. reflexivity. }
  assert (Heq : pB = Unified.validateAndBuildPlan (set raw "category" JNull) u cats).
  { unfold pB, Unified.validateAndBuildPlan.
    rewrite !get_set_other by discriminate.
    f_equal. change (category pB = Unified.validateCategory
                                     (set raw "category" JNull) cats).
    rewrite Hcat. reflexivity. }
  split; [exact Hcat|]. split; [exact Heq|]. split; [|split].
  - unfold Unified.compileWhere, planCategory. rewrite Hcat. reflexivity.
  - rewrite <- Heq. reflexivity.
  - intros T.
    destruct (validatePlanParams_keeps
                (TwoStage.buildQueryPlan raw other u
                   (TwoStage.finalCategory raw hint cats))) as [Hu [Hc _]].
    fold pA in Hu, Hc. cbn [urn category TwoStage.buildQueryPlan] in Hu, Hc.
    assert (Hfin : TwoStage.finalCategory raw hint cats = JStr n).
    { unfold TwoStage.finalCategory. rewrite T. cbn [negb andb].
      unfold TwoStage.intentCategory in *.
      destruct (truthy (get raw "category")); [reflexivity|discriminate]. }
    rewrite Hfin in Hc. split; [exact Hc|].
    assert (Hne : n <> "").
    { intros E. unfold TwoStage.intentCategory in T.
      destruct (truthy (get raw "category")); [|discriminate].
      fold n in T. rewrite E in T. discriminate. }
    assert (Hpc : planCategory pA = JStr n).
    { unfold planCategory. rewrite Hc. cbn [truthy].
      apply String.eqb_neq in Hne. rewrite Hne. cbn [negb].
      apply String.eqb_neq in Hne.
      unfold n. now rewrite norm_of_norm. }
    assert (Hcc : categoryClause meta (JStr n)
                  = ([categoryField meta ++ " = ?"], [JStr n])).
    { unfold categoryClause. cbn [truthy].
      apply String.eqb_neq in Hne. now rewrite Hne. }
    unfold TwoStage.compileWhere. rewrite Hpc, Hcc, Hu. reflexivity.
Qed.

Lemma C4_witness :
  let raw := [("category", JStr "Doorz"); ("task", JStr "count")] in
  let pB := Unified.validateAndBuildPlan raw Samples.urn0 ["Doors"; "Walls"] in
  let pA := TwoStage.validatePlanParams
              (TwoStage.buildQueryPlan raw [] Samples.urn0
                 (TwoStage.finalCategory raw JNull ["Doors"; "Walls"])) in
  category pB = JNull
  /\ Unified.compileWhere Samples.meta0 pB = (["urn = ?"], [Samples.urn0])
  /\ Unified.runQuery Samples.emptyEnv Samples.meta0 pB (JStr "how many?")
     = Ret (RCount (JNum 0))
  /\ category pA = JStr "Doorz"
  /\ TwoStage.compileWhere Samples.meta0 pA None
     = (["urn = ?"; "component_type = ?"], [Samples.urn0; JStr "Doorz"]).
Proof.
  intros raw pB pA.
  destruct (C4_unmatched_category raw [] Samples.urn0 JNull
              ["Doors"; "Walls"] Samples.meta0 Samples.emptyEnv
              (JStr "how many?") None) as [H1 [_ [H3 [_ H5]]]].
  - intros c [<-|[<-|[]]]; discriminate.
  - destruct (H5 eq_refl) as [H6 H7].
    split; [exact H1|]. split; [exact H3|]. split; [reflexivity|].
    split; [exact H6|exact H7].
Defined.

(** Against C5 as stated: with one malformed blob among three, discovery
    returns no metadata in either router; the parse error leaves [getMeta]
    and the request fails. *)
Lemma C5_counterexample :
  TwoStage.getMeta Samples.blobEnv Samples.urn0
  = Throw "SyntaxError: Unexpected token o in JSON at position 1"
  /\ Unified.getMeta Samples.blobEnv Samples.urn0
     = Throw "SyntaxError: Unexpected token o in JSON at position 1"
  /\ TwoStage.post Samples.blobEnv [("urn", Samples.urn0); ("question", JStr "how many doors?")]
     = Failed "SyntaxError: Unexpected token o in JSON at position 1"
  /\ Unified.post Samples.blobEnv [("urn", Samples.urn0); ("question", JStr "how many doors?")]
     = Failed "SyntaxError: Unexpected token o in JSON at position 1".
Proof. repeat split; vm_compute; reflexivity. Qed.

Lemma foldM_skip {A S : Type} (f : S -> A -> Outcome S) (keep : A -> bool)
    (xs : list A) :
  (forall s x, keep x = false -> f s x = Ret s) ->
  forall s, foldM f s xs = foldM f s (filter keep xs).
Proof.
  intros Hskip. induction xs as [|x xs IH]; intros s; simpl; [reflexivity|].
  destruct (keep x) eqn:K; simpl.
  - destruct (f s x); simpl; [apply IH|reflexivity].
  - rewrite (Hskip s x K). simpl. apply IH.
Qed.

Lemma foldM_throws {A S : Type} (f : S -> A -> Outcome S) (xs : list A)
    (d : A) (e : string) :
  (forall s, f s d = Throw e) -> In d xs ->
  forall s, exists e', foldM f s xs = Throw e'.
Proof.
  intros Hd. induction xs as [|x xs IH]; intros Hin s; [destruct Hin|].
  simpl. destruct Hin as [->|Hin].
  - rewrite Hd. simpl. now exists e.
  - destruct (f s x) as [s'|e0]; simpl; [now apply IH|now exists e0].
Qed.

Lemma foldM_prefix_throw {A S : Type} (f : S -> A -> Outcome S)
    (before after : list A) (d : A) (e : string) :
  (forall x acc, In x before -> exists acc', f acc x = Ret acc') ->
  (forall s, f s d = Throw e) ->
  forall s, foldM f s (before ++ d :: after) = Throw e.
Proof.
  intros Hb Hd. induction before as [|x before IH]; intros s; simpl.
  - now rewrite Hd.
  - destruct (Hb x s (or_introl eq_refl)) as [s' ->]. cbn [bind].
    apply IH. intros y acc Hy. apply Hb. now right.
Qed.

Lemma mapM_answers {A B : Type} (f : A -> Outcome B) (xs : list A) :
  (forall x, exists y, f x = Ret y) -> exists ys, mapM f xs = Ret ys.
Proof.
  intros H. induction xs as [|x xs [ys IH]]; simpl.
  - now exists [].
  - destruct (H x) as [y ->]. cbn [bind]. rewrite IH. cbn [bind].
    now exists (y :: ys).
Qed.

(** C5, amended. An element whose [props_flat] is null or empty is skipped:
    the scan of the blobs equals the scan of the elements that have one.
    A non-empty [props_flat] that fails to parse is not skipped: whenever
    the blob query returns such an element, [getMeta] throws, in both
    routers, and a request for that model that carries a question ends in
    [next(err)] with the error [getMeta] threw. That error is the parse
    error itself whenever the store answers every query and every element
    before the malformed one scans without error. *)
Theorem C5_malformed_blob_aborts_discovery
    (env : Env) (u : JsVal) (docs : list Obj) (d : Obj) (e : string) :
  let has_blob := fun x : Obj => truthy (get x "props_flat") in
  (forall acc, foldM (TwoStage.scanDoc env) acc docs
               = foldM (TwoStage.scanDoc env) acc (filter has_blob docs))
  /\ (forall acc, foldM (Unified.scanDoc env) acc docs
                  = foldM (Unified.scanDoc env) acc (filter has_blob docs))
  /\ (In d docs -> has_blob d = true ->
      JSON_parse env (ToString (get d "props_flat")) = Throw e ->
      (db_all env TwoStage.docsSql [u] = Ret docs ->
       exists e',
         TwoStage.getMeta env u = Throw e'
         /\ (forall body,
               get body "urn" = u -> truthy u = true ->
               truthy (get body "question") = true ->
               TwoStage.post env body = Failed e')
         /\ ((forall sql ps, exists rows, db_all env sql ps = Ret rows) ->
             forall before after,
               docs = (before ++ d :: after)%list ->
               (forall x acc, In x before ->
                              exists acc', TwoStage.scanDoc env acc x = Ret acc') ->
               e' = e))
      /\ (db_all env Unified.docsSql [u] = Ret docs ->
          exists e',
            Unified.getMeta env u = Throw e'
            /\ (forall body,
                  get body "urn" = u -> truthy u = true ->
                  truthy (get body "question") = true ->
                  Unified.post env body = Failed e')
            /\ ((forall sql ps, exists rows, db_all env sql ps = Ret rows) ->
                forall before after,
                  docs = (before ++ d :: after)%list ->
                  (forall x acc, In x before ->
                                 exists acc', Unified.scanDoc env acc x = Ret acc') ->
                  e' = e))).
Proof.
  intros has_blob. split; [|split].
  - intros acc. apply foldM_skip. intros s x K.
    unfold TwoStage.scanDoc. unfold has_blob in K. now rewrite K.
  - intros acc. apply foldM_skip. intros s x K.
    unfold Unified.scanDoc. unfold has_blob in K. now rewrite K.
  - intros Hin Hb Hparse. unfold has_blob in Hb.
    assert (SA : forall s, TwoStage.scanDoc env s d = Throw e).
    { intros s. unfold TwoStage.scanDoc. rewrite Hb, Hparse. reflexivity. }
    assert (SB : forall s, Unified.scanDoc env s d = Throw e).
    { intros s. unfold Unified.scanDoc. rewrite Hb, Hparse. reflexivity. }
    split; intros Hdocs.
    + assert (G : exists e', TwoStage.getMeta env u = Throw e').
      { unfold TwoStage.getMeta.
        destruct (db_all env categoriesSql [u]) as [rows|e0];
          [|now exists e0]. cbn [bind].
        destruct (mapM _ SAMPLE_KEYS) as [samples|e0]; [|now exists e0].
        cbn [bind]. rewrite Hdocs. cbn [bind].
        destruct (foldM_throws (TwoStage.scanDoc env) docs d e SA Hin [])
          as [e' He'].
        rewrite He'. now exists e'. }
      destruct G as [e' G]. exists e'. split; [exact G|]. split.
      * intros body Hu Tu Tq. unfold TwoStage.post.
        rewrite Hu, Tu, Tq. cbn [negb]. rewrite G. reflexivity.
      * intros Hstore before after Hsplit Hbefore.
        assert (G' : TwoStage.getMeta env u = Throw e).
        { unfold TwoStage.getMeta.
          destruct (Hstore categoriesSql [u]) as [rows ->]. cbn [bind].
          destruct (mapM_answers
                      (fun k => rows0 <- db_all env (TwoStage.sampleSql k) [u] ;;
                                Ret (k, stripEmpty (map (fun r => get r k) rows0)))
                      SAMPLE_KEYS) as [samples ->].
          { intros k. destruct (Hstore (TwoStage.sampleSql k) [u]) as [rows0 ->].
            cbn [bind]. eauto. }
          cbn [bind]. rewrite Hdocs. cbn [bind]. rewrite Hsplit.
          now rewrite (foldM_prefix_throw (TwoStage.scanDoc env) before after d e
                         Hbefore SA). }
        rewrite G in G'. now inversion G'.
    + assert (G : exists e', Unified.getMeta env u = Throw e').
      { unfold Unified.getMeta.
        destruct (db_all env categoriesSql [u]) as [rows|e0];
          [|now exists e0]. cbn [bind].
        destruct (mapM _ SAMPLE_KEYS) as [samples|e0]; [|now exists e0].
        cbn [bind]. rewrite Hdocs. cbn [bind].
        destruct (foldM_throws (Unified.scanDoc env) docs d e SB Hin ([], []))
          as [e' He'].
        rewrite He'. now exists e'. }
      destruct G as [e' G]. exists e'. split; [exact G|]. split.
      * intros body Hu Tu Tq. unfold Unified.post.
        rewrite Hu, Tu, Tq. cbn [negb]. rewrite G. reflexivity.
      * intros Hstore before after Hsplit Hbefore.
        assert (G' : Unified.getMeta env u = Throw e).
        { unfold Unified.getMeta.
          destruct (Hstore categoriesSql [u]) as [rows ->]. cbn [bind].
          destruct (mapM_answers
                      (fun k => rows0 <- db_all env (Unified.sampleSql k) [u] ;;
                                Ret (k, stripEmpty (map (fun r => get r k) rows0)))
                      SAMPLE_KEYS) as [samples ->].
          { intros k. destruct (Hstore (Unified.sampleSql k) [u]) as [rows0 ->].
            cbn [bind]. eauto. }
          cbn [bind]. rewrite Hdocs. cbn [bind]. rewrite Hsplit.
          now rewrite (foldM_prefix_throw (Unified.scanDoc env) before after d e
                         Hbefore SB). }
        rewrite G in G'. now inversion G'.
Qed.

Lemma C5_witness :
  TwoStage.getMeta Samples.blobEnv Samples.urn0
  = Throw "SyntaxError: Unexpected token o in JSON at position 1"
  /\ TwoStage.post Samples.blobEnv Samples.chatBody
     = Failed "SyntaxError: Unexpected token o in JSON at position 1"
  /\ Unified.getMeta Samples.blobEnv Samples.urn0
     = Throw "SyntaxError: Unexpected token o in JSON at position 1"
  /\ Unified.post Samples.blobEnv Samples.chatBody
     = Failed "SyntaxError: Unexpected token o in JSON at position 1".
Proof.
  destruct (C5_malformed_blob_aborts_discovery Samples.blobEnv Samples.urn0
              [ [("props_flat", JStr Samples.goodBlob)];
                [("props_flat", JStr Samples.badBlob)];
                [("props_flat", JStr Samples.goodBlob)] ]
              [("props_flat", JStr Samples.badBlob)]
              "SyntaxError: Unexpected token o in JSON at position 1")
    as [_ [_ H]].
  assert (Store : forall sql ps, exists rows, db_all Samples.blobEnv sql ps = Ret rows).
  { intros sql ps. simpl.
    destruct (String.eqb sql TwoStage.docsSql || String.eqb sql Unified.docsSql)%bool;
      eauto. }
  destruct H as [HA HB].
  - right. left. reflexivity.
  - reflexivity.
  - reflexivity.
  - destruct (HA eq_refl) as [eA [GA [PA XA]]].
    destruct (HB eq_refl) as [eB [GB [PB XB]]].
    assert (EA : eA = "SyntaxError: Unexpected token o in JSON at position 1").
    { apply (XA Store [ [("props_flat", JStr Samples.goodBlob)] ]
                      [ [("props_flat", JStr Samples.goodBlob)] ] eq_refl).
      intros x acc [<-|[]]. eexists. reflexivity. }
    assert (EB : eB = "SyntaxError: Unexpected token o in JSON at position 1").
    { apply (XB Store [ [("props_flat", JStr Samples.goodBlob)] ]
                      [ [("props_flat", JStr Samples.goodBlob)] ] eq_refl).
      intros x acc [<-|[]]. eexists. reflexivity. }
    subst eA eB.
    split; [exact GA|]. split; [apply PA; reflexivity|].
    split; [exact GB|]. apply PB; reflexivity.
Defined.

(** With only null or empty blobs besides the good ones, discovery returns
    the keys of the good ones. *)
Example getMeta_skips_empty_blobs :
  let env := {| db_all := fun sql _ =>
                  if String.eqb sql Unified.docsSql
                  then Ret [ [("props_flat", JNull)];
                             [("props_flat", JStr Samples.goodBlob)];
                             [("props_flat", JStr "")] ]
                  else Ret [];
                db_get := db_get Samples.blobEnv;
                JSON_parse := JSON_parse Samples.blobEnv;
                generateEmbedding := generateEmbedding Samples.blobEnv;
                semanticSearch := semanticSearch Samples.blobEnv;
                geminiJson := geminiJson Samples.blobEnv;
                geminiText := geminiText Samples.blobEnv |} in
  bind (Unified.getMeta env Samples.urn0) (fun m => Ret (areaKeys m))
  = Ret ["Floor Area"].
Proof. vm_compute. reflexivity. Qed.








Lemma semanticCandidates_off (env : Env) (p : Plan) :
  TwoStage.semanticCandidates env (with_useSemanticSearch p (JBool false)) = None.
Proof. reflexivity. Qed.

(** Against C7 as stated: the embedding service returns an empty
    embedding (an empty array), which is truthy; the search is called, its
    candidates are inlined, and the filter and the count differ from those
    of the unrestricted query. *)
Lemma C7_counterexample :
  let p := Samples.semanticPlan in
  let unrestricted := with_useSemanticSearch p (JBool false) in
  let env := Samples.emptyVectorEnv in
  generateEmbedding env (semanticQuery p) = Ret (JArr [])
  /\ join " AND "
       (fst (TwoStage.compileWhere Samples.meta0 p (TwoStage.semanticCandidates env p)))
     = "urn = ? AND id IN (7,9) AND component_type = ?"
  /\ join " AND "
       (fst (TwoStage.compileWhere Samples.meta0 unrestricted
               (TwoStage.semanticCandidates env unrestricted)))
     = "urn = ? AND component_type = ?"
  /\ TwoStage.runQuery env Samples.meta0 p (JStr "glass doors?")
     = Ret (RCount (JNum 2))
  /\ TwoStage.runQuery env Samples.meta0 unrestricted (JStr "glass doors?")
     = Ret (RCount (JNum 5)).
Proof. repeat split. Qed.

(** C7, amended. In the two-stage router, when the embedding call throws,
    or returns no embedding (a falsy value such as [null]), or the
    similarity search throws, the candidate ids stay unset: no [id IN]
    clause is added, and the compiled filter and the outcome of [runQuery]
    are those of the same plan with semantic search switched off. An empty
    array is not such a case: it is truthy, so for a plan that requests
    semantic search it is passed to the similarity search like any other
    embedding, and the candidates the search returns are the restriction. *)
Theorem C7_semantic_failure_is_no_restriction
    (env : Env) (meta : Meta) (p : Plan) (q : JsVal) :
  let unrestricted := with_useSemanticSearch p (JBool false) in
  (((exists e, generateEmbedding env (semanticQuery p) = Throw e)
    \/ (exists v, generateEmbedding env (semanticQuery p) = Ret v
                  /\ truthy v = false)
    \/ (exists v e, generateEmbedding env (semanticQuery p) = Ret v
                    /\ semanticSearch env (urn p) v
                         (js_or (topK p) (JNum DEFAULT_TOP_K)) = Throw e)) ->
   TwoStage.semanticCandidates env p = None
   /\ TwoStage.idClause (TwoStage.semanticCandidates env p) = []
   /\ TwoStage.compileWhere meta p (TwoStage.semanticCandidates env p)
      = TwoStage.compileWhere meta unrestricted
          (TwoStage.semanticCandidates env unrestricted)
   /\ TwoStage.runQuery env meta p q = TwoStage.runQuery env meta unrestricted q)
  /\ truthy (JArr []) = true
  /\ (forall v ids,
        truthy (useSemanticSearch p) = true ->
        truthy (semanticQuery p) = true ->
        generateEmbedding env (semanticQuery p) = Ret v ->
        truthy v = true ->
        semanticSearch env (urn p) v (js_or (topK p) (JNum DEFAULT_TOP_K))
        = Ret ids ->
        TwoStage.semanticCandidates env p = Some ids
        /\ (ids <> [] ->
            TwoStage.idClause (TwoStage.semanticCandidates env p)
            = ["id IN (" ++ array_join "," ids ++ ")"])).
Proof.
  intros unrestricted. split; [|split; [reflexivity|]].
  - intros H.
    assert (E : TwoStage.semanticCandidates env p = None).
    { unfold TwoStage.semanticCandidates.
      destruct (truthy (useSemanticSearch p) && truthy (semanticQuery p))%bool;
        [|reflexivity].
      destruct H as [[e He]|[[v [Hv Tv]]|[v [e [Hv Hs]]]]].
      - now rewrite He.
      - now rewrite Hv, Tv.
      - rewrite Hv. destruct (truthy v); [|reflexivity]. now rewrite Hs. }
    split; [exact E|]. split; [now rewrite E|]. split.
    + rewrite E. reflexivity.
    + unfold TwoStage.runQuery. rewrite E.
      unfold unrestricted. rewrite semanticCandidates_off. reflexivity.
  - intros v ids U Q He Tv Hs.
    assert (E : TwoStage.semanticCandidates env p = Some ids).
    { unfold TwoStage.semanticCandidates. now rewrite U, Q, He, Tv, Hs. }
    split; [exact E|]. intros Hne. rewrite E.
    destruct ids; [contradiction|reflexivity].
Qed.

Lemma C7_witness :
  TwoStage.compileWhere Samples.meta0 Samples.semanticPlan
    (TwoStage.semanticCandidates Samples.offlineEnv Samples.semanticPlan)
  = (["urn = ?"; "component_type = ?"], [Samples.urn0; JStr "Doors"])
  /\ TwoStage.runQuery Samples.offlineEnv Samples.meta0 Samples.semanticPlan
       (JStr "glass doors?")
     = Ret (RCount (JNum 1))
  /\ TwoStage.semanticCandidates Samples.emptyVectorEnv Samples.semanticPlan
     = Some [JNum 7; JNum 9].
Proof.
  destruct (C7_semantic_failure_is_no_restriction Samples.offlineEnv Samples.meta0
              Samples.semanticPlan (JStr "glass doors?")) as [H _].
  destruct H as [_ [_ [H1 H2]]].
  - left. exists "embedding service unavailable". reflexivity.
  - split; [rewrite H1; reflexivity|]. split; [rewrite H2; reflexivity|].
    destruct (C7_semantic_failure_is_no_restriction Samples.emptyVectorEnv
                Samples.meta0 Samples.semanticPlan (JStr "glass doors?"))
      as [_ [_ K]].
    apply (K (JArr []) [JNum 7; JNum 9]); reflexivity.
Defined.

(** When the services answer, the candidate ids are inlined. *)
Example semantic_restriction_applies :
  let env := {| db_all := db_all Samples.offlineEnv; db_get := db_get Samples.offlineEnv;
                JSON_parse := JSON_parse Samples.offlineEnv;
                generateEmbedding := fun _ => Ret (JArr [JNum 1; JNum 0]);
                semanticSearch := semanticSearch Samples.offlineEnv;
                geminiJson := geminiJson Samples.offlineEnv;
                geminiText := geminiText Samples.offlineEnv |} in
  join " AND "
    (fst (TwoStage.compileWhere Samples.meta0 Samples.semanticPlan
            (TwoStage.semanticCandidates env Samples.semanticPlan)))
  = "urn = ? AND id IN (7,9) AND component_type = ?".
Proof. reflexivity. Qed.

(** The values returned by the distinct handlers are trimmed and not blank. *)
Lemma distinct_values_trimmed (env : Env) (w : string) (ps : list JsVal)
    (field lim : JsVal) (r : TaskResult) :
  TwoStage.handleDistinctTask env w ps field lim = Ret r
  \/ Unified.handleDistinctTask env w ps field = Ret r ->
  exists values,
    r = RDistinct field values
    /\ forall s, In s values -> s <> "" /\ trim s = s.
Proof.
  assert (K : forall rows s,
             In s (filter (fun s => negb (String.eqb s ""))
                          (map (fun x => norm (get x (ToString field))) rows)) ->
             s <> "" /\ trim s = s).
  { intros rows s. rewrite filter_In, in_map_iff.
    intros [[x [<- _]] Hne]. split.
    - intros E. rewrite E in Hne. discriminate.
    - apply norm_trimmed. }
  unfold TwoStage.handleDistinctTask, Unified.handleDistinctTask.
  destruct (truthy field); cbn [negb].
  - intros [H|H].
    + destruct (db_all env _ _) as [rows|e]; [|discriminate].
      cbn [bind] in H. inversion H; subst. eexists. split; [reflexivity|].
      apply K.
    + destruct (db_all env _ _) as [rows|e]; [|discriminate].
      cbn [bind] in H. inversion H; subst. eexists. split; [reflexivity|].
      apply K.
  - intros [H|H]; discriminate.
Qed.

(** C8, at the failing input. The store returns two distinct raw values
    that differ only by a trailing blank; the handler trims after the
    store has removed duplicates, so the returned list holds ["Basic Wall"]
    twice, in both routers. *)
Theorem C8_distinct_values_repeat_after_trim :
  TwoStage.runQuery Samples.wallEnv Samples.meta0
    (TwoStage.validatePlanParams
       (TwoStage.buildQueryPlan Samples.typesRaw Samples.typesRaw Samples.urn0 JNull))
    (JStr "which wall types?")
  = Ret (RDistinct (JStr "type_name") ["Basic Wall"; "Basic Wall"])
  /\ Unified.runQuery Samples.wallEnv Samples.meta0
       (Unified.validateAndBuildPlan Samples.typesRaw Samples.urn0 [])
       (JStr "which wall types?")
     = Ret (RDistinct (JStr "type_name") ["Basic Wall"; "Basic Wall"])
  /\ NoDup [JStr "Basic Wall"; JStr "Basic Wall "]
  /\ ~ NoDup ["Basic Wall"; "Basic Wall"].
Proof.
  split; [reflexivity|]. split; [reflexivity|]. split.
  - constructor; [|constructor; [intros []|constructor]].
    intros [H|[]]. discriminate.
  - intros H. inversion H as [|x l Hnot _]; subst. apply Hnot. now left.
Qed.





Lemma not_in_strict (v : JsVal) (names : list string) :
  ~ In v (map JStr names) ->
  forall s, In s names -> strict_eq_str v s = false.
Proof.
  intros H s Hs. apply strict_eq_str_false. intros ->. apply H.
  now apply in_map.
Qed.

(** C10. A task outside the cases of the [switch] reaches the list handler:
    in the two-stage router every task other than ["count"], ["distinct"],
    ["group_count"] and ["sum_area"] (so also ["list"], ["sum_volume"], an
    unknown string or a value that is no string); in the unified router
    every task other than those four and ["sum_volume"]. The query then
    fails only if the store does: when the store answers, the result is a
    list result. *)
Theorem C10_other_tasks_run_the_list_handler
    (env : Env) (meta : Meta) (p : Plan) (q : JsVal) :
  let wA := TwoStage.compileWhere meta p (TwoStage.semanticCandidates env p) in
  let wB := Unified.compileWhere meta p in
  let limitA := match limit p with JNum n => JNum n | _ => JNum DEFAULT_LIMIT end in
  (~ In (task p) (map JStr ["count"; "distinct"; "group_count"; "sum_area"]) ->
   TwoStage.runQuery env meta p q
   = TwoStage.handleListTask env (join " AND " (fst wA)) (snd wA) limitA
   /\ forall rows,
        db_all env (TwoStage.listSql (join " AND " (fst wA)))
               (snd wA ++ [limitA])%list = Ret rows ->
        TwoStage.runQuery env meta p q = Ret (RList (map listDoc rows)))
  /\ (~ In (task p)
        (map JStr ["count"; "distinct"; "group_count"; "sum_area"; "sum_volume"]) ->
      Unified.runQuery env meta p q
      = Unified.handleListTask env (join " AND " (fst wB)) (snd wB)
      /\ forall rows,
           db_all env (Unified.listSql (join " AND " (fst wB))) (snd wB) = Ret rows ->
           Unified.runQuery env meta p q = Ret (RList (map listDoc rows))).
Proof.
  intros wA wB limitA. split.
  - intros H. pose proof (not_in_strict _ _ H) as S.
    assert (E : TwoStage.runQuery env meta p q
                = TwoStage.handleListTask env (join " AND " (fst wA)) (snd wA) limitA).
    { unfold TwoStage.runQuery. fold wA. destruct wA as [cl ps].
      rewrite (S "count"), (S "distinct"), (S "group_count"), (S "sum_area");
        simpl; auto 10. }
    split; [exact E|]. intros rows Hrows. rewrite E.
    unfold TwoStage.handleListTask. now rewrite Hrows.
  - intros H. pose proof (not_in_strict _ _ H) as S.
    assert (E : Unified.runQuery env meta p q
                = Unified.handleListTask env (join " AND " (fst wB)) (snd wB)).
    { unfold Unified.runQuery. fold wB. destruct wB as [cl ps].
      rewrite (S "count"), (S "distinct"), (S "group_count"), (S "sum_area"),
        (S "sum_volume"); simpl; auto 10. }
    split; [exact E|]. intros rows Hrows. rewrite E.
    unfold Unified.handleListTask. now rewrite Hrows.
Qed.

Lemma C10_witness :
  TwoStage.runQuery Samples.emptyEnv Samples.meta0 (Samples.taskPlan (JStr "sum_volume"))
    (JStr "volume?") = Ret (RList [])
  /\ TwoStage.runQuery Samples.emptyEnv Samples.meta0 (Samples.taskPlan (JStr "list"))
       (JStr "show") = Ret (RList [])
  /\ Unified.runQuery Samples.emptyEnv Samples.meta0 (Samples.taskPlan (JStr "frobnicate"))
       (JStr "?") = Ret (RList [])
  /\ Unified.runQuery Samples.emptyEnv Samples.meta0 (Samples.taskPlan (JNum 7))
       (JStr "?") = Ret (RList []).
Proof.
  assert (N4 : forall t, In t ["sum_volume"; "list"] ->
     ~ In (JStr t) (map JStr ["count"; "distinct"; "group_count"; "sum_area"])).
  { intros t [<-|[<-|[]]] H; simpl in H;
      repeat (destruct H as [H|H]; [discriminate|]); exact H. }
  assert (N5 : forall v, (forall s, v <> JStr s) \/ v = JStr "frobnicate" ->
     ~ In v (map JStr ["count"; "distinct"; "group_count"; "sum_area"; "sum_volume"])).
  { intros v [Hv| ->] H; simpl in H.
    - repeat (destruct H as [H|H]; [symmetry in H; exact (Hv _ H)|]). exact H.
    - repeat (destruct H as [H|H]; [discriminate|]). exact H. }
  split; [|split; [|split]].
  - destruct (proj1 (C10_other_tasks_run_the_list_handler Samples.emptyEnv
                       Samples.meta0 (Samples.taskPlan (JStr "sum_volume")) (JStr "volume?")))
      as [_ Hr].
    + apply N4. now left.
    + apply (Hr []). reflexivity.
  - destruct (proj1 (C10_other_tasks_run_the_list_handler Samples.emptyEnv
                       Samples.meta0 (Samples.taskPlan (JStr "list")) (JStr "show")))
      as [_ Hr].
    + apply N4. right. now left.
    + apply (Hr []). reflexivity.
  - destruct (proj2 (C10_other_tasks_run_the_list_handler Samples.emptyEnv
                       Samples.meta0 (Samples.taskPlan (JStr "frobnicate")) (JStr "?")))
      as [_ Hr].
    + apply N5. now right.
    + apply (Hr []). reflexivity.
  - destruct (proj2 (C10_other_tasks_run_the_list_handler Samples.emptyEnv
                       Samples.meta0 (Samples.taskPlan (JNum 7)) (JStr "?")))
      as [_ Hr].
    + apply N5. left. intros s. discriminate.
    + apply (Hr []). reflexivity.
Defined.

(* ================================================================== *)
(** ** Worked requests *)

Example norm_pads : norm (JStr "  Doors ") = "Doors".
Proof. reflexivity. Qed.

Example norm_zero : norm (JNum 0) = "".
Proof. reflexivity. Qed.

Example norm_number : norm (JNum (-12)) = "-12".
Proof. reflexivity. Qed.

Example tostring_array :
  ToString (JArr [JStr "a"; JNull; JNum 3; JArr [JStr "b"; JStr "c"]]) = "a,,3,b,c".
Proof. reflexivity. Qed.

Example area_key_matches :
  test_area "Dimensions.AREA" = true /\ test_area "Volume" = false
  /\ test_volume "Net volume" = true.
Proof. repeat split. Qed.

(** Five doors, counted through either router; the two-stage router takes
    the category from the hint, the unified one from the case fix. *)
Example count_doors :
  TwoStage.post (Samples.chatEnv "count" []) Samples.chatBody
  = DataReply "ok" (HitsResult (RCount (JNum 5))) None
  /\ Unified.post (Samples.chatEnv "count" []) Samples.chatBody
     = DataReply "ok" (HitsResult (RCount (JNum 5))) None.
Proof. split; vm_compute; reflexivity. Qed.

(** A list task over an empty filtered set still reaches the answer step. *)
Example list_empty :
  TwoStage.post (Samples.chatEnv "list" []) Samples.chatBody
  = DataReply "ok" (HitsList 0 []) None.
Proof. vm_compute. reflexivity. Qed.

(** A distinct task whose target is not an allowed column fails the request. *)
Example distinct_without_target_fails :
  TwoStage.post (Samples.chatEnv "distinct" [("targetParam", JStr "password")])
    Samples.chatBody
  = Failed "distinct requires targetParam"
  /\ Unified.post (Samples.chatEnv "group_count" [("targetParam", JStr "password")])
       Samples.chatBody
     = Failed "group_count requires targetParam".
Proof. split; vm_compute; reflexivity. Qed.

Example missing_inputs :
  TwoStage.post Samples.emptyEnv [("question", JStr "hello")] = BadRequest "Missing urn"
  /\ Unified.post Samples.emptyEnv [("urn", Samples.urn0)] = BadRequest "Missing question".
Proof. split; reflexivity. Qed.

(* ================================================================== *)
(** ** Further properties: normalisation *)

Lemma trimStart_split (s : string) :
  exists lead, s = lead ++ trimStart s /\ all_ws lead = true.
Proof.
  induction s as [|c r [lead [E W]]]; simpl.
  - exists "". now split.
  - destruct (is_ws c) eqn:C.
    + exists (String c lead). simpl. rewrite C, W. split; [now f_equal|reflexivity].
    + exists "". now split.
Qed.

Lemma trimEnd_split (s : string) :
  exists trail, s = trimEnd s ++ trail /\ all_ws trail = true.
Proof.
  induction s as [|c r [trail [E W]]]; simpl.
  - exists "". now split.
  - destruct (trimEnd r) as [|c' r'] eqn:T.
    + simpl in E. subst trail. destruct (is_ws c) eqn:C.
      * exists (String c r). simpl. rewrite C, W. now split.
      * exists r. now split.
    + exists trail. split; [|exact W]. simpl. now rewrite E at 1.
Qed.

Lemma append_assoc3 (a b c : string) : (a ++ b) ++ c = a ++ b ++ c.
Proof. induction a as [|x a IH]; simpl; [reflexivity|now rewrite IH]. Qed.

Lemma norm_JStr_fixed (s : string) : trim s = s -> norm (JStr s) = s.
Proof.
  intros T. unfold norm, js_or. cbn [truthy].
  destruct (String.eqb s "") eqn:E; cbn [negb ToString].
  - apply String.eqb_eq in E. now subst.
  - exact T.
Qed.

(** X1. [norm] only removes white space from the two ends of the rendered
    value: the rendering is the result between two runs of white space, the
    result begins and ends with no white space, every falsy value gives the
    empty string, and normalising a normalised value changes nothing. *)
Theorem norm_removes_outer_white_space (v : JsVal) :
  (exists lead trail,
     ToString (js_or v (JStr "")) = lead ++ norm v ++ trail
     /\ all_ws lead = true /\ all_ws trail = true)
  /\ trimStart (norm v) = norm v
  /\ trimEnd (norm v) = norm v
  /\ (truthy v = false -> norm v = "")
  /\ norm (JStr (norm v)) = norm v.
Proof.
  split; [|split; [|split; [|split]]].
  - unfold norm, trim.
    destruct (trimStart_split (ToString (js_or v (JStr "")))) as [lead [E1 W1]].
    destruct (trimEnd_split (trimStart (ToString (js_or v (JStr "")))))
      as [trail [E2 W2]].
    exists lead, trail. split; [|now split].
    rewrite E1 at 1. now rewrite E2 at 1.
  - unfold norm, trim. apply trimStart_fix, trimEnd_clean, trimStart_clean.
  - unfold norm, trim. apply trimEnd_idem.
  - intros F. unfold norm, js_or. now rewrite F.
  - apply norm_JStr_fixed, norm_trimmed.
Qed.

Lemma norm_removes_outer_white_space_witness :
  norm (JNum 0) = "" /\ norm (JStr (norm (JStr "  Basic Wall "))) = "Basic Wall".
Proof.
  destruct (norm_removes_outer_white_space (JNum 0)) as [_ [_ [_ [H _]]]].
  split; [exact (H eq_refl)|].
  destruct (norm_removes_outer_white_space (JStr "  Basic Wall "))
    as [_ [_ [_ [_ H']]]].
  rewrite H'. reflexivity.
Defined.




(* ================================================================== *)
(** ** Further properties: metadata discovery *)

Lemma prefix_spec (p s : string) :
  String.prefix p s = true <-> exists post, s = p ++ post.
Proof.
  revert s. induction p as [|a p IH]; intros s.
  - split; [intros _; now exists s|intros _; now destruct s].
  - destruct s as [|b s]; simpl.
    + split; [discriminate|]. intros [post E]. discriminate.
    + destruct (ascii_dec a b) as [->|N].
      * rewrite IH. split; intros [post E]; exists post.
        -- now rewrite E.
        -- now inversion E.
      * split; [discriminate|]. intros [post E]. inversion E. congruence.
Qed.

Lemma has_substring_spec (pat s : string) :
  has_substring pat s = true <-> exists pre post, s = pre ++ pat ++ post.
Proof.
  split.
  - induction s as [|c r IH]; cbn [has_substring]; rewrite orb_true_iff.
    + intros [H|H]; [|discriminate].
      apply prefix_spec in H. destruct H as [post E]. now exists "", post.
    + intros [H|H].
      * apply prefix_spec in H. destruct H as [post E]. now exists "", post.
      * destruct (IH H) as [pre [post E]]. exists (String c pre), post.
        cbn [append]. now rewrite E.
  - intros [pre [post E]]. revert s E.
    induction pre as [|c pre IH]; intros s E.
    + cbn [append] in E. destruct s; cbn [has_substring]; apply orb_true_iff;
        left; apply prefix_spec; now exists post.
    + cbn [append] in E. subst s. cbn [has_substring]. apply orb_true_iff.
      right. now apply IH.
Qed.

(** X3. The key tests of [getMeta] are substring tests that ignore the case
    of the letters A-Z: a key passes the area test exactly when its folded
    form contains "area", and the volume test exactly when it contains
    "volume". *)
Theorem key_tests_are_substring_tests (k : string) :
  (test_area k = true <-> exists pre post, fold_case k = pre ++ "area" ++ post)
  /\ (test_volume k = true <->
      exists pre post, fold_case k = pre ++ "volume" ++ post).
Proof. split; apply has_substring_spec. Qed.

Lemma key_tests_are_substring_tests_witness :
  test_area "Net AREA (m2)" = true.
Proof.
  apply (proj1 (key_tests_are_substring_tests "Net AREA (m2)")).
  now exists "net ", " (m2)".
Defined.

Lemma mapM_samples (env : Env) (u : JsVal) (sql : string -> string)
    (keys : list string) (samples : list (string * list string)) :
  mapM (fun k =>
          rows <- db_all env (sql k) [u] ;;
          Ret (k, stripEmpty (map (fun r => get r k) rows))) keys
  = Ret samples ->
  map fst samples = keys
  /\ forall k vs v, In (k, vs) samples -> In v vs -> v <> "" /\ trim v = v.
Proof.
  revert samples. induction keys as [|k keys IH]; intros samples; simpl.
  - intros E. inversion E. split; [reflexivity|]. intros ? ? ? [].
  - destruct (db_all env (sql k) [u]) as [rows|e]; [|discriminate]. cbn [bind].
    destruct (mapM _ keys) as [rest|e]; [|discriminate]. cbn [bind].
    intros E. inversion E; subst. destruct (IH rest eq_refl) as [H1 H2].
    split; [simpl; now rewrite H1|].
    intros k' vs v [Hin|Hin] Hv.
    + inversion Hin; subst. now apply (stripEmpty_nonblank _ _ Hv).
    + now apply (H2 k' vs v).
Qed.

(** X4. Whatever the store returns, the metadata of either router names
    the category column [component_type], lists only non-empty, trimmed
    categories, and holds one list of samples per sample key, in the order
    of [SAMPLE_KEYS], whose values are non-empty and trimmed. *)
Theorem getMeta_values_are_clean (env : Env) (u : JsVal) (meta : Meta) :
  TwoStage.getMeta env u = Ret meta \/ Unified.getMeta env u = Ret meta ->
  categoryField meta = "component_type"
  /\ (forall c, In c (categories meta) -> c <> "" /\ trim c = c)
  /\ map fst (paramSamples meta) = SAMPLE_KEYS
  /\ (forall k vs v, In (k, vs) (paramSamples meta) -> In v vs ->
                     v <> "" /\ trim v = v).
Proof.
  intros [H|H].
  - unfold TwoStage.getMeta in H.
    destruct (db_all env categoriesSql [u]) as [rows|e]; [|discriminate].
    cbn [bind] in H.
    destruct (mapM _ SAMPLE_KEYS) as [samples|e] eqn:M; [|discriminate].
    cbn [bind] in H.
    destruct (db_all env TwoStage.docsSql [u]) as [docs|e]; [|discriminate].
    cbn [bind] in H.
    destruct (foldM _ _ docs) as [ks|e]; [|discriminate].
    cbn [bind] in H. inversion H; subst. cbn [categoryField categories paramSamples].
    destruct (mapM_samples env u TwoStage.sampleSql SAMPLE_KEYS samples M) as [S1 S2].
    split; [reflexivity|]. split; [apply stripEmpty_nonblank|]. now split.
  - unfold Unified.getMeta in H.
    destruct (db_all env categoriesSql [u]) as [rows|e]; [|discriminate].
    cbn [bind] in H.
    destruct (mapM _ SAMPLE_KEYS) as [samples|e] eqn:M; [|discriminate].
    cbn [bind] in H.
    destruct (db_all env Unified.docsSql [u]) as [docs|e]; [|discriminate].
    cbn [bind] in H.
    destruct (foldM _ _ docs) as [ks|e]; [|discriminate].
    cbn [bind] in H. inversion H; subst. cbn [categoryField categories paramSamples].
    destruct (mapM_samples env u Unified.sampleSql SAMPLE_KEYS samples M) as [S1 S2].
    split; [reflexivity|]. split; [apply stripEmpty_nonblank|]. now split.
Qed.

Lemma getMeta_values_are_clean_witness :
  let meta := mkMeta "component_type" ["Doors"]
                     (map (fun k => (k, [])) SAMPLE_KEYS) [] (Some []) in
  Unified.getMeta (Samples.chatEnv "count" []) Samples.urn0 = Ret meta
  /\ (forall c, In c (categories meta) -> c <> "" /\ trim c = c)
  /\ map fst (paramSamples meta) = SAMPLE_KEYS.
Proof.
  intros meta.
  assert (H : Unified.getMeta (Samples.chatEnv "count" []) Samples.urn0 = Ret meta)
    by reflexivity.
  destruct (getMeta_values_are_clean (Samples.chatEnv "count" []) Samples.urn0
              meta (or_intror H)) as [_ [H2 [H3 _]]].
  split; [exact H|]. split; assumption.
Defined.

Lemma Set_add_In (k : string) (ks : list string) (x : string) :
  In x (Set_add k ks) <-> In x ks \/ x = k.
Proof.
  unfold Set_add. destruct (mem_string k ks) eqn:M.
  - apply mem_string_In in M. split; [now left|]. intros [H| ->]; assumption.
  - rewrite in_app_iff. simpl. intuition auto.
Qed.

Lemma Set_add_NoDup (k : string) (ks : list string) :
  NoDup ks -> NoDup (Set_add k ks).
Proof.
  unfold Set_add. destruct (mem_string k ks) eqn:M; [trivial|].
  assert (N : ~ In k ks).
  { intros H. apply mem_string_In in H. congruence. }
  clear M. induction ks as [|a ks IH]; intros D; simpl.
  - constructor; [intros []|constructor].
  - inversion D as [|? ? Ha Dk]; subst. constructor.
    + rewrite in_app_iff. intros [H|[H|[]]]; [contradiction|].
      subst. apply N. now left.
    + apply IH; [|assumption]. intros H. apply N. now right.
Qed.

Lemma collect_spec (test : string -> bool) (keys acc : list string) :
  NoDup acc ->
  NoDup (collect test keys acc)
  /\ forall x, In x (collect test keys acc)
               <-> In x acc \/ (In x keys /\ test x = true).
Proof.
  unfold collect. revert acc. induction keys as [|k keys IH]; intros acc D.
  - simpl. split; [assumption|]. intros x. split; [now left|].
    intros [H|[[] _]]. assumption.
  - cbn [fold_left]. destruct (test k) eqn:T.
    + destruct (IH (Set_add k acc) (Set_add_NoDup k acc D)) as [D' I'].
      split; [assumption|]. intros x. rewrite I', Set_add_In. simpl.
      split.
      * intros [[H| ->]|[H Hx]]; auto.
      * intros [H|[[<-|H] Hx]]; auto.
    + destruct (IH acc D) as [D' I']. split; [assumption|].
      intros x. rewrite I'. simpl. split.
      * intros [H|[H Hx]]; auto.
      * intros [H|[[<-|H] Hx]]; auto. congruence.
Qed.

Lemma collect_pair (keys : list string) (sets : list string * list string) :
  fold_left
    (fun acc k =>
       let area := if test_area k then Set_add k (fst acc) else fst acc in
       let vol := if test_volume k then Set_add k (snd acc) else snd acc in
       (area, vol)) keys sets
  = (collect test_area keys (fst sets), collect test_volume keys (snd sets)).
Proof.
  unfold collect. revert sets. induction keys as [|k keys IH]; intros [a v].
  - reflexivity.
  - cbn [fold_left fst snd]. now rewrite IH.
Qed.

(** The scan of the blobs, for one test, as a relation between the set
    before and the set after. *)
Lemma scan_spec (env : Env) (test : string -> bool)
    (step : list string -> Obj -> Outcome (list string)) :
  (forall acc d,
     step acc d
     = if negb (truthy (get d "props_flat")) then Ret acc
       else pf <- JSON_parse env (ToString (get d "props_flat")) ;;
            keys <- Object_keys pf ;;
            Ret (collect test keys acc)) ->
  forall docs acc acc',
    foldM step acc docs = Ret acc' ->
    NoDup acc ->
    NoDup acc'
    /\ forall x, In x acc'
                 <-> In x acc
                     \/ (test x = true
                         /\ exists d, In d docs /\ blobHasKey env d x).
Proof.
  intros Hstep. induction docs as [|d docs IH]; intros acc acc' H D.
  - simpl in H. inversion H; subst. split; [assumption|].
    intros x. split; [now left|]. intros [?|[_ [d [[] _]]]]. assumption.
  - cbn [foldM] in H. rewrite Hstep in H.
    destruct (truthy (get d "props_flat")) eqn:T; cbn [negb bind] in H.
    + destruct (JSON_parse env _) as [pf|e] eqn:P; [|discriminate].
      cbn [bind] in H.
      destruct (Object_keys pf) as [keys|e] eqn:K; [|discriminate].
      cbn [bind] in H.
      destruct (collect_spec test keys acc D) as [D1 I1].
      destruct (IH _ _ H D1) as [D2 I2]. split; [assumption|].
      intros x. rewrite I2, I1. split.
      * intros [[Hx|[Hk Ht]]|[Ht [d' [Hd Hb]]]].
        -- now left.
        -- right. split; [assumption|]. exists d. split; [now left|].
           split; [assumption|]. now exists pf, keys.
        -- right. split; [assumption|]. exists d'. split; [now right|assumption].
      * intros [Hx|[Ht [d' [[<-|Hd] Hb]]]].
        -- left. now left.
        -- destruct Hb as [_ [pf' [ks' [P' [K' Hin]]]]].
           rewrite P in P'. inversion P'; subst pf'.
           rewrite K in K'. inversion K'; subst ks'.
           left. right. now split.
        -- right. split; [assumption|]. now exists d'.
    + destruct (IH _ _ H D) as [D2 I2]. split; [assumption|].
      intros x. rewrite I2. split.
      * intros [Hx|[Ht [d' [Hd Hb]]]]; [now left|].
        right. split; [assumption|]. exists d'. split; [now right|assumption].
      * intros [Hx|[Ht [d' [[<-|Hd] Hb]]]]; [now left| |].
        -- destruct Hb as [T' _]. congruence.
        -- right. split; [assumption|]. now exists d'.
Qed.

Lemma unified_scan_split (env : Env) (docs : list Obj)
    (sets sets' : list string * list string) :
  foldM (Unified.scanDoc env) sets docs = Ret sets' ->
  foldM (fun acc d =>
           if negb (truthy (get d "props_flat")) then Ret acc
           else pf <- JSON_parse env (ToString (get d "props_flat")) ;;
                keys <- Object_keys pf ;;
                Ret (collect test_area keys acc)) (fst sets) docs
  = Ret (fst sets')
  /\ foldM (fun acc d =>
              if negb (truthy (get d "props_flat")) then Ret acc
              else pf <- JSON_parse env (ToString (get d "props_flat")) ;;
                   keys <- Object_keys pf ;;
                   Ret (collect test_volume keys acc)) (snd sets) docs
     = Ret (snd sets').
Proof.
  revert sets. induction docs as [|d docs IH]; intros sets H.
  - simpl in H. inversion H. now split.
  - cbn [foldM] in *. unfold Unified.scanDoc in H at 1.
    destruct (truthy (get d "props_flat")); cbn [negb bind] in *.
    + destruct (JSON_parse env _) as [pf|e]; [|discriminate]. cbn [bind] in *.
      destruct (Object_keys pf) as [keys|e]; [|discriminate]. cbn [bind] in *.
      rewrite collect_pair in H. apply IH in H. exact H.
    + now apply IH.
Qed.

(** X5. Key discovery of the unified router is exact: when [getMeta]
    returns, its area keys are, without repetition, exactly the property
    names that pass the area test in the parsed blob of some element the
    blob query returned, and its volume keys likewise for the volume test. *)
Theorem unified_key_discovery_is_exact (env : Env) (u : JsVal) (meta : Meta) :
  Unified.getMeta env u = Ret meta ->
  exists docs vks,
    db_all env Unified.docsSql [u] = Ret docs
    /\ volumeKeys meta = Some vks
    /\ NoDup (areaKeys meta) /\ NoDup vks
    /\ (forall k, In k (areaKeys meta)
                  <-> test_area k = true
                      /\ exists d, In d docs /\ blobHasKey env d k)
    /\ (forall k, In k vks
                  <-> test_volume k = true
                      /\ exists d, In d docs /\ blobHasKey env d k).
Proof.
  intros H. unfold Unified.getMeta in H.
  destruct (db_all env categoriesSql [u]) as [rows|e]; [|discriminate].
  cbn [bind] in H.
  destruct (mapM _ SAMPLE_KEYS) as [samples|e]; [|discriminate].
  cbn [bind] in H.
  destruct (db_all env Unified.docsSql [u]) as [docs|e]; [|discriminate].
  cbn [bind] in H.
  destruct (foldM _ _ docs) as [sets|e] eqn:F; [|discriminate].
  cbn [bind] in H. inversion H; subst. cbn [areaKeys volumeKeys].
  destruct (unified_scan_split env docs ([], []) sets F) as [FA FV].
  cbn [fst snd] in FA, FV.
  destruct (scan_spec env test_area _ (fun _ _ => eq_refl) docs [] (fst sets) FA
              (NoDup_nil _)) as [DA IA].
  destruct (scan_spec env test_volume _ (fun _ _ => eq_refl) docs [] (snd sets) FV
              (NoDup_nil _)) as [DV IV].
  exists docs, (snd sets). repeat (split; [first [reflexivity|assumption]|]).
  split; intros k; [rewrite IA|rewrite IV]; simpl; intuition auto.
Qed.

(** X6. Key discovery of the two-stage router is sound and bounded: when
    [getMeta] returns, it has no volume keys, at most 200 area keys without
    repetition, and each of them passes the area test and is a property
    name in the parsed blob of some element the blob query returned. *)
Theorem twoStage_key_discovery_is_sound (env : Env) (u : JsVal) (meta : Meta) :
  TwoStage.getMeta env u = Ret meta ->
  exists docs,
    db_all env TwoStage.docsSql [u] = Ret docs
    /\ volumeKeys meta = None
    /\ NoDup (areaKeys meta)
    /\ List.length (areaKeys meta) <= 200
    /\ (forall k, In k (areaKeys meta) ->
                  test_area k = true
                  /\ exists d, In d docs /\ blobHasKey env d k).
Proof.
  intros H. unfold TwoStage.getMeta in H.
  destruct (db_all env categoriesSql [u]) as [rows|e]; [|discriminate].
  cbn [bind] in H.
  destruct (mapM _ SAMPLE_KEYS) as [samples|e]; [|discriminate].
  cbn [bind] in H.
  destruct (db_all env TwoStage.docsSql [u]) as [docs|e]; [|discriminate].
  cbn [bind] in H.
  destruct (foldM _ _ docs) as [ks|e] eqn:F; [|discriminate].
  cbn [bind] in H.
  apply (f_equal (fun o => match o with Ret m => m | Throw _ => meta end)) in H.
  cbv beta iota in H. subst meta. cbn [areaKeys volumeKeys].
  destruct (scan_spec env test_area (TwoStage.scanDoc env) (fun _ _ => eq_refl)
              docs [] ks F (NoDup_nil _)) as [D I].
  exists docs. split; [reflexivity|]. split; [reflexivity|]. split; [|split].
  - rewrite <- (firstn_skipn 200 ks) in D.
    now apply NoDup_app_remove_r in D.
  - apply firstn_le_length.
  - intros k Hk.
    assert (Hin : In k ks).
    { rewrite <- (firstn_skipn 200 ks). apply in_or_app. now left. }
    apply I in Hin. destruct Hin as [[]|Hin]. exact Hin.
Qed.

Lemma unified_key_discovery_is_exact_witness :
  let meta := mkMeta "component_type" []
                     (map (fun k => (k, [])) SAMPLE_KEYS)
                     ["Floor Area"] (Some ["Volume"]) in
  Unified.getMeta Samples.keysEnv Samples.urn0 = Ret meta
  /\ exists docs vks,
       db_all Samples.keysEnv Unified.docsSql [Samples.urn0] = Ret docs
       /\ volumeKeys meta = Some vks
       /\ NoDup (areaKeys meta) /\ NoDup vks.
Proof.
  intros meta.
  assert (H : Unified.getMeta Samples.keysEnv Samples.urn0 = Ret meta)
    by reflexivity.
  split; [exact H|].
  destruct (unified_key_discovery_is_exact Samples.keysEnv Samples.urn0 meta H)
    as [docs [vks [H1 [H2 [H3 [H4 _]]]]]].
  exists docs, vks. repeat split; assumption.
Defined.

Lemma twoStage_key_discovery_is_sound_witness :
  let meta := mkMeta "component_type" []
                     (map (fun k => (k, [])) SAMPLE_KEYS)
                     ["Floor Area"] None in
  TwoStage.getMeta Samples.keysEnv Samples.urn0 = Ret meta
  /\ NoDup (areaKeys meta) /\ List.length (areaKeys meta) <= 200.
Proof.
  intros meta.
  assert (H : TwoStage.getMeta Samples.keysEnv Samples.urn0 = Ret meta)
    by reflexivity.
  split; [exact H|].
  destruct (twoStage_key_discovery_is_sound Samples.keysEnv Samples.urn0 meta H)
    as [docs [_ [_ [H3 [H4 _]]]]].
  split; assumption.
Defined.

(** X7. A blob that parses to [null] (the JSON text [null]) is not skipped
    either: [Object.keys] throws on it, so [getMeta] throws in both routers
    whenever the blob query returns such an element. *)
Theorem null_blob_aborts_discovery
    (env : Env) (u : JsVal) (docs : list Obj) (d : Obj) :
  In d docs ->
  truthy (get d "props_flat") = true ->
  JSON_parse env (ToString (get d "props_flat")) = Ret JNull ->
  (db_all env TwoStage.docsSql [u] = Ret docs ->
   exists e, TwoStage.getMeta env u = Throw e)
  /\ (db_all env Unified.docsSql [u] = Ret docs ->
      exists e, Unified.getMeta env u = Throw e).
Proof.
  intros Hin Hb Hparse. split; intros Hdocs.
  - unfold TwoStage.getMeta.
    destruct (db_all env categoriesSql [u]) as [rows|e0]; [|now exists e0].
    cbn [bind].
    destruct (mapM _ SAMPLE_KEYS) as [samples|e0]; [|now exists e0].
    cbn [bind]. rewrite Hdocs. cbn [bind].
    destruct (foldM_throws (TwoStage.scanDoc env) docs d
                "TypeError: Cannot convert undefined or null to object")
      with (s := @nil string) as [e' He']; [|assumption|].
    + intros s. unfold TwoStage.scanDoc. rewrite Hb, Hparse. reflexivity.
    + rewrite He'. now exists e'.
  - unfold Unified.getMeta.
    destruct (db_all env categoriesSql [u]) as [rows|e0]; [|now exists e0].
    cbn [bind].
    destruct (mapM _ SAMPLE_KEYS) as [samples|e0]; [|now exists e0].
    cbn [bind]. rewrite Hdocs. cbn [bind].
    destruct (foldM_throws (Unified.scanDoc env) docs d
                "TypeError: Cannot convert undefined or null to object")
      with (s := (@nil string, @nil string)) as [e' He']; [|assumption|].
    + intros s. unfold Unified.scanDoc. rewrite Hb, Hparse. reflexivity.
    + rewrite He'. now exists e'.
Qed.

Lemma null_blob_aborts_discovery_witness :
  (exists e, TwoStage.getMeta Samples.nullBlobEnv Samples.urn0 = Throw e)
  /\ (exists e, Unified.getMeta Samples.nullBlobEnv Samples.urn0 = Throw e).
Proof.
  destruct (null_blob_aborts_discovery Samples.nullBlobEnv Samples.urn0
              [ [("props_flat", JStr Samples.goodBlob)];
                [("props_flat", JStr "null")] ]
              [("props_flat", JStr "null")]) as [HA HB].
  - right. now left.
  - reflexivity.
  - reflexivity.
  - split; [apply HA|apply HB]; reflexivity.
Defined.

(* ================================================================== *)
(** ** Further properties: plan validation *)

Lemma validateParam_cases (raw : JsVal) :
  Unified.validateParam raw = JNull
  \/ exists s, In s ALLOWED_PARAMS /\ raw = JStr s
               /\ Unified.validateParam raw = JStr s.
Proof.
  unfold Unified.validateParam.
  destruct (validated_param_cases raw) as [E|[s [E [Hin Hraw]]]];
    cbv zeta in E; rewrite E; [now left|].
  right. now exists s.
Qed.

(** X8. In the validated plan of either router, [filterParam] and
    [targetParam] are the raw value when it is one of the ten allowed column
    names, and [null] in every other case; the two routers agree on both. *)
Theorem validated_params_are_allowed_or_null
    (plan1 raw : Obj) (u cat : JsVal) (cats : list string) :
  let pA := TwoStage.validatePlanParams (TwoStage.buildQueryPlan plan1 raw u cat) in
  let pB := Unified.validateAndBuildPlan raw u cats in
  let ok := fun v r : JsVal =>
              (ALLOWED_PARAMS_has r = true /\ v = r
               /\ exists s, In s ALLOWED_PARAMS /\ v = JStr s)
              \/ (ALLOWED_PARAMS_has r = false /\ v = JNull) in
  filterParam pA = filterParam pB
  /\ targetParam pA = targetParam pB
  /\ ok (filterParam pA) (get raw "filterParam")
  /\ ok (targetParam pA) (get raw "targetParam").
Proof.
  intros pA pB ok.
  assert (K : forall r, ok (Unified.validateParam r) r).
  { intros r. unfold ok. destruct (ALLOWED_PARAMS_has r) eqn:A.
    - left. split; [reflexivity|].
      destruct (validateParam_cases r) as [E|[s [Hin [Hr E]]]].
      + exfalso. unfold Unified.validateParam, js_or in E.
        destruct r; try discriminate A.
        change (mem_string s ALLOWED_PARAMS = true) in A.
        apply mem_string_In in A. cbn [truthy] in E.
        destruct (String.eqb s "") eqn:Es.
        * apply String.eqb_eq in Es. subst.
          unfold ALLOWED_PARAMS in A.
          repeat (destruct A as [A|A]; [discriminate|]). exact A.
        * cbn [negb] in E. cbn [truthy] in E. rewrite Es in E. cbn [negb andb] in E.
          apply mem_string_In in A.
          change (ALLOWED_PARAMS_has (JStr s)) with (mem_string s ALLOWED_PARAMS) in E.
          rewrite A in E. discriminate.
      + subst r. split; [exact E|]. now exists s.
    - right. split; [reflexivity|]. now apply validateParam_disallowed. }
  unfold pA. rewrite twoStage_validated_filterParam, twoStage_validated_targetParam.
  cbn [pB filterParam targetParam Unified.validateAndBuildPlan].
  split; [reflexivity|]. split; [reflexivity|]. split; apply K.
Qed.

(** X9. Whatever plan [validatePlanParams] or [validateAndBuildPlan] is
    given, each clause of the compiled WHERE text is the model scope, the
    candidate restriction, the category clause on the metadata's category
    column, or [<column> = ?] for one of the ten allowed column names: no
    other text reaches the filter. *)
Theorem compiled_filter_uses_allowed_columns
    (meta : Meta) (p : Plan) (raw : Obj) (u : JsVal) (cats : list string)
    (ids : option (list JsVal)) (c : string) :
  In c (fst (TwoStage.compileWhere meta (TwoStage.validatePlanParams p) ids))
  \/ In c (fst (Unified.compileWhere meta (Unified.validateAndBuildPlan raw u cats))) ->
  c = "urn = ?"
  \/ In c (TwoStage.idClause ids)
  \/ c = categoryField meta ++ " = ?"
  \/ exists s, In s ALLOWED_PARAMS /\ c = s ++ " = ?".
Proof.
  assert (Cat : forall v, In c (fst (categoryClause meta v)) ->
                          c = categoryField meta ++ " = ?").
  { intros v. unfold categoryClause. destruct (truthy v); simpl; [|intros []].
    intros [<-|[]]. reflexivity. }
  assert (Attr : forall q, (truthy (filterParam q) = true ->
                            exists s, In s ALLOWED_PARAMS /\ filterParam q = JStr s) ->
                 In c (fst (attributeClause q)) ->
                 exists s, In s ALLOWED_PARAMS /\ c = s ++ " = ?").
  { intros q Hq. unfold attributeClause.
    destruct (truthy (filterParam q)) eqn:T; cbn [andb]; [|intros []].
    destruct (filterValue_present (filterValue q)); simpl; [|intros []].
    intros [<-|[]]. destruct (Hq eq_refl) as [s [Hin E]].
    exists s. split; [assumption|]. now rewrite E. }
  intros [H|H].
  - unfold TwoStage.compileWhere in H. cbn [fst] in H.
    apply in_app_or in H. destruct H as [H|H].
    + destruct H as [<-|H]; [now left|right; now left].
    + apply in_app_or in H. destruct H as [H|H].
      * right. right. left. now apply (Cat _ H).
      * right. right. right. apply (Attr _) in H; [assumption|].
        unfold TwoStage.validatePlanParams.
        destruct (truthy (filterParam p)) eqn:T; cbn [andb].
        -- destruct (ALLOWED_PARAMS_has (filterParam p)) eqn:A; cbn [negb].
           ++ match goal with
              | |- context [if ?b then _ else _] => destruct b
              end; cbn [filterParam with_targetParam]; intros _;
                destruct (filterParam p); try discriminate A;
                exists s; (split; [now apply mem_string_In|reflexivity]).
           ++ match goal with
              | |- context [if ?b then _ else _] => destruct b
              end; cbn [filterParam with_targetParam with_filterParam truthy];
                discriminate.
        -- match goal with
           | |- context [if ?b then _ else _] => destruct b
           end; cbn [filterParam with_targetParam]; rewrite T; discriminate.
  - unfold Unified.compileWhere in H. cbn [fst] in H.
    apply in_app_or in H. destruct H as [H|H].
    + destruct H as [<-|[]]. now left.
    + apply in_app_or in H. destruct H as [H|H].
      * right. right. left. now apply (Cat _ H).
      * right. right. right. apply (Attr _) in H; [assumption|].
        cbn [filterParam Unified.validateAndBuildPlan]. intros T.
        destruct (validateParam_cases (get raw "filterParam")) as [E|[s [Hin [_ E]]]].
        -- rewrite E in T. discriminate.
        -- now exists s.
Qed.

Lemma compiled_filter_uses_allowed_columns_witness :
  "level_number = ?" = "urn = ?"
  \/ In "level_number = ?" (TwoStage.idClause None)
  \/ "level_number = ?" = categoryField Samples.meta0 ++ " = ?"
  \/ exists s, In s ALLOWED_PARAMS /\ "level_number = ?" = s ++ " = ?".
Proof.
  apply (compiled_filter_uses_allowed_columns Samples.meta0
           (Samples.levelPlan (JStr "L1")) [] Samples.urn0 [] None).
  left. right. now left.
Defined.

(** X10. [validatePlanParams] changes nothing but [filterParam] and
    [targetParam], and validating a validated plan changes nothing. *)
Theorem validatePlanParams_is_idempotent (p : Plan) :
  TwoStage.validatePlanParams (TwoStage.validatePlanParams p)
  = TwoStage.validatePlanParams p
  /\ TwoStage.validatePlanParams p
     = with_targetParam
         (with_filterParam p (filterParam (TwoStage.validatePlanParams p)))
         (targetParam (TwoStage.validatePlanParams p)).
Proof.
  destruct p as [u i t c l fp fv tp k us sq tk n].
  unfold TwoStage.validatePlanParams.
  cbn -[ALLOWED_PARAMS_has truthy andb negb].
  destruct (truthy fp && negb (ALLOWED_PARAMS_has fp))%bool eqn:F;
    destruct (truthy tp && negb (ALLOWED_PARAMS_has tp))%bool eqn:T;
    repeat (cbn -[ALLOWED_PARAMS_has truthy andb negb];
            rewrite ?F, ?T; cbn [truthy andb]);
    split; reflexivity.
Qed.

Lemma exact_category_wins (analysis : Obj) (cats : list string) :
  In (norm (get analysis "category")) cats ->
  norm (get analysis "category") <> "" ->
  Unified.validateCategory analysis cats = JStr (norm (get analysis "category")).
Proof.
  intros Hin Hne. unfold Unified.validateCategory.
  assert (T : truthy (get analysis "category") = true).
  { destruct (truthy (get analysis "category")) eqn:T; [reflexivity|].
    exfalso. apply Hne. unfold norm, js_or. now rewrite T. }
  rewrite T. unfold find_str.
  destruct (find_exists (fun c => String.eqb c (norm (get analysis "category")))
              cats _ Hin (String.eqb_refl _)) as [c E1].
  rewrite E1. apply find_some in E1. destruct E1 as [_ Heq].
  apply String.eqb_eq in Heq. subst c. cbn [truthy].
  apply String.eqb_neq in Hne. now rewrite Hne.
Qed.

(** X11. The category of a plan validated by the unified router is [null]
    or a non-empty member of the available categories that equals the
    trimmed raw category up to letter case; when the trimmed raw category is
    itself a non-empty member, it is the result, whatever other members
    match it up to case. *)
Theorem validated_category_is_a_member
    (analysis : Obj) (u : JsVal) (cats : list string) :
  let n := norm (get analysis "category") in
  let result := category (Unified.validateAndBuildPlan analysis u cats) in
  (result = JNull
   \/ exists c, result = JStr c /\ In c cats /\ c <> ""
                /\ toLowerCase c = toLowerCase n)
  /\ (In n cats -> n <> "" -> result = JStr n).
Proof.
  intros n result. unfold result.
  cbn [category Unified.validateAndBuildPlan]. unfold Unified.validateCategory.
  fold n. split.
  - destruct (truthy (get analysis "category")); [|now left].
    unfold find_str.
    destruct (find (fun c => String.eqb c n) cats) as [c|] eqn:E1.
    + apply find_some in E1. destruct E1 as [Hin Heq].
      apply String.eqb_eq in Heq. subst c. cbn [truthy].
      destruct (String.eqb n "") eqn:En; cbn [negb].
      * destruct (find (fun c => String.eqb (toLowerCase c) (toLowerCase n)) cats)
        as [c|] eqn:E2; [|now left].
        apply find_some in E2. destruct E2 as [Hin2 Heq2].
        apply String.eqb_eq in Heq2. cbn [truthy].
        destruct (String.eqb c "") eqn:Ec; cbn [negb]; [now left|].
        right. exists c. apply String.eqb_neq in Ec. now repeat split.
      * right. exists n. apply String.eqb_neq in En. now repeat split.
    + cbn [truthy].
      destruct (find (fun c => String.eqb (toLowerCase c) (toLowerCase n)) cats)
        as [c|] eqn:E2; [|now left].
      apply find_some in E2. destruct E2 as [Hin2 Heq2].
      apply String.eqb_eq in Heq2. cbn [truthy].
      destruct (String.eqb c "") eqn:Ec; cbn [negb]; [now left|].
      right. exists c. apply String.eqb_neq in Ec. now repeat split.
  - intros Hin Hne. now apply exact_category_wins.
Qed.

Lemma validated_category_is_a_member_witness :
  category (Unified.validateAndBuildPlan [("category", JStr " Doors")]
              Samples.urn0 ["DOORS"; "Doors"]) = JStr "Doors".
Proof.
  apply (proj2 (validated_category_is_a_member [("category", JStr " Doors")]
                  Samples.urn0 ["DOORS"; "Doors"])).
  - right. now left.
  - discriminate.
Defined.

(** X12. Discovery and validation fit together: every category that
    [getMeta] lists, given back as the raw category, is the category of the
    plan validated against that list. *)
Theorem discovered_category_validates_to_itself
    (rows : list JsVal) (rest : Obj) (u : JsVal) (c : string) :
  In c (stripEmpty rows) ->
  category (Unified.validateAndBuildPlan (("category", JStr c) :: rest) u
              (stripEmpty rows))
  = JStr c.
Proof.
  intros Hin. destruct (stripEmpty_nonblank rows c Hin) as [Hne Ht].
  cbn [category Unified.validateAndBuildPlan].
  pose proof (exact_category_wins (("category", JStr c) :: rest) (stripEmpty rows)) as H.
  cbn [get] in H. rewrite String.eqb_refl in H.
  rewrite (norm_JStr_fixed c Ht) in H. now apply H.
Qed.

Lemma discovered_category_validates_to_itself_witness :
  category (Unified.validateAndBuildPlan
              [("category", JStr "Walls"); ("task", JStr "count")] Samples.urn0
              (stripEmpty [JStr " Doors"; JNull; JStr "Walls "]))
  = JStr "Walls".
Proof.
  apply (discovered_category_validates_to_itself
           [JStr " Doors"; JNull; JStr "Walls "] [("task", JStr "count")]
           Samples.urn0 "Walls").
  right. now left.
Defined.

Lemma categoryClause_of_clean (meta : Meta) (v : JsVal) :
  v = JNull \/ (exists s, v = JStr s /\ trim s = s) ->
  categoryClause meta (if truthy v then JStr (norm v) else JNull)
  = categoryClause meta v.
Proof.
  intros [->|[s [-> Ht]]]; [reflexivity|].
  cbn [truthy]. destruct (String.eqb s "") eqn:E; cbn [negb].
  - apply String.eqb_eq in E. now subst.
  - now rewrite (norm_JStr_fixed s Ht).
Qed.

(** X13. On the plans the routes build from discovered categories, the
    second normalisation of the category in [runQuery] changes nothing: the
    category clause compiled from the normalised category is the one
    compiled from the plan's category itself, which is [null] or a trimmed
    string. *)
Theorem category_clause_binds_plan_category
    (meta : Meta) (plan1 plan2 : Obj) (hint u : JsVal) (rows : list JsVal) :
  let cats := stripEmpty rows in
  let pA := TwoStage.validatePlanParams
              (TwoStage.buildQueryPlan plan1 plan2 u
                 (TwoStage.finalCategory plan1 hint cats)) in
  let pB := Unified.validateAndBuildPlan plan1 u cats in
  categoryClause meta (planCategory pA) = categoryClause meta (category pA)
  /\ categoryClause meta (planCategory pB) = categoryClause meta (category pB)
  /\ (category pA = JNull \/ exists s, category pA = JStr s /\ trim s = s)
  /\ (category pB = JNull \/ exists s, category pB = JStr s /\ trim s = s).
Proof.
  intros cats pA pB.
  assert (CA : category pA = JNull \/ exists s, category pA = JStr s /\ trim s = s).
  { destruct (validatePlanParams_keeps
                (TwoStage.buildQueryPlan plan1 plan2 u
                   (TwoStage.finalCategory plan1 hint cats))) as [_ [Hc _]].
    fold pA in Hc. rewrite Hc. cbn [category TwoStage.buildQueryPlan].
    unfold TwoStage.finalCategory, TwoStage.intentCategory.
    destruct (truthy (get plan1 "category")).
    - cbn [truthy].
      destruct (negb (negb (String.eqb (norm (get plan1 "category")) ""))
                && truthy hint && includes cats hint)%bool eqn:G.
      + apply andb_true_iff in G. destruct G as [_ G].
        destruct hint; try discriminate G. cbn [includes] in G.
        apply mem_string_In, stripEmpty_nonblank in G.
        right. exists s. now split.
      + right. eexists. split; [reflexivity|apply norm_trimmed].
    - cbn [truthy negb andb].
      destruct (truthy hint && includes cats hint)%bool eqn:G; [|now left].
      apply andb_true_iff in G. destruct G as [_ G].
      destruct hint; try discriminate G. cbn [includes] in G.
      apply mem_string_In, stripEmpty_nonblank in G.
      right. exists s. now split. }
  assert (CB : category pB = JNull \/ exists s, category pB = JStr s /\ trim s = s).
  { cbn [pB category Unified.validateAndBuildPlan].
    unfold Unified.validateCategory, find_str.
    destruct (truthy (get plan1 "category")); [|now left].
    destruct (find (fun c => String.eqb c (norm (get plan1 "category"))) cats)
      as [c|] eqn:E1.
    - apply find_some in E1. destruct E1 as [Hin _].
      apply stripEmpty_nonblank in Hin. destruct Hin as [Hne Ht].
      cbn [truthy]. apply String.eqb_neq in Hne. rewrite Hne. cbn [negb].
      right. exists c. now split.
    - cbn [truthy].
      destruct (find (fun c => String.eqb (toLowerCase c)
                                 (toLowerCase (norm (get plan1 "category")))) cats)
        as [c|] eqn:E2; [|now left].
      apply find_some in E2. destruct E2 as [Hin _].
      apply stripEmpty_nonblank in Hin. destruct Hin as [Hne Ht].
      cbn [truthy]. apply String.eqb_neq in Hne. rewrite Hne. cbn [negb].
      right. exists c. now split. }
  split; [|split; [|split]]; try assumption.
  - unfold planCategory. now apply categoryClause_of_clean.
  - unfold planCategory. now apply categoryClause_of_clean.
Qed.

(* ================================================================== *)
(** ** Further properties: the compiled filter *)

(** X14. The compiled filter is well formed for every plan: the model
    scope comes first and binds the plan's urn, the unified router compiles
    one to three clauses with one bound parameter each, and the two-stage
    router compiles the same clauses and binds the same parameters, with the
    candidate restriction, which binds nothing, after the model scope. *)
Theorem compiled_filter_is_well_formed
    (meta : Meta) (p : Plan) (ids : option (list JsVal)) :
  let wA := TwoStage.compileWhere meta p ids in
  let wB := Unified.compileWhere meta p in
  (exists clauses params,
     fst wB = "urn = ?" :: clauses /\ snd wB = urn p :: params
     /\ fst wA = ("urn = ?" :: TwoStage.idClause ids ++ clauses)%list)
  /\ snd wA = snd wB
  /\ List.length (snd wB) = List.length (fst wB)
  /\ List.length (fst wB) <= 3
  /\ List.length (fst wA) = List.length (fst wB) + List.length (TwoStage.idClause ids)
  /\ List.length (TwoStage.idClause ids) <= 1.
Proof.
  intros wA wB. unfold wA, wB, TwoStage.compileWhere, Unified.compileWhere.
  cbn [fst snd].
  assert (I : List.length (TwoStage.idClause ids) <= 1).
  { destruct ids as [[|i l]|]; simpl; lia. }
  unfold categoryClause, attributeClause.
  destruct (truthy (planCategory p));
    destruct (truthy (filterParam p) && filterValue_present (filterValue p))%bool;
    cbn [fst snd app List.length];
    (split; [eexists; eexists; split; [reflexivity|split; [reflexivity|]];
             cbn [app]; rewrite ?app_nil_r; reflexivity|]);
    rewrite ?length_app; cbn [List.length]; repeat split; lia.
Qed.

(** X15. A similarity search that answers with no candidate does not empty
    the result: no [id IN] clause is compiled, and the query runs as the
    same plan does with semantic search switched off. *)
Theorem empty_candidate_list_is_no_restriction
    (env : Env) (meta : Meta) (p : Plan) (q v : JsVal) :
  let unrestricted := with_useSemanticSearch p (JBool false) in
  generateEmbedding env (semanticQuery p) = Ret v ->
  semanticSearch env (urn p) v (js_or (topK p) (JNum DEFAULT_TOP_K)) = Ret [] ->
  TwoStage.idClause (TwoStage.semanticCandidates env p) = []
  /\ TwoStage.compileWhere meta p (TwoStage.semanticCandidates env p)
     = TwoStage.compileWhere meta unrestricted None
  /\ TwoStage.runQuery env meta p q = TwoStage.runQuery env meta unrestricted q.
Proof.
  intros unrestricted He Hs.
  assert (E : TwoStage.semanticCandidates env p = None
              \/ TwoStage.semanticCandidates env p = Some []).
  { unfold TwoStage.semanticCandidates.
    destruct (truthy (useSemanticSearch p) && truthy (semanticQuery p))%bool;
      [|now left].
    rewrite He. destruct (truthy v); [|now left]. rewrite Hs. now right. }
  assert (W : forall m, TwoStage.compileWhere m p (TwoStage.semanticCandidates env p)
                        = TwoStage.compileWhere m unrestricted None).
  { intros m. destruct E as [-> | ->]; reflexivity. }
  split; [destruct E as [-> | ->]; reflexivity|]. split; [apply W|].
  unfold TwoStage.runQuery. rewrite W.
  unfold unrestricted. rewrite semanticCandidates_off. reflexivity.
Qed.

Lemma empty_candidate_list_is_no_restriction_witness :
  let env := {| db_all := db_all Samples.offlineEnv;
                db_get := db_get Samples.offlineEnv;
                JSON_parse := JSON_parse Samples.offlineEnv;
                generateEmbedding := fun _ => Ret (JArr [JNum 1]);
                semanticSearch := fun _ _ _ => Ret [];
                geminiJson := geminiJson Samples.offlineEnv;
                geminiText := geminiText Samples.offlineEnv |} in
  TwoStage.compileWhere Samples.meta0 Samples.semanticPlan
    (TwoStage.semanticCandidates env Samples.semanticPlan)
  = (["urn = ?"; "component_type = ?"], [Samples.urn0; JStr "Doors"]).
Proof.
  intros env.
  destruct (empty_candidate_list_is_no_restriction env Samples.meta0
              Samples.semanticPlan (JStr "glass?") (JArr [JNum 1]) eq_refl eq_refl)
    as [_ [H _]].
  rewrite H. reflexivity.
Defined.

(** X16. Unless the plan asks for semantic search and carries a semantic
    query, the embedding service and the similarity search play no part:
    the candidate ids stay unset for every environment, and two environments
    with the same store and the same reasoning service give the same
    outcome of [runQuery]. *)
Theorem semantic_services_unused_unless_requested
    (env env' : Env) (meta : Meta) (p : Plan) (q : JsVal) :
  truthy (useSemanticSearch p) = false \/ truthy (semanticQuery p) = false ->
  (forall sql ps, db_all env sql ps = db_all env' sql ps) ->
  (forall sql ps, db_get env sql ps = db_get env' sql ps) ->
  (forall prompt, geminiJson env prompt = geminiJson env' prompt) ->
  TwoStage.semanticCandidates env p = None
  /\ TwoStage.runQuery env meta p q = TwoStage.runQuery env' meta p q.
Proof.
  intros Hoff Hall Hget Hgem.
  assert (N : forall e, TwoStage.semanticCandidates e p = None).
  { intros e. unfold TwoStage.semanticCandidates.
    destruct Hoff as [-> | ->]; [reflexivity|].
    now rewrite andb_false_r. }
  split; [apply N|].
  unfold TwoStage.runQuery. rewrite !N.
  destruct (TwoStage.compileWhere meta p None) as [cl ps].
  destruct (strict_eq_str (task p) "count").
  { unfold handleCountTask. now rewrite Hget. }
  destruct (strict_eq_str (task p) "distinct").
  { unfold TwoStage.handleDistinctTask. now rewrite Hall. }
  destruct (strict_eq_str (task p) "group_count").
  { unfold TwoStage.handleGroupCountTask. now rewrite Hall. }
  destruct (strict_eq_str (task p) "sum_area").
  { unfold TwoStage.handleSumAreaTask.
    destruct (truthy (propsFlatKey p)); cbn [negb]; [|reflexivity].
    rewrite Hall. destruct (db_all env' _ _) as [rows|e]; [|reflexivity].
    cbn [bind]. now rewrite Hgem. }
  unfold TwoStage.handleListTask. now rewrite Hall.
Qed.

Lemma semantic_services_unused_unless_requested_witness :
  TwoStage.runQuery Samples.offlineEnv Samples.meta0
    (Samples.taskPlan (JStr "count")) (JStr "how many?")
  = TwoStage.runQuery
      {| db_all := db_all Samples.offlineEnv;
         db_get := db_get Samples.offlineEnv;
         JSON_parse := JSON_parse Samples.offlineEnv;
         generateEmbedding := fun _ => Ret (JArr [JNum 1]);
         semanticSearch := fun _ _ _ => Ret [JNum 3];
         geminiJson := geminiJson Samples.offlineEnv;
         geminiText := geminiText Samples.offlineEnv |}
      Samples.meta0 (Samples.taskPlan (JStr "count")) (JStr "how many?").
Proof.
  apply semantic_services_unused_unless_requested.
  - left. reflexivity.
  - reflexivity.
  - reflexivity.
  - reflexivity.
Defined.

Lemma none_ws_trim (s : string) : none_ws s = true -> trim s = s.
Proof.
  intros H. unfold trim.
  assert (S : trimStart s = s).
  { destruct s as [|c r]; [reflexivity|]. simpl in *.
    apply andb_true_iff in H. destruct H as [H _].
    apply negb_true_iff in H. now rewrite H. }
  rewrite S. clear S. induction s as [|c r IH]; [reflexivity|].
  simpl in *. apply andb_true_iff in H. destruct H as [Hc Hr].
  rewrite (IH Hr). apply negb_true_iff in Hc.
  destruct r; [now rewrite Hc|reflexivity].
Qed.

Lemma uint_string_none_ws (d : Decimal.uint) :
  none_ws (NilEmpty.string_of_uint d) = true.
Proof. induction d; simpl; assumption || reflexivity. Qed.

Lemma string_of_Z_clean (n : Z) :
  none_ws (string_of_Z n) = true /\ string_of_Z n <> "".
Proof.
  unfold string_of_Z.
  assert (U : forall d, d <> Decimal.Nil ->
                none_ws (NilZero.string_of_uint d) = true
                /\ NilZero.string_of_uint d <> "").
  { intros d Hd. split.
    - destruct d; try contradiction; apply (uint_string_none_ws _).
    - destruct d; try contradiction; discriminate. }
  destruct n as [|p|p]; cbn [Z.to_int NilZero.string_of_int].
  - split; [reflexivity|discriminate].
  - apply U, Unsigned.to_uint_nonnil.
  - destruct (U _ (Unsigned.to_uint_nonnil p)) as [H1 H2].
    split; [|discriminate]. simpl. exact H1.
Qed.

(** X17. A filter value that is a number or a boolean is always bound,
    zero and [false] included: with an allowed [filterParam], the validated
    plan of either router compiles the attribute clause and binds the value
    as it came. *)
Theorem numeric_and_boolean_filter_values_are_bound
    (plan1 raw : Obj) (u cat : JsVal) (cats : list string) (s : string)
    (v : JsVal) :
  let pA := TwoStage.validatePlanParams (TwoStage.buildQueryPlan plan1 raw u cat) in
  let pB := Unified.validateAndBuildPlan raw u cats in
  In s ALLOWED_PARAMS ->
  get raw "filterParam" = JStr s ->
  get raw "filterValue" = v ->
  (exists n, v = JNum n) \/ (exists b, v = JBool b) ->
  filterValue_present v = true
  /\ attributeClause pA = ([s ++ " = ?"], [v])
  /\ attributeClause pB = ([s ++ " = ?"], [v]).
Proof.
  intros pA pB Hs Hfp Hfv Hv.
  assert (P : filterValue_present v = true).
  { destruct Hv as [[n ->]|[b ->]].
    - cbn [filterValue_present ToString].
      destruct (string_of_Z_clean n) as [H1 H2].
      rewrite (none_ws_trim _ H1). apply String.eqb_neq in H2. now rewrite H2.
    - destruct b; reflexivity. }
  assert (Hne : s <> "").
  { intros ->. unfold ALLOWED_PARAMS in Hs.
    repeat (destruct Hs as [Hs|Hs]; [discriminate|]). exact Hs. }
  assert (V : Unified.validateParam (JStr s) = JStr s).
  { unfold Unified.validateParam, js_or. cbn [truthy].
    apply String.eqb_neq in Hne. rewrite Hne. cbn [negb truthy]. rewrite Hne.
    cbn [negb andb].
    change (ALLOWED_PARAMS_has (JStr s)) with (mem_string s ALLOWED_PARAMS).
    apply mem_string_In in Hs. now rewrite Hs. }
  assert (N : js_nullish v JNull = v).
  { destruct Hv as [[n ->]|[b ->]]; reflexivity. }
  assert (T : truthy (JStr s) = true).
  { cbn [truthy]. apply String.eqb_neq in Hne. now rewrite Hne. }
  split; [exact P|]. split.
  - unfold attributeClause.
    destruct (validatePlanParams_keeps (TwoStage.buildQueryPlan plan1 raw u cat))
      as [_ [_ [Hv' _]]].
    fold pA in Hv'. rewrite Hv'. cbn [filterValue TwoStage.buildQueryPlan].
    unfold pA. rewrite twoStage_validated_filterParam.
    rewrite Hfp, Hfv, V, N, T, P. reflexivity.
  - unfold attributeClause. cbn [pB filterParam filterValue Unified.validateAndBuildPlan].
    rewrite Hfp, Hfv, V, N, T, P. reflexivity.
Qed.

Lemma numeric_and_boolean_filter_values_are_bound_witness :
  attributeClause
    (Unified.validateAndBuildPlan
       [("filterParam", JStr "level_number"); ("filterValue", JNum 0)]
       Samples.urn0 [])
  = (["level_number = ?"], [JNum 0]).
Proof.
  apply (numeric_and_boolean_filter_values_are_bound []
           [("filterParam", JStr "level_number"); ("filterValue", JNum 0)]
           Samples.urn0 JNull [] "level_number" (JNum 0)).
  - now left.
  - reflexivity.
  - reflexivity.
  - left. now exists 0%Z.
Defined.

(* ================================================================== *)
(** ** Further properties: task execution *)

Lemma not_in_names (v : JsVal) (names : list string) :
  (forall s, In s names -> strict_eq_str v s = false) ->
  ~ In v (map JStr names).
Proof.
  intros H Hin. apply in_map_iff in Hin. destruct Hin as [s [<- Hs]].
  specialize (H s Hs). simpl in H. now rewrite String.eqb_refl in H.
Qed.

(** X18. The kind of a result is fixed by the task: when [runQuery]
    returns, the result has the kind named by the task if the task is one of
    the cases of the [switch] (four in the two-stage router, five in the
    unified one), and the kind "list" for every other task. *)
Theorem result_kind_follows_task
    (env : Env) (meta : Meta) (p : Plan) (q : JsVal) (r : TaskResult) :
  (TwoStage.runQuery env meta p q = Ret r ->
   (exists t, In t ["count"; "distinct"; "group_count"; "sum_area"]
              /\ task p = JStr t /\ kindOf r = t)
   \/ (~ In (task p) (map JStr ["count"; "distinct"; "group_count"; "sum_area"])
       /\ kindOf r = "list"))
  /\ (Unified.runQuery env meta p q = Ret r ->
      (exists t, In t ["count"; "distinct"; "group_count"; "sum_area"; "sum_volume"]
                 /\ task p = JStr t /\ kindOf r = t)
      \/ (~ In (task p)
            (map JStr ["count"; "distinct"; "group_count"; "sum_area"; "sum_volume"])
          /\ kindOf r = "list")).
Proof.
  split; intros H.
  - unfold TwoStage.runQuery in H.
    destruct (TwoStage.compileWhere meta p _) as [cl ps].
    destruct (strict_eq_str (task p) "count") eqn:T1.
    { left. exists "count". apply strict_eq_str_true in T1.
      unfold handleCountTask in H. destruct (db_get env _ _); [|discriminate].
      inversion H. simpl. auto. }
    destruct (strict_eq_str (task p) "distinct") eqn:T2.
    { left. exists "distinct". apply strict_eq_str_true in T2.
      unfold TwoStage.handleDistinctTask in H.
      destruct (truthy (targetParam p)); [|discriminate].
      destruct (db_all env _ _); [|discriminate]. inversion H. simpl. auto. }
    destruct (strict_eq_str (task p) "group_count") eqn:T3.
    { left. exists "group_count". apply strict_eq_str_true in T3.
      unfold TwoStage.handleGroupCountTask in H.
      destruct (truthy (targetParam p)); [|discriminate].
      destruct (db_all env _ _); [|discriminate]. inversion H. simpl. auto 6. }
    destruct (strict_eq_str (task p) "sum_area") eqn:T4.
    { left. exists "sum_area". apply strict_eq_str_true in T4.
      unfold TwoStage.handleSumAreaTask in H.
      destruct (truthy (propsFlatKey p)); [|discriminate].
      destruct (db_all env _ _); [|discriminate]. cbn [negb bind] in H.
      destruct (geminiJson env _); [|discriminate]. inversion H. simpl. auto 6. }
    right. split.
    + apply not_in_names. intros s [<-|[<-|[<-|[<-|[]]]]]; assumption.
    + unfold TwoStage.handleListTask in H.
      destruct (db_all env _ _); [|discriminate]. now inversion H.
  - unfold Unified.runQuery in H.
    destruct (Unified.compileWhere meta p) as [cl ps].
    destruct (strict_eq_str (task p) "count") eqn:T1.
    { left. exists "count". apply strict_eq_str_true in T1.
      unfold handleCountTask in H. destruct (db_get env _ _); [|discriminate].
      inversion H. simpl. auto. }
    destruct (strict_eq_str (task p) "distinct") eqn:T2.
    { left. exists "distinct". apply strict_eq_str_true in T2.
      unfold Unified.handleDistinctTask in H.
      destruct (truthy (targetParam p)); [|discriminate].
      destruct (db_all env _ _); [|discriminate]. inversion H. simpl. auto. }
    destruct (strict_eq_str (task p) "group_count") eqn:T3.
    { left. exists "group_count". apply strict_eq_str_true in T3.
      unfold Unified.handleGroupCountTask in H.
      destruct (truthy (targetParam p)); [|discriminate].
      destruct (db_all env _ _); [|discriminate]. inversion H. simpl. auto 6. }
    destruct (strict_eq_str (task p) "sum_area") eqn:T4.
    { left. exists "sum_area". apply strict_eq_str_true in T4.
      unfold Unified.handleSumAreaTask in H.
      destruct (truthy (propsFlatKey p)); [|discriminate].
      destruct (db_all env _ _); [|discriminate]. cbn [negb bind] in H.
      destruct (geminiJson env _); [|discriminate]. inversion H. simpl. auto 6. }
    destruct (strict_eq_str (task p) "sum_volume") eqn:T5.
    { left. exists "sum_volume". apply strict_eq_str_true in T5.
      unfold Unified.handleSumVolumeTask in H.
      destruct (db_all env _ _); [|discriminate]. cbn [bind] in H.
      destruct (geminiJson env _); [|discriminate]. inversion H. simpl. auto 7. }
    right. split.
    + apply not_in_names. intros s [<-|[<-|[<-|[<-|[<-|[]]]]]]; assumption.
    + unfold Unified.handleListTask in H.
      destruct (db_all env _ _); [|discriminate]. now inversion H.
Qed.

Lemma result_kind_follows_task_witness :
  kindOf (RList []) = "list"
  /\ ~ In (JStr "sum_volume")
          (map JStr ["count"; "distinct"; "group_count"; "sum_area"]).
Proof.
  destruct (proj1 (result_kind_follows_task Samples.emptyEnv Samples.meta0
                     (Samples.taskPlan (JStr "sum_volume")) (JStr "volume?")
                     (RList [])) eq_refl) as [[t [Hin [Ht Hk]]]|[Hn Hk]].
  - exfalso. inversion Ht; subst t. simpl in Hin.
    repeat (destruct Hin as [Hin|Hin]; [discriminate|]). exact Hin.
  - split; assumption.
Defined.

(** X19. The two sum tasks treat a missing property key differently: with
    a falsy [propsFlatKey], the task "sum_area" throws
    "sum_area requires propsFlatKey" in both routers, for every
    environment, while the task "sum_volume" of
    the unified router reads the key "Dimensions.Volume" and, when the store
    and the reasoning service answer, returns a volume result under that
    key. *)
Theorem sum_area_needs_a_key_sum_volume_defaults
    (env : Env) (meta : Meta) (p : Plan) (q : JsVal) :
  truthy (propsFlatKey p) = false ->
  (task p = JStr "sum_area" ->
   TwoStage.runQuery env meta p q = Throw "sum_area requires propsFlatKey"
   /\ Unified.runQuery env meta p q = Throw "sum_area requires propsFlatKey")
  /\ (task p = JStr "sum_volume" ->
      forall rows reply,
        db_all env
          (Unified.sumVolumeSql (join " AND " (fst (Unified.compileWhere meta p))))
          (jsonPath (JStr "Dimensions.Volume") :: snd (Unified.compileWhere meta p))
        = Ret rows ->
        geminiJson env
          (VolumePrompt (js_or q (notes p)) (categoryText p)
             (JStr "Dimensions.Volume") (filterText p) (firstn 200 rows))
        = Ret reply ->
        Unified.runQuery env meta p q
        = Ret (RSumVolume (JStr "Dimensions.Volume")
                 (js_or (get reply "total_volume") (JNum 0))
                 (js_or (get reply "count") (JNum 0))
                 (js_or (get reply "unit") (JStr unit_m3))
                 (js_or (get reply "notes") (JStr "")))).
Proof.
  intros K. split.
  - intros T. unfold TwoStage.runQuery, Unified.runQuery.
    destruct (TwoStage.compileWhere meta p _) as [cl ps].
    destruct (Unified.compileWhere meta p) as [cl' ps'].
    rewrite T. cbn [strict_eq_str String.eqb Ascii.eqb Bool.eqb].
    unfold TwoStage.handleSumAreaTask, Unified.handleSumAreaTask.
    rewrite K. now split.
  - intros T rows reply Hrows Hreply. unfold Unified.runQuery.
    destruct (Unified.compileWhere meta p) as [cl ps]. cbn [fst snd] in *.
    rewrite T. cbn [strict_eq_str String.eqb Ascii.eqb Bool.eqb].
    assert (J : js_or (propsFlatKey p) (JStr "Dimensions.Volume")
                = JStr "Dimensions.Volume").
    { unfold js_or. now rewrite K. }
    unfold Unified.handleSumVolumeTask. cbv zeta. rewrite J, Hrows.
    cbn [bind]. rewrite Hreply. reflexivity.
Qed.

Lemma sum_area_needs_a_key_sum_volume_defaults_witness :
  TwoStage.runQuery Samples.emptyEnv Samples.meta0
    (Samples.taskPlan (JStr "sum_area")) (JStr "area?")
  = Throw "sum_area requires propsFlatKey"
  /\ Unified.runQuery Samples.emptyEnv Samples.meta0
       (Samples.taskPlan (JStr "sum_volume")) (JStr "volume?")
     = Ret (RSumVolume (JStr "Dimensions.Volume") (JNum 0) (JNum 0)
              (JStr unit_m3) (JStr "")).
Proof.
  split.
  - apply (proj1 (sum_area_needs_a_key_sum_volume_defaults Samples.emptyEnv
                    Samples.meta0 (Samples.taskPlan (JStr "sum_area"))
                    (JStr "area?") eq_refl) eq_refl).
  - apply (proj2 (sum_area_needs_a_key_sum_volume_defaults Samples.emptyEnv
                    Samples.meta0 (Samples.taskPlan (JStr "sum_volume"))
                    (JStr "volume?") eq_refl) eq_refl [] []); reflexivity.
Defined.

Lemma js_or_defined (x d : JsVal) :
  d <> JNull -> d <> JUndefined ->
  js_or x d <> JNull /\ js_or x d <> JUndefined.
Proof.
  intros H1 H2. unfold js_or. destruct (truthy x) eqn:T; [|now split].
  destruct x; try discriminate T; split; discriminate.
Qed.

Lemma js_or_truthy (x d : JsVal) : truthy d = true -> truthy (js_or x d) = true.
Proof. intros H. unfold js_or. destruct (truthy x) eqn:T; assumption. Qed.

Lemma sum_fields_ok (key reply_total reply_n reply_unit reply_notes : JsVal)
    (unit : string) :
  truthy key = true -> truthy (JStr unit) = true ->
  truthy key = true
  /\ truthy (js_or reply_unit (JStr unit)) = true
  /\ (js_or reply_total (JNum 0) <> JNull /\ js_or reply_total (JNum 0) <> JUndefined)
  /\ (js_or reply_n (JNum 0) <> JNull /\ js_or reply_n (JNum 0) <> JUndefined)
  /\ (js_or reply_notes (JStr "") <> JNull
      /\ js_or reply_notes (JStr "") <> JUndefined).
Proof.
  intros K U. split; [exact K|]. split; [now apply js_or_truthy|].
  repeat split; apply js_or_defined; discriminate.
Qed.

(** X20. A sum result has no missing field: whenever [runQuery] returns an
    area or a volume result, its key and its unit are truthy, and its total,
    its count and its notes are neither [null] nor [undefined], whatever the
    reasoning service replied. *)
Theorem sum_results_have_no_missing_field
    (env : Env) (meta : Meta) (p : Plan) (q key total n unit notes : JsVal) :
  TwoStage.runQuery env meta p q = Ret (RSumArea key total n unit notes)
  \/ Unified.runQuery env meta p q = Ret (RSumArea key total n unit notes)
  \/ Unified.runQuery env meta p q = Ret (RSumVolume key total n unit notes) ->
  truthy key = true
  /\ truthy unit = true
  /\ (total <> JNull /\ total <> JUndefined)
  /\ (n <> JNull /\ n <> JUndefined)
  /\ (notes <> JNull /\ notes <> JUndefined).
Proof.
  intros [H|[H|H]].
  - unfold TwoStage.runQuery in H.
    destruct (TwoStage.compileWhere meta p _) as [cl ps].
    destruct (strict_eq_str (task p) "count").
    { unfold handleCountTask in H. destruct (db_get env _ _); discriminate. }
    destruct (strict_eq_str (task p) "distinct").
    { unfold TwoStage.handleDistinctTask in H.
      destruct (truthy (targetParam p)); [|discriminate].
      destruct (db_all env _ _); discriminate. }
    destruct (strict_eq_str (task p) "group_count").
    { unfold TwoStage.handleGroupCountTask in H.
      destruct (truthy (targetParam p)); [|discriminate].
      destruct (db_all env _ _); discriminate. }
    destruct (strict_eq_str (task p) "sum_area").
    { unfold TwoStage.handleSumAreaTask in H.
      destruct (truthy (propsFlatKey p)) eqn:K; [|discriminate].
      destruct (db_all env _ _); [|discriminate]. cbn [negb bind] in H.
      destruct (geminiJson env _); [|discriminate]. cbn [bind] in H.
      inversion H; subst. now apply sum_fields_ok. }
    unfold TwoStage.handleListTask in H. destruct (db_all env _ _); discriminate.
  - unfold Unified.runQuery in H.
    destruct (Unified.compileWhere meta p) as [cl ps].
    destruct (strict_eq_str (task p) "count").
    { unfold handleCountTask in H. destruct (db_get env _ _); discriminate. }
    destruct (strict_eq_str (task p) "distinct").
    { unfold Unified.handleDistinctTask in H.
      destruct (truthy (targetParam p)); [|discriminate].
      destruct (db_all env _ _); discriminate. }
    destruct (strict_eq_str (task p) "group_count").
    { unfold Unified.handleGroupCountTask in H.
      destruct (truthy (targetParam p)); [|discriminate].
      destruct (db_all env _ _); discriminate. }
    destruct (strict_eq_str (task p) "sum_area").
    { unfold Unified.handleSumAreaTask in H.
      destruct (truthy (propsFlatKey p)) eqn:K; [|discriminate].
      destruct (db_all env _ _); [|discriminate]. cbn [negb bind] in H.
      destruct (geminiJson env _); [|discriminate]. cbn [bind] in H.
      inversion H; subst. now apply sum_fields_ok. }
    destruct (strict_eq_str (task p) "sum_volume").
    { unfold Unified.handleSumVolumeTask in H.
      destruct (db_all env _ _); [|discriminate]. cbn [bind] in H.
      destruct (geminiJson env _); discriminate. }
    unfold Unified.handleListTask in H. destruct (db_all env _ _); discriminate.
  - unfold Unified.runQuery in H.
    destruct (Unified.compileWhere meta p) as [cl ps].
    destruct (strict_eq_str (task p) "count").
    { unfold handleCountTask in H. destruct (db_get env _ _); discriminate. }
    destruct (strict_eq_str (task p) "distinct").
    { unfold Unified.handleDistinctTask in H.
      destruct (truthy (targetParam p)); [|discriminate].
      destruct (db_all env _ _); discriminate. }
    destruct (strict_eq_str (task p) "group_count").
    { unfold Unified.handleGroupCountTask in H.
      destruct (truthy (targetParam p)); [|discriminate].
      destruct (db_all env _ _); discriminate. }
    destruct (strict_eq_str (task p) "sum_area").
    { unfold Unified.handleSumAreaTask in H.
      destruct (truthy (propsFlatKey p)) eqn:K; [|discriminate].
      destruct (db_all env _ _); [|discriminate]. cbn [negb bind] in H.
      destruct (geminiJson env _); discriminate. }
    destruct (strict_eq_str (task p) "sum_volume").
    { unfold Unified.handleSumVolumeTask in H.
      destruct (db_all env _ _); [|discriminate]. cbn [bind] in H.
      destruct (geminiJson env _); [|discriminate]. cbn [bind] in H.
      inversion H; subst. apply sum_fields_ok; [|reflexivity].
      apply js_or_truthy. reflexivity. }
    unfold Unified.handleListTask in H. destruct (db_all env _ _); discriminate.
Qed.

Lemma sum_results_have_no_missing_field_witness :
  truthy (JStr "Dimensions.Volume") = true /\ truthy (JStr unit_m3) = true.
Proof.
  destruct (sum_results_have_no_missing_field Samples.emptyEnv Samples.meta0
              (Samples.taskPlan (JStr "sum_volume")) (JStr "volume?")
              (JStr "Dimensions.Volume") (JNum 0) (JNum 0) (JStr unit_m3) (JStr "")
              (or_intror (or_intror eq_refl))) as [H1 [H2 _]].
  split; assumption.
Defined.

(** X21. The values of a distinct result are exactly the non-empty
    normalised values of the target column in the rows the store returned,
    so a row whose value is [null], zero, [false], empty or blank adds
    nothing; there are never more values than rows. *)
Theorem distinct_values_are_the_normalised_rows
    (env : Env) (w : string) (ps : list JsVal) (field lim : JsVal)
    (rows : list Obj) :
  truthy field = true ->
  (db_all env (TwoStage.distinctSql (ToString field) w) (ps ++ [lim])%list = Ret rows ->
   exists values,
     TwoStage.handleDistinctTask env w ps field lim = Ret (RDistinct field values)
     /\ List.length values <= List.length rows
     /\ forall s, In s values
                  <-> s <> "" /\ exists row, In row rows
                                            /\ norm (get row (ToString field)) = s)
  /\ (db_all env (Unified.distinctSql (ToString field) w) ps = Ret rows ->
      exists values,
        Unified.handleDistinctTask env w ps field = Ret (RDistinct field values)
        /\ List.length values <= List.length rows
        /\ forall s, In s values
                     <-> s <> "" /\ exists row, In row rows
                                               /\ norm (get row (ToString field)) = s).
Proof.
  intros T.
  assert (K : forall s,
             In s (filter (fun s => negb (String.eqb s ""))
                          (map (fun r => norm (get r (ToString field))) rows))
             <-> s <> "" /\ exists row, In row rows
                                       /\ norm (get row (ToString field)) = s).
  { intros s. rewrite filter_In, in_map_iff, negb_true_iff, String.eqb_neq.
    split.
    - intros [[row [E Hin]] Hne]. split; [assumption|]. now exists row.
    - intros [Hne [row [Hin E]]]. split; [now exists row|assumption]. }
  assert (L : List.length
                (filter (fun s => negb (String.eqb s ""))
                        (map (fun r => norm (get r (ToString field))) rows))
              <= List.length rows).
  { etransitivity; [apply filter_length_le|]. now rewrite length_map. }
  split; intros Hrows; eexists;
    (split; [|split; [exact L|exact K]]).
  - unfold TwoStage.handleDistinctTask. rewrite T, Hrows. reflexivity.
  - unfold Unified.handleDistinctTask. rewrite T, Hrows. reflexivity.
Qed.

Lemma distinct_values_are_the_normalised_rows_witness :
  let env := {| db_all := fun _ _ =>
                  Ret [ [("level_number", JNum 0)]; [("level_number", JNum 2)];
                        [("level_number", JStr "  ")]; [("level_number", JNull)] ];
                db_get := db_get Samples.emptyEnv;
                JSON_parse := JSON_parse Samples.emptyEnv;
                generateEmbedding := generateEmbedding Samples.emptyEnv;
                semanticSearch := semanticSearch Samples.emptyEnv;
                geminiJson := geminiJson Samples.emptyEnv;
                geminiText := geminiText Samples.emptyEnv |} in
  exists values,
    Unified.handleDistinctTask env "urn = ?" [Samples.urn0] (JStr "level_number")
    = Ret (RDistinct (JStr "level_number") values)
    /\ List.length values <= 4
    /\ values = ["2"].
Proof.
  intros env.
  destruct (proj2 (distinct_values_are_the_normalised_rows env "urn = ?"
                     [Samples.urn0] (JStr "level_number") JNull
                     [ [("level_number", JNum 0)]; [("level_number", JNum 2)];
                       [("level_number", JStr "  ")]; [("level_number", JNull)] ]
                     eq_refl) eq_refl) as [values [H1 [H2 _]]].
  exists values. split; [exact H1|]. split; [exact H2|].
  vm_compute in H1. now inversion H1.
Defined.

(** X22. A plan without a task is a count: when the reasoning step gives
    no task (or a falsy one), [runQuery] runs the count handler on the
    compiled filter, in both routers. *)
Theorem missing_task_runs_count
    (env : Env) (meta : Meta) (plan1 plan2 : Obj) (u cat q : JsVal)
    (cats : list string) :
  let pA := TwoStage.validatePlanParams (TwoStage.buildQueryPlan plan1 plan2 u cat) in
  let pB := Unified.validateAndBuildPlan plan1 u cats in
  let wA := TwoStage.compileWhere meta pA (TwoStage.semanticCandidates env pA) in
  let wB := Unified.compileWhere meta pB in
  truthy (get plan1 "task") = false ->
  task pA = JStr "count" /\ task pB = JStr "count"
  /\ TwoStage.runQuery env meta pA q
     = handleCountTask env (join " AND " (fst wA)) (snd wA)
  /\ Unified.runQuery env meta pB q
     = handleCountTask env (join " AND " (fst wB)) (snd wB).
Proof.
  intros pA pB wA wB F.
  assert (TA : task pA = JStr "count").
  { destruct (validatePlanParams_keeps (TwoStage.buildQueryPlan plan1 plan2 u cat))
      as [_ [_ [_ Ht]]].
    fold pA in Ht. rewrite Ht. cbn [task TwoStage.buildQueryPlan].
    unfold js_or. now rewrite F. }
  assert (TB : task pB = JStr "count").
  { cbn [pB task Unified.validateAndBuildPlan]. unfold js_or. now rewrite F. }
  split; [exact TA|]. split; [exact TB|]. split.
  - unfold TwoStage.runQuery. fold wA. destruct wA as [cl ps].
    now rewrite TA.
  - unfold Unified.runQuery. fold wB. destruct wB as [cl ps].
    now rewrite TB.
Qed.

Lemma missing_task_runs_count_witness :
  TwoStage.runQuery Samples.emptyEnv Samples.meta0
    (TwoStage.validatePlanParams
       (TwoStage.buildQueryPlan [("task", JStr "")] [] Samples.urn0 JNull))
    (JStr "?")
  = Ret (RCount (JNum 0)).
Proof.
  destruct (missing_task_runs_count Samples.emptyEnv Samples.meta0
              [("task", JStr "")] [] Samples.urn0 JNull (JStr "?") [] eq_refl)
    as [_ [_ [H _]]].
  rewrite H. reflexivity.
Defined.

(* ================================================================== *)
(** ** Further properties: the routes *)

(** X23. The category hint is either [null] or a truthy category that the
    reasoning service returned with a confidence other than "low", for a
    truthy question and a non-empty category list; in particular a failing
    hint call gives [null] and fails nothing. *)
Theorem hint_is_null_or_confident
    (env : Env) (question : JsVal) (cats : list string) :
  let hint := TwoStage.detectHintCategory env question cats in
  hint = JNull
  \/ (truthy hint = true /\ truthy question = true /\ cats <> []
      /\ exists result,
           geminiJson env (HintPrompt question cats) = Ret result
           /\ hint = get result "category"
           /\ get result "confidence" <> JStr "low").
Proof.
  intros hint. unfold hint, TwoStage.detectHintCategory.
  destruct (truthy question) eqn:Q; cbn [negb orb]; [|now left].
  destruct cats as [|c cats]; [now left|]. cbn [List.length Nat.eqb].
  destruct (geminiJson env _) as [result|e] eqn:G; [|now left].
  destruct (truthy (get result "category")) eqn:T; cbn [andb]; [|now left].
  destruct (strict_eq_str (get result "confidence") "low") eqn:L; cbn [negb];
    [now left|].
  right. split; [exact T|]. split; [reflexivity|]. split; [discriminate|].
  exists result. split; [reflexivity|]. split; [reflexivity|].
  now apply strict_eq_str_false.
Qed.

Lemma mapM_throw_origin {A B : Type} (f : A -> Outcome B) (xs : list A) (m : string) :
  mapM f xs = Throw m -> exists x, f x = Throw m.
Proof.
  induction xs as [|x xs IH]; simpl; [discriminate|].
  destruct (f x) as [y|e] eqn:E; cbn [bind].
  - destruct (mapM f xs) as [ys|e]; cbn [bind]; [discriminate|].
    intros H. inversion H; subst. now apply IH.
  - intros H. inversion H; subst. now exists x.
Qed.

Lemma foldM_throw_origin {A S : Type} (f : S -> A -> Outcome S) (xs : list A)
    (s : S) (m : string) :
  foldM f s xs = Throw m -> exists s' x, f s' x = Throw m.
Proof.
  revert s. induction xs as [|x xs IH]; intros s; simpl; [discriminate|].
  destruct (f s x) as [s'|e] eqn:E; cbn [bind].
  - apply IH.
  - intros H. inversion H; subst. now exists s, x.
Qed.

Lemma scan_throw_origin {B : Type} (env : Env) (d : Obj) (m : string)
    (skip : Outcome B) (body : list string -> Outcome B) :
  (if negb (truthy (get d "props_flat")) then skip
   else pf <- JSON_parse env (ToString (get d "props_flat")) ;;
        keys <- Object_keys pf ;; body keys) = Throw m ->
  skip <> Throw m ->
  (forall keys, body keys <> Throw m) ->
  thrownByCollaborator env m \/ In m contractMessages.
Proof.
  intros H Hskip Hbody.
  destruct (truthy (get d "props_flat")); cbn [negb] in H; [|contradiction].
  destruct (JSON_parse env _) as [pf|e] eqn:P; cbn [bind] in H.
  - destruct (Object_keys pf) as [keys|e] eqn:K; cbn [bind] in H.
    + now apply Hbody in H.
    + inversion H; subst. right.
      destruct pf; try discriminate K; inversion K; simpl; auto.
  - inversion H; subst. left. right. right. left. eauto.
Qed.

Lemma getMeta_throw_origin (env : Env) (u : JsVal) (m : string) :
  TwoStage.getMeta env u = Throw m \/ Unified.getMeta env u = Throw m ->
  thrownByCollaborator env m \/ In m contractMessages.
Proof.
  assert (S : forall sql, mapM (fun k =>
                 rows <- db_all env (sql k) [u] ;;
                 Ret (k, stripEmpty (map (fun r => get r k) rows))) SAMPLE_KEYS
               = Throw m -> thrownByCollaborator env m).
  { intros sql H. apply mapM_throw_origin in H. destruct H as [k H].
    destruct (db_all env (sql k) [u]) as [rows|e] eqn:E; [discriminate|].
    inversion H; subst. left. eauto. }
  intros [H|H].
  - unfold TwoStage.getMeta in H.
    destruct (db_all env categoriesSql [u]) as [rows|e] eqn:E1; cbn [bind] in H;
      [|inversion H; subst; left; left; eauto].
    destruct (mapM _ SAMPLE_KEYS) as [samples|e] eqn:E2; cbn [bind] in H;
      [|inversion H; subst; left; now apply (S TwoStage.sampleSql)].
    destruct (db_all env TwoStage.docsSql [u]) as [docs|e] eqn:E3; cbn [bind] in H;
      [|inversion H; subst; left; left; eauto].
    destruct (foldM _ _ docs) as [ks|e] eqn:E4; cbn [bind] in H; [discriminate|].
    inversion H; subst. apply foldM_throw_origin in E4.
    destruct E4 as [acc [d E4]]. unfold TwoStage.scanDoc in E4.
    apply (scan_throw_origin env d m _ _ E4); discriminate.
  - unfold Unified.getMeta in H.
    destruct (db_all env categoriesSql [u]) as [rows|e] eqn:E1; cbn [bind] in H;
      [|inversion H; subst; left; left; eauto].
    destruct (mapM _ SAMPLE_KEYS) as [samples|e] eqn:E2; cbn [bind] in H;
      [|inversion H; subst; left; now apply (S Unified.sampleSql)].
    destruct (db_all env Unified.docsSql [u]) as [docs|e] eqn:E3; cbn [bind] in H;
      [|inversion H; subst; left; left; eauto].
    destruct (foldM _ _ docs) as [ks|e] eqn:E4; cbn [bind] in H; [discriminate|].
    inversion H; subst. apply foldM_throw_origin in E4.
    destruct E4 as [acc [d E4]]. unfold Unified.scanDoc in E4.
    apply (scan_throw_origin env d m _ _ E4); discriminate.
Qed.

Lemma runQuery_throw_origin (env : Env) (meta : Meta) (p : Plan) (q : JsVal)
    (m : string) :
  TwoStage.runQuery env meta p q = Throw m \/ Unified.runQuery env meta p q = Throw m ->
  thrownByCollaborator env m \/ In m contractMessages.
Proof.
  assert (All : forall sql ps (k : list Obj -> Outcome TaskResult),
             (rows <- db_all env sql ps ;; k rows) = Throw m ->
             (forall rows, k rows = Throw m ->
                           thrownByCollaborator env m \/ In m contractMessages) ->
             thrownByCollaborator env m \/ In m contractMessages).
  { intros sql ps k H Hk. destruct (db_all env sql ps) as [rows|e] eqn:E;
      cbn [bind] in H; [now apply (Hk rows)|].
    inversion H; subst. left. left. eauto. }
  assert (Gem : forall pr (k : Obj -> Outcome TaskResult),
             (reply <- geminiJson env pr ;; k reply) = Throw m ->
             (forall reply, k reply <> Throw m) ->
             thrownByCollaborator env m \/ In m contractMessages).
  { intros pr k H Hk. destruct (geminiJson env pr) as [reply|e] eqn:E;
      cbn [bind] in H; [now apply Hk in H|].
    inversion H; subst. left. right. right. right. left. eauto. }
  assert (Count : forall w ps, handleCountTask env w ps = Throw m ->
                               thrownByCollaborator env m \/ In m contractMessages).
  { intros w ps H. unfold handleCountTask in H.
    destruct (db_get env _ _) as [row|e] eqn:E; cbn [bind] in H; [discriminate|].
    inversion H; subst. left. right. left. eauto. }
  intros [H|H].
  - unfold TwoStage.runQuery in H.
    destruct (TwoStage.compileWhere meta p _) as [cl ps].
    destruct (strict_eq_str (task p) "count"); [now apply Count in H|].
    destruct (strict_eq_str (task p) "distinct").
    { unfold TwoStage.handleDistinctTask in H.
      destruct (truthy (targetParam p)); cbn [negb] in H;
        [|inversion H; right; simpl; auto].
      apply All in H; [assumption|discriminate]. }
    destruct (strict_eq_str (task p) "group_count").
    { unfold TwoStage.handleGroupCountTask in H.
      destruct (truthy (targetParam p)); cbn [negb] in H;
        [|inversion H; right; simpl; auto].
      apply All in H; [assumption|discriminate]. }
    destruct (strict_eq_str (task p) "sum_area").
    { unfold TwoStage.handleSumAreaTask in H.
      destruct (truthy (propsFlatKey p)); cbn [negb] in H;
        [|inversion H; right; simpl; auto].
      apply All in H; [assumption|].
      intros rows Hr. apply Gem in Hr; [assumption|discriminate]. }
    unfold TwoStage.handleListTask in H. apply All in H; [assumption|discriminate].
  - unfold Unified.runQuery in H.
    destruct (Unified.compileWhere meta p) as [cl ps].
    destruct (strict_eq_str (task p) "count"); [now apply Count in H|].
    destruct (strict_eq_str (task p) "distinct").
    { unfold Unified.handleDistinctTask in H.
      destruct (truthy (targetParam p)); cbn [negb] in H;
        [|inversion H; right; simpl; auto].
      apply All in H; [assumption|discriminate]. }
    destruct (strict_eq_str (task p) "group_count").
    { unfold Unified.handleGroupCountTask in H.
      destruct (truthy (targetParam p)); cbn [negb] in H;
        [|inversion H; right; simpl; auto].
      apply All in H; [assumption|discriminate]. }
    destruct (strict_eq_str (task p) "sum_area").
    { unfold Unified.handleSumAreaTask in H.
      destruct (truthy (propsFlatKey p)); cbn [negb] in H;
        [|inversion H; right; simpl; auto].
      apply All in H; [assumption|].
      intros rows Hr. apply Gem in Hr; [assumption|discriminate]. }
    destruct (strict_eq_str (task p) "sum_volume").
    { unfold Unified.handleSumVolumeTask in H. apply All in H; [assumption|].
      intros rows Hr. apply Gem in Hr; [assumption|discriminate]. }
    unfold Unified.handleListTask in H. apply All in H; [assumption|discriminate].
Qed.

(** X24. Every failed request has one of two origins: the error was thrown
    by the store, the JSON parser or the reasoning service, or it is one of
    the errors the routers raise themselves (a distinct or grouping task
    without a target, an area sum without a key, a blob that parses to
    null). In particular a fault of the embedding service or of the
    similarity search never fails a request. *)
Theorem failed_requests_have_a_known_origin
    (env : Env) (body : Obj) (m : string) :
  TwoStage.post env body = Failed m \/ Unified.post env body = Failed m ->
  thrownByCollaborator env m \/ In m contractMessages.
Proof.
  assert (Text : forall pr (k : string -> Response),
             catchNext (answer <- geminiText env pr ;; Ret (k answer)) = Failed m ->
             (forall a, k a <> Failed m) ->
             thrownByCollaborator env m \/ In m contractMessages).
  { intros pr k H Hk. destruct (geminiText env pr) as [a|e] eqn:E;
      cbn [bind catchNext] in H; [now apply Hk in H|].
    inversion H; subst. left. right. right. right. right. eauto. }
  intros [H|H].
  - unfold TwoStage.post in H.
    destruct (truthy (get body "urn")); cbn [negb] in H; [|discriminate].
    destruct (truthy (get body "question")); cbn [negb] in H; [|discriminate].
    destruct (TwoStage.getMeta env (get body "urn")) as [meta|e] eqn:M;
      cbn [bind] in H.
    2:{ cbn [catchNext] in H. inversion H; subst.
        apply (getMeta_throw_origin env (get body "urn")). now left. }
    destruct (geminiJson env (TwoStage.intentPrompt _ _ _)) as [plan1|e] eqn:P1;
      cbn [bind] in H.
    2:{ cbn [catchNext] in H. inversion H; subst.
        left. right. right. right. left. eauto. }
    destruct (strict_eq_str (get plan1 "intent") "general").
    { apply Text in H; [assumption|discriminate]. }
    destruct (geminiJson env (TwoStage.parameterPrompt _ _ _ _)) as [plan2|e] eqn:P2;
      cbn [bind] in H.
    2:{ cbn [catchNext] in H. inversion H; subst.
        left. right. right. right. left. eauto. }
    destruct (TwoStage.runQuery env meta _ _) as [result|e] eqn:R; cbn [bind] in H.
    2:{ cbn [catchNext] in H. inversion H; subst.
        eapply runQuery_throw_origin. left. exact R. }
    apply Text in H; [assumption|discriminate].
  - unfold Unified.post, Unified.analyzeQuestion in H.
    destruct (truthy (get body "urn")); cbn [negb] in H; [|discriminate].
    destruct (truthy (get body "question")); cbn [negb] in H; [|discriminate].
    destruct (Unified.getMeta env (get body "urn")) as [meta|e] eqn:M;
      cbn [bind] in H.
    2:{ cbn [catchNext] in H. inversion H; subst.
        apply (getMeta_throw_origin env (get body "urn")). now right. }
    destruct (geminiJson env (Unified.buildAnalysisPrompt _ _)) as [analysis|e] eqn:P1;
      cbn [bind] in H.
    2:{ cbn [catchNext] in H. inversion H; subst.
        left. right. right. right. left. eauto. }
    destruct (strict_eq_str (get analysis "intent") "general").
    { apply Text in H; [assumption|discriminate]. }
    destruct (Unified.runQuery env meta _ _) as [result|e] eqn:R; cbn [bind] in H.
    2:{ cbn [catchNext] in H. inversion H; subst.
        eapply runQuery_throw_origin. right. exact R. }
    apply Text in H; [assumption|discriminate].
Qed.

Lemma failed_requests_have_a_known_origin_witness :
  thrownByCollaborator (Samples.chatEnv "distinct" []) "distinct requires targetParam"
  \/ In "distinct requires targetParam" contractMessages.
Proof.
  apply (failed_requests_have_a_known_origin (Samples.chatEnv "distinct" [])
           Samples.chatBody).
  left. reflexivity.
Defined.

(** X25. A question classified as general runs no query: once the metadata
    is read and the reasoning step answers with the intent "general", the
    reply is the text of the general answer, with no hits, or the failure of
    that text call; the store is not asked anything more and the rest of the
    plan is ignored. *)
Theorem general_intent_runs_no_query
    (env : Env) (body : Obj) (meta : Meta) (reply : Obj) :
  truthy (get body "urn") = true ->
  truthy (get body "question") = true ->
  get reply "intent" = JStr "general" ->
  let debugOf := if truthy (get body "debug") then Some (meta, reply) else None in
  let answered := fun post =>
    match geminiText env (GeneralPrompt (get body "question")) with
    | Ret answer => post = GeneralReply answer debugOf
    | Throw e => post = Failed e
    end in
  (TwoStage.getMeta env (get body "urn") = Ret meta ->
   geminiJson env
     (TwoStage.intentPrompt (get body "question") (categories meta)
        (TwoStage.detectHintCategory env (get body "question") (categories meta)))
   = Ret reply ->
   answered (TwoStage.post env body))
  /\ (Unified.getMeta env (get body "urn") = Ret meta ->
      geminiJson env (Unified.buildAnalysisPrompt (get body "question") meta)
      = Ret reply ->
      answered (Unified.post env body)).
Proof.
  intros U Q G debugOf answered. split; intros M P.
  - unfold answered, TwoStage.post. rewrite U, Q. cbn [negb].
    rewrite M. cbn [bind]. rewrite P. cbn [bind]. rewrite G.
    cbn [strict_eq_str]. rewrite String.eqb_refl.
    destruct (geminiText env _); reflexivity.
  - unfold answered, Unified.post, Unified.analyzeQuestion. rewrite U, Q.
    cbn [negb]. rewrite M. cbn [bind]. rewrite P. cbn [bind]. rewrite G.
    cbn [strict_eq_str]. rewrite String.eqb_refl.
    destruct (geminiText env _); reflexivity.
Qed.

Lemma general_intent_runs_no_query_witness :
  Unified.post Samples.generalEnv Samples.chatBody
  = GeneralReply "BIM is a building information model." None.
Proof.
  apply (proj2 (general_intent_runs_no_query Samples.generalEnv Samples.chatBody
                  (mkMeta "component_type" ["Doors"]
                          (map (fun k => (k, [])) SAMPLE_KEYS) [] (Some []))
                  [("intent", JStr "general"); ("task", JStr "count")]
                  eq_refl eq_refl eq_refl)); reflexivity.
Defined.

Lemma hitsOf_shape (result : TaskResult) :
  (forall docs, result = RList docs ->
                hitsOf result = HitsList (List.length docs) docs)
  /\ (kindOf result <> "list" -> hitsOf result = HitsResult result).
Proof.
  split.
  - intros docs ->. reflexivity.
  - destruct result; intros K; try reflexivity. now contradiction K.
Qed.

(** X26. A data reply carries the hits of the query that ran: the route
    read the metadata, built and validated a plan from the replies of the
    reasoning service, [runQuery] returned a result for that plan, and the
    answer text was written from it; the hits are the documents of that
    result with their exact count when it is a list result, and that result
    itself when its kind is not "list". The debug block holds that
    metadata, plan and result, and is present exactly when the request asked
    for it. *)
Theorem data_reply_carries_the_query_result
    (env : Env) (body : Obj) (answer : string) (hits : Hits)
    (debug : option (Meta * Plan * TaskResult)) :
  let u := get body "urn" in
  let q := get body "question" in
  let carried := fun (meta : Meta) (plan : Plan) (result : TaskResult) =>
    geminiText env (AnswerPrompt q meta plan result) = Ret answer
    /\ (forall docs, result = RList docs ->
                     hits = HitsList (List.length docs) docs)
    /\ (kindOf result <> "list" -> hits = HitsResult result)
    /\ debug = (if truthy (get body "debug")
                then Some (meta, plan, result) else None) in
  (TwoStage.post env body = DataReply answer hits debug ->
   exists meta plan1 plan2 result,
     let hint := TwoStage.detectHintCategory env q (categories meta) in
     let cat := TwoStage.finalCategory plan1 hint (categories meta) in
     let plan :=
       TwoStage.validatePlanParams (TwoStage.buildQueryPlan plan1 plan2 u cat) in
     TwoStage.getMeta env u = Ret meta
     /\ geminiJson env (TwoStage.intentPrompt q (categories meta) hint) = Ret plan1
     /\ geminiJson env
          (TwoStage.parameterPrompt q (set plan1 "category" cat)
             (paramSamples meta) (areaKeys meta)) = Ret plan2
     /\ TwoStage.runQuery env meta plan q = Ret result
     /\ carried meta plan result)
  /\ (Unified.post env body = DataReply answer hits debug ->
      exists meta analysis result,
        let plan := Unified.validateAndBuildPlan analysis u (categories meta) in
        Unified.getMeta env u = Ret meta
        /\ geminiJson env (Unified.buildAnalysisPrompt q meta) = Ret analysis
        /\ Unified.runQuery env meta plan q = Ret result
        /\ carried meta plan result).
Proof.
  intros u q carried.
  assert (Fin : forall pr meta plan result,
             catchNext
               (a <- geminiText env pr ;;
                Ret (DataReply a (hitsOf result)
                       (if truthy (get body "debug")
                        then Some (meta, plan, result) else None)))
             = DataReply answer hits debug ->
             geminiText env pr = Ret answer
             /\ (forall docs, result = RList docs ->
                              hits = HitsList (List.length docs) docs)
             /\ (kindOf result <> "list" -> hits = HitsResult result)
             /\ debug = (if truthy (get body "debug")
                         then Some (meta, plan, result) else None)).
  { intros pr meta plan result H.
    destruct (geminiText env pr) as [a|e]; cbn [bind catchNext] in H;
      [|discriminate].
    inversion H; subst. destruct (hitsOf_shape result) as [S1 S2].
    split; [reflexivity|]. split; [exact S1|]. split; [exact S2|reflexivity]. }
  assert (Gen : forall pr (d : option (Meta * Obj)),
             catchNext (a <- geminiText env pr ;; Ret (GeneralReply a d))
             <> DataReply answer hits debug).
  { intros pr d. destruct (geminiText env pr); cbn [bind catchNext]; discriminate. }
  split; intros H.
  - unfold TwoStage.post in H. fold u q in H.
    destruct (truthy u); cbn [negb] in H; [|discriminate].
    destruct (truthy q); cbn [negb] in H; [|discriminate].
    destruct (TwoStage.getMeta env u) as [meta|e];
      cbn [bind] in H; [|discriminate].
    destruct (geminiJson env (TwoStage.intentPrompt _ _ _)) as [plan1|e] eqn:P1;
      cbn [bind] in H; [|discriminate].
    destruct (strict_eq_str (get plan1 "intent") "general");
      [now apply Gen in H|].
    destruct (geminiJson env (TwoStage.parameterPrompt _ _ _ _)) as [plan2|e] eqn:P2;
      cbn [bind] in H; [|discriminate].
    destruct (TwoStage.runQuery env meta _ _) as [result|e] eqn:R; cbn [bind] in H;
      [|discriminate].
    apply Fin in H. exists meta, plan1, plan2, result. cbv zeta.
    split; [reflexivity|]. split; [exact P1|]. split; [exact P2|].
    split; [exact R|exact H].
  - unfold Unified.post, Unified.analyzeQuestion in H. fold u q in H.
    destruct (truthy u); cbn [negb] in H; [|discriminate].
    destruct (truthy q); cbn [negb] in H; [|discriminate].
    destruct (Unified.getMeta env u) as [meta|e];
      cbn [bind] in H; [|discriminate].
    destruct (geminiJson env (Unified.buildAnalysisPrompt _ _)) as [analysis|e] eqn:P1;
      cbn [bind] in H; [|discriminate].
    destruct (strict_eq_str (get analysis "intent") "general");
      [now apply Gen in H|].
    destruct (Unified.runQuery env meta _ _) as [result|e] eqn:R; cbn [bind] in H;
      [|discriminate].
    apply Fin in H. exists meta, analysis, result. cbv zeta.
    split; [reflexivity|]. split; [exact P1|]. split; [exact R|exact H].
Qed.

Lemma data_reply_carries_the_query_result_witness :
  exists meta plan result,
    TwoStage.runQuery (Samples.chatEnv "list" []) meta plan (JStr "how many doors?")
    = Ret result
    /\ (forall docs, result = RList docs ->
                     HitsList 0 [] = HitsList (List.length docs) docs)
    /\ (kindOf result <> "list" -> HitsList 0 [] = HitsResult result).
Proof.
  destruct (proj1 (data_reply_carries_the_query_result (Samples.chatEnv "list" [])
                     Samples.chatBody "ok" (HitsList 0 []) None))
    as [meta [plan1 [plan2 [result [M [P1 [P2 [R [_ [S1 [S2 _]]]]]]]]]]].
  - vm_compute. reflexivity.
  - eexists meta, _, result. split; [exact R|]. split; [exact S1|exact S2].
Defined.
